(** * contrib_counter: the contribution fetcher and heat-map builder

    A shallow embedding of [contrib_counter/count_contribs.py].

    The program talks to a GraphQL endpoint, walks the pages of every yearly
    window of a date range, and pivots the time stamps it collected into a
    weekday by week grid.  Its data are the Python values that
    [response.json()] produces, so the embedding keeps them dynamically typed:
    a subscript on the wrong kind of value raises here as it does in Python. *)

From Stdlib Require Import ZArith QArith List Sorted String Ascii Bool.
From Stdlib Require Import DecimalString Lia.
Import ListNotations.

Set Warnings "-register-all".
Local Open Scope string_scope.
Local Open Scope Z_scope.
Local Open Scope list_scope.

(** ** Python values and exceptions *)

(** What [json.loads] returns.  A dict keeps its items in insertion order, the
    keys pairwise distinct; numbers are integers (the program reads none). *)
Inductive json : Type :=
| JNull
| JBool (b : bool)
| JNum (n : Z)
| JStr (s : string)
| JArr (items : list json)
| JObj (fields : list (string * json)).

(** The builtin exceptions the program can meet; [ConnectionError] stands for
    whatever [requests.post] or [response.json] raise. *)
Inductive exn : Type :=
| KeyError
| IndexError
| TypeError
| ValueError
| ConnectionError.

Inductive result (A : Type) : Type :=
| Ok (a : A)
| Raise (e : exn).

Arguments Ok {A} a.
Arguments Raise {A} e.

Definition rbind {A B : Type} (r : result A) (k : A -> result B) : result B :=
  match r with
  | Ok a => k a
  | Raise e => Raise e
  end.

Notation "'let?' x ':=' r 'in' k" := (rbind r (fun x => k))
  (at level 10, x pattern, r at level 100, k at level 200).

(** A [for] statement whose body updates one local variable. *)
Fixpoint for_each {A S : Type} (xs : list A) (s : S) (body : A -> S -> result S)
  : result S :=
  match xs with
  | [] => Ok s
  | x :: xs' => let? s' := body x s in for_each xs' s' body
  end.

Fixpoint lookup (k : string) (fields : list (string * json)) : option json :=
  match fields with
  | [] => None
  | (k', v) :: rest => if (k' =? k)%string then Some v else lookup k rest
  end.

(** [v[k]] with a [str] key. *)
Definition getitem (v : json) (k : string) : result json :=
  match v with
  | JObj fields =>
      match lookup k fields with
      | Some x => Ok x
      | None => Raise KeyError
      end
  | _ => Raise TypeError
  end.

Definition char_items (s : string) : list json :=
  map (fun c => JStr (String c EmptyString)) (list_ascii_of_string s).

(** [iter(v)]: what a [for] statement or [list.extend] walks through. *)
Definition py_iter (v : json) : result (list json) :=
  match v with
  | JArr items => Ok items
  | JObj fields => Ok (map (fun kv => JStr (fst kv)) fields)
  | JStr s => Ok (char_items s)
  | _ => Raise TypeError
  end.

(** [v[i]] with an [int] index; a negative index counts from the end. *)
Definition getitem_int (v : json) (i : Z) : result json :=
  let at_index (items : list json) :=
    let n := Z.of_nat (List.length items) in
    let j := if i <? 0 then i + n else i in
    if (0 <=? j) && (j <? n)
    then match nth_error items (Z.to_nat j) with
         | Some x => Ok x
         | None => Raise IndexError
         end
    else Raise IndexError in
  match v with
  | JArr items => at_index items
  | JStr s => at_index (char_items s)
  | JObj _ => Raise KeyError
  | _ => Raise TypeError
  end.

Definition is_str (k : string) (v : json) : bool :=
  match v with
  | JStr s => (s =? k)%string
  | _ => false
  end.

(** [k in v] with a [str] on the left. *)
Definition py_in (k : string) (v : json) : result bool :=
  match v with
  | JObj fields =>
      Ok (match lookup k fields with Some _ => true | None => false end)
  | JArr items => Ok (existsb (is_str k) items)
  | JStr s =>
      Ok (match String.index 0 k s with Some _ => true | None => false end)
  | _ => Raise TypeError
  end.

(** Truth value of a Python object in an [if]. *)
Definition truthy (v : json) : bool :=
  match v with
  | JNull => false
  | JBool b => b
  | JNum n => negb (n =? 0)
  | JStr s => negb (s =? "")%string
  | JArr items => match items with [] => false | _ => true end
  | JObj fields => match fields with [] => false | _ => true end
  end.

Definition dquote : string := String "034"%char EmptyString.

(** ** Effects

    The program's effects are recorded as a trace, oldest event first: the
    requests posted, the lines printed, the files the renderer writes, and
    the calls a recording stand-in of a function receives. *)

Record request : Type := {
  url : string;
  query : string;
  headers : list (string * string)
}.

(** The figure [px.imshow] is given: the capped cell values row by row, and the
    positions and labels of the ticks of the horizontal axis. *)
Record Figure : Type := {
  fig_z : list (list Q);
  fig_yticks : list string;
  fig_tickvals : list Z;
  fig_ticktext : list string
}.

Inductive event : Type :=
| Sent (r : request)
| Printed (label : string) (v : json)
| WroteHtml (path : string) (fig : Figure)
| Shown (fig : Figure)
| Called (callee : string) (arg : string).

Definition world : Type := list event.

(** A computation reads and extends the trace; it returns normally, raises,
    or ([None]) is cut off because a [while True] loop used up its fuel. *)
Definition M (A : Type) : Type := world -> option (result A * world).

Definition ret {A : Type} (a : A) : M A := fun w => Some (Ok a, w).

Definition lift {A : Type} (r : result A) : M A := fun w => Some (r, w).

Definition bind {A B : Type} (m : M A) (k : A -> M B) : M B :=
  fun w =>
    match m w with
    | Some (Ok a, w') => k a w'
    | Some (Raise e, w') => Some (Raise e, w')
    | None => None
    end.

Definition emit (e : event) : M unit := fun w => Some (Ok tt, w ++ [e]).

Notation "x <- m ;; k" := (bind m (fun x => k))
  (at level 61, m at next level, right associativity).
Notation "m ;;; k" := (bind m (fun _ => k))
  (at level 61, right associativity).

Definition requests_sent (w : world) : list request :=
  flat_map (fun e => match e with Sent r => [r] | _ => [] end) w.

(** What the endpoint does with one request. *)
Inductive reply : Type :=
| Fault (e : exn)
| Body (data : json).

(** A [for] statement with effects in its body. *)
Fixpoint for_each_M {A S : Type} (xs : list A) (s : S) (body : A -> S -> M S)
  : M S :=
  match xs with
  | [] => ret s
  | x :: xs' => s' <- body x s ;; for_each_M xs' s' body
  end.

(** ** Calendar dates *)

(** The fields of a [datetime] the program reads; the time of day, which
    [strptime] leaves at midnight, is never looked at. *)
Record datetime : Type := {
  year : Z;
  month : Z;
  day : Z
}.

Definition is_leap (y : Z) : bool :=
  (y mod 4 =? 0) && (negb (y mod 100 =? 0) || (y mod 400 =? 0)).

Definition days_in_month (y m : Z) : Z :=
  match m with
  | 2 => if is_leap y then 29 else 28
  | 4 | 6 | 9 | 11 => 30
  | _ => 31
  end.

(** The dates a [datetime] can hold. *)
Definition valid_date (y m d : Z) : bool :=
  (1 <=? y) && (y <=? 9999) && (1 <=? m) && (m <=? 12)
  && (1 <=? d) && (d <=? days_in_month y m).

(** [dt.replace(year=y)]: raises [ValueError] when the day does not exist in
    the new year. *)
Definition replace_year (dt : datetime) (y : Z) : result datetime :=
  if valid_date y (month dt) (day dt)
  then Ok {| year := y; month := month dt; day := day dt |}
  else Raise ValueError.

Definition digit (n : Z) : ascii := ascii_of_nat (48 + Z.to_nat (n mod 10)).

Definition pad2 (n : Z) : string :=
  String (digit (n / 10)) (String (digit n) EmptyString).

Definition pad4 (n : Z) : string :=
  String (digit (n / 1000)) (String (digit (n / 100)) (pad2 n)).

(** [dt.strftime("%Y-%m-%d")], the year written with four digits, as it is
    for every year from 1000 on. *)
Definition strftime_Ymd (dt : datetime) : string :=
  (pad4 (year dt) ++ "-" ++ pad2 (month dt) ++ "-" ++ pad2 (day dt))%string.

(** [range(n)]: empty when [n] is not positive. *)
Definition py_range (n : Z) : list Z := map Z.of_nat (seq 0 (Z.to_nat n)).

(** ** Query construction and the fetch loop *)

Section Fetch.

(** [str(v)] for a value that is not a [str]; the f-string of the query needs
    it only when the endpoint sends a cursor of another type. *)
Variable py_str : json -> string.

(** The reply of the endpoint to its [n]-th request, counting from 0. *)
Variable server : nat -> request -> reply.

Definition format_value (v : json) : string :=
  match v with
  | JStr s => s
  | _ => py_str v
  end.

Definition get_contributions_query (username from_date : string) (cursor : json)
  : string :=
  let after_clause :=
    if truthy cursor
    then (", after: " ++ dquote ++ format_value cursor ++ dquote)%string
    else "" in
  ("
    {
      user(login: " ++ dquote ++ username ++ dquote ++ ") {
        contributionsCollection(from: " ++ dquote ++ from_date ++ "T00:00:00Z" ++ dquote ++ ") {
          commitContributionsByRepository(maxRepositories: 100) {
            contributions(first: 100" ++ after_clause ++ ") {
              nodes {
                occurredAt
              }
              pageInfo {
                hasNextPage
                endCursor
              }
            }
          }
          issueContributions(first: 100" ++ after_clause ++ ") {
            nodes {
              occurredAt
            }
            pageInfo {
              hasNextPage
              endCursor
            }
          }
          pullRequestContributions(first: 100" ++ after_clause ++ ") {
            nodes {
              occurredAt
            }
            pageInfo {
              hasNextPage
              endCursor
            }
          }
          pullRequestReviewContributions(first: 100" ++ after_clause ++ ") {
            nodes {
              occurredAt
            }
            pageInfo {
              hasNextPage
              endCursor
            }
          }
          repositoryContributions(first: 100" ++ after_clause ++ ") {
            nodes {
              occurredAt
            }
            pageInfo {
              hasNextPage
              endCursor
            }
          }
          restrictedContributionsCount  # Includes restricted contributions (e.g., private contributions)
          contributionCalendar {
            totalContributions
            weeks {
              contributionDays {
                contributionCount
                date
              }
            }
          }
        }
      }
    }
    ")%string.

Definition extract_contributions (contributions_data : json)
  : result (list json) :=
  let contributions := [] in
  let? repos := getitem contributions_data "commitContributionsByRepository" in
  let? repo_contribs := py_iter repos in
  let? contributions :=
    for_each repo_contribs contributions (fun repo_contrib contributions =>
      let? c := getitem repo_contrib "contributions" in
      let? nodes := getitem c "nodes" in
      let? items := py_iter nodes in
      Ok (contributions ++ items)) in
  let? issues := getitem contributions_data "issueContributions" in
  let? issue_nodes := getitem issues "nodes" in
  let? items := py_iter issue_nodes in
  let contributions := contributions ++ items in
  let? pulls := getitem contributions_data "pullRequestContributions" in
  let? pull_nodes := getitem pulls "nodes" in
  let? items := py_iter pull_nodes in
  let contributions := contributions ++ items in
  Ok contributions.

Definition get_page_info (contributions_data : json) : result json :=
  let? repos := getitem contributions_data "commitContributionsByRepository" in
  let? first := getitem_int repos 0 in
  let? c := getitem first "contributions" in
  let? commit_page_info := getitem c "pageInfo" in
  let? has_next := getitem commit_page_info "hasNextPage" in
  let? end_cursor := getitem commit_page_info "endCursor" in
  Ok (JObj [("hasNextPage", has_next); ("endCursor", end_cursor)]).

Definition graphql_url : string := "https://api.github.com/graphql".

(** [requests.post(...)] followed by [response.json()]. *)
Definition post (q : string) (header : list (string * string)) : M json :=
  fun w =>
    let r := {| url := graphql_url; query := q; headers := header |} in
    match server (List.length (requests_sent w)) r with
    | Fault e => Some (Raise e, w ++ [Sent r])
    | Body data => Some (Ok data, w ++ [Sent r])
    end.

Definition print (label : string) (v : json) : M unit :=
  emit (Printed label v).

(** The [while True] loop of [fetch_contributions], entered with the
    contributions gathered and the cursor reached so far. *)
Fixpoint fetch_loop (fuel : nat) (username : string)
  (header : list (string * string)) (from_date : string)
  (contributions : list json) (cursor : json) : M (list json) :=
  match fuel with
  | O => fun _ => None
  | S fuel' =>
      let query := get_contributions_query username from_date cursor in
      data <- post query header ;;
      has_errors <- lift (py_in "errors" data) ;;
      if has_errors : bool then
        errors <- lift (getitem data "errors") ;;
        print "GraphQL API returned errors:" errors ;;;
        ret contributions
      else
        contributions_data <-
          lift (let? d := getitem data "data" in
                let? u := getitem d "user" in
                getitem u "contributionsCollection") ;;
        extracted <- lift (extract_contributions contributions_data) ;;
        let contributions := contributions ++ extracted in
        page_info <- lift (get_page_info contributions_data) ;;
        has_next <- lift (getitem page_info "hasNextPage") ;;
        if truthy has_next then
          cursor <- lift (getitem page_info "endCursor") ;;
          fetch_loop fuel' username header from_date contributions cursor
        else
          ret contributions
  end.

Definition fetch_contributions (fuel : nat) (username : string)
  (header : list (string * string)) (from_date : string) : M (list json) :=
  fetch_loop fuel username header from_date [] JNull.

(** The [for] loop of [fetch_all_contributions] over the offsets still to
    do; [fetch] is the per-year fetch the module binds at the call. *)
Definition fetch_years
  (fetch : string -> list (string * string) -> string -> M (list json))
  (username : string) (header : list (string * string))
  (start_date : datetime) (offsets : list Z) (contributions : list json)
  : M (list json) :=
  for_each_M offsets contributions (fun year_offset contributions =>
    current_start <-
      lift (replace_year start_date (year start_date + year_offset)) ;;
    fetched <- fetch username header (strftime_Ymd current_start) ;;
    ret (contributions ++ fetched)).

Definition fetch_all_contributions_with
  (fetch : string -> list (string * string) -> string -> M (list json))
  (username : string) (header : list (string * string))
  (start_date end_date : datetime) : M (list json) :=
  fetch_years fetch username header start_date
    (py_range (year end_date - year start_date)) [].

Definition fetch_all_contributions (fuel : nat) (username : string)
  (header : list (string * string)) (start_date end_date : datetime)
  : M (list json) :=
  fetch_all_contributions_with (fetch_contributions fuel)
    username header start_date end_date.

Definition process_contributions (contributions_data : list json)
  : result (list json) :=
  for_each contributions_data [] (fun contribution dates =>
    let? d := getitem contribution "occurredAt" in
    Ok (dates ++ [d])).

End Fetch.

(** ** Well-formed responses

    The shape of the [contributionsCollection] object that answers the query
    of [get_contributions_query], and its rendering as a Python value.  The
    nodes are kept as raw values: the fetch never looks inside them. *)

Record PageInfo : Type := {
  hasNextPage : bool;
  endCursor : option string
}.

Record Connection : Type := {
  nodes : list json;
  pageInfo : PageInfo
}.

Record Collection : Type := {
  commitContributionsByRepository : list Connection;
  issueContributions : Connection;
  pullRequestContributions : Connection;
  pullRequestReviewContributions : Connection;
  repositoryContributions : Connection;
  restrictedContributionsCount : Z;
  contributionCalendar : json
}.

Definition encode_cursor (c : option string) : json :=
  match c with
  | Some s => JStr s
  | None => JNull
  end.

Definition encode_page_info (p : PageInfo) : json :=
  JObj [("hasNextPage", JBool (hasNextPage p));
        ("endCursor", encode_cursor (endCursor p))].

Definition encode_connection (c : Connection) : json :=
  JObj [("nodes", JArr (nodes c)); ("pageInfo", encode_page_info (pageInfo c))].

Definition encode_repository (c : Connection) : json :=
  JObj [("contributions", encode_connection c)].

Definition encode_collection (p : Collection) : json :=
  JObj [("commitContributionsByRepository",
           JArr (map encode_repository (commitContributionsByRepository p)));
        ("issueContributions", encode_connection (issueContributions p));
        ("pullRequestContributions",
           encode_connection (pullRequestContributions p));
        ("pullRequestReviewContributions",
           encode_connection (pullRequestReviewContributions p));
        ("repositoryContributions",
           encode_connection (repositoryContributions p));
        ("restrictedContributionsCount", JNum (restrictedContributionsCount p));
        ("contributionCalendar", contributionCalendar p)].

(** A response body without errors. *)
Definition encode_body (p : Collection) : json :=
  JObj [("data",
         JObj [("user",
                JObj [("contributionsCollection", encode_collection p)])])].

(** The events the program is meant to keep from one page. *)
Definition page_events (p : Collection) : list json :=
  flat_map nodes (commitContributionsByRepository p)
  ++ nodes (issueContributions p)
  ++ nodes (pullRequestContributions p).

(** An endpoint that answers from a fixed list of replies, whatever it is
    asked, and fails once the list is used up. *)
Definition scripted (replies : list reply) : nat -> request -> reply :=
  fun n _ => nth n replies (Fault ConnectionError).

(** A stand-in for the per-year fetch that records the window it is called
    with and answers from a table. *)
Definition recording_fetch (answer : string -> list json)
  : string -> list (string * string) -> string -> M (list json) :=
  fun _ _ from_date w =>
    Some (Ok (answer from_date), w ++ [Called "fetch_contributions" from_date]).

(** The windows of a date range, as the strings handed to the per-year
    fetch. *)
Definition year_windows (start_date end_date : datetime) : list string :=
  map (fun k => strftime_Ymd {| year := year start_date + k;
                                month := month start_date;
                                day := day start_date |})
      (py_range (year end_date - year start_date)).

(** ** Time stamps and the calendar columns *)

(** A pandas [Timestamp] in UTC. *)
Record Timestamp : Type := {
  ts_year : Z;
  ts_month : Z;
  ts_day : Z;
  ts_hour : Z;
  ts_minute : Z;
  ts_second : Z;
  ts_nanosecond : Z
}.

(** Days since 1970-01-01 in the proleptic Gregorian calendar. *)
Definition days_from_civil (y m d : Z) : Z :=
  let y' := if m <=? 2 then y - 1 else y in
  let era := y' / 400 in
  let yoe := y' - era * 400 in
  let mp := if 2 <? m then m - 3 else m + 9 in
  let doy := (153 * mp + 2) / 5 + d - 1 in
  let doe := yoe * 365 + yoe / 4 - yoe / 100 + doy in
  era * 146097 + doe - 719468.

(** The instant as pandas stores it: nanoseconds since the epoch. *)
Definition ts_value (t : Timestamp) : Z :=
  (((days_from_civil (ts_year t) (ts_month t) (ts_day t) * 24 + ts_hour t) * 60
    + ts_minute t) * 60 + ts_second t) * 1000000000 + ts_nanosecond t.

(** [.dt.weekday]: Monday is 0, Sunday is 6. *)
Definition weekday (t : Timestamp) : Z :=
  (days_from_civil (ts_year t) (ts_month t) (ts_day t) + 3) mod 7.

Definition day_of_year (y m d : Z) : Z :=
  days_from_civil y m d - days_from_civil y 1 1 + 1.

Definition iso_weeks_in_year (y : Z) : Z :=
  let p := fun y => (y + y / 4 - y / 100 + y / 400) mod 7 in
  if (p y =? 4) || (p (y - 1) =? 3) then 53 else 52.

(** [.dt.isocalendar().week]. *)
Definition iso_week (t : Timestamp) : Z :=
  let y := ts_year t in
  let w := (day_of_year y (ts_month t) (ts_day t) - (weekday t + 1) + 10) / 7 in
  if w <? 1 then iso_weeks_in_year (y - 1)
  else if iso_weeks_in_year y <? w then 1
  else w.

(** *** Parsing the time stamps GitHub sends

    [occurredAt] is an ISO-8601 instant in UTC, such as
    [2023-01-02T10:00:00Z]; on this format the parser below agrees with
    [pd.to_datetime(..., utc=True)], which accepts other formats too. *)

Definition digit_value (c : ascii) : option Z :=
  let n := Z.of_nat (nat_of_ascii c) in
  if (48 <=? n) && (n <=? 57) then Some (n - 48) else None.

Fixpoint take_number (n : nat) (acc : Z) (cs : list ascii)
  : option (Z * list ascii) :=
  match n with
  | O => Some (acc, cs)
  | S n' =>
      match cs with
      | c :: rest =>
          match digit_value c with
          | Some v => take_number n' (10 * acc + v) rest
          | None => None
          end
      | [] => None
      end
  end.

Definition expect (c : ascii) (cs : list ascii) : option (list ascii) :=
  match cs with
  | c' :: rest => if Ascii.eqb c c' then Some rest else None
  | [] => None
  end.

Definition obind {A B : Type} (o : option A) (k : A -> option B) : option B :=
  match o with
  | Some a => k a
  | None => None
  end.

Definition parse_instant (s : string) : option Timestamp :=
  obind (take_number 4 0 (list_ascii_of_string s)) (fun '(y, cs) =>
  obind (expect "-" cs) (fun cs =>
  obind (take_number 2 0 cs) (fun '(m, cs) =>
  obind (expect "-" cs) (fun cs =>
  obind (take_number 2 0 cs) (fun '(d, cs) =>
  obind (expect "T" cs) (fun cs =>
  obind (take_number 2 0 cs) (fun '(h, cs) =>
  obind (expect ":" cs) (fun cs =>
  obind (take_number 2 0 cs) (fun '(mi, cs) =>
  obind (expect ":" cs) (fun cs =>
  obind (take_number 2 0 cs) (fun '(sec, cs) =>
  obind (expect "Z" cs) (fun cs =>
    match cs with
    | [] =>
        if valid_date y m d && (h <? 24) && (mi <? 60) && (sec <? 60)
        then Some {| ts_year := y; ts_month := m; ts_day := d;
                     ts_hour := h; ts_minute := mi; ts_second := sec;
                     ts_nanosecond := 0 |}
        else None
    | _ => None
    end)))))))))))).

Fixpoint iso_to_datetime (dates : list string) : result (list Timestamp) :=
  match dates with
  | [] => Ok []
  | s :: rest =>
      match parse_instant s with
      | Some t => let? ts := iso_to_datetime rest in Ok (t :: ts)
      | None => Raise ValueError
      end
  end.

(** ** The data frame of the heat map *)

(** A row of [df] once the calendar columns are added. *)
Record Row : Type := {
  row_date : Timestamp;
  row_count : Z;
  row_weekday : Z;
  row_week : Z;
  row_year : Z
}.

(** [df.groupby("date").sum()]: one row per distinct value of the [date]
    column, in ascending order, with the counts added up. *)
Fixpoint add_to_group (t : Timestamp) (c : Z) (groups : list (Timestamp * Z))
  : list (Timestamp * Z) :=
  match groups with
  | [] => [(t, c)]
  | (t', c') :: rest =>
      if ts_value t <? ts_value t' then (t, c) :: groups
      else if ts_value t =? ts_value t' then (t', c' + c) :: rest
      else (t', c') :: add_to_group t c rest
  end.

Definition groupby_date_sum (df : list (Timestamp * Z))
  : list (Timestamp * Z) :=
  fold_left (fun groups r => add_to_group (fst r) (snd r) groups) df [].

Definition calendar_columns (r : Timestamp * Z) : Row :=
  {| row_date := fst r;
     row_count := snd r;
     row_weekday := weekday (fst r);
     row_week := iso_week (fst r);
     row_year := ts_year (fst r) |}.

(** The distinct keys of an index, sorted. *)
Fixpoint insert_unique {A : Type} (cmp : A -> A -> comparison) (x : A)
  (l : list A) : list A :=
  match l with
  | [] => [x]
  | y :: rest =>
      match cmp x y with
      | Lt => x :: l
      | Eq => l
      | Gt => y :: insert_unique cmp x rest
      end
  end.

Definition sorted_unique {A : Type} (cmp : A -> A -> comparison) (l : list A)
  : list A :=
  fold_right (insert_unique cmp) [] l.

Definition pair_compare (a b : Z * Z) : comparison :=
  match fst a ?= fst b with
  | Eq => snd a ?= snd b
  | c => c
  end.

(** The mean of a non-empty column of integers, as an exact rational (pandas
    holds its rounding to a [float64]). *)
Definition mean (xs : list Z) : Q :=
  Qred (Qmake (fold_right Z.add 0 xs) (Pos.of_nat (List.length xs))).

Record Frame (L : Type) : Type := {
  index : list L;
  columns : list (Z * Z);
  values : list (list Q)
}.

Arguments index {L} f.
Arguments columns {L} f.
Arguments values {L} f.

Definition in_cell (wd : Z) (col : Z * Z) (r : Row) : bool :=
  (row_weekday r =? wd) && (row_year r =? fst col) && (row_week r =? snd col).

(** One cell of the pivot: the default aggregation of [pivot_table] is the
    mean; [fill_value] fills a cell no row falls in. *)
Definition pivot_cell (fill_value : Q) (df : list Row) (wd : Z) (col : Z * Z)
  : Q :=
  match map row_count (filter (in_cell wd col) df) with
  | [] => fill_value
  | counts => mean counts
  end.

(** [df.pivot_table(index="weekday", columns=["year", "week"],
    values="count", fill_value=0)]. *)
Definition pivot_table (df : list Row) : Frame Z :=
  let idx := sorted_unique Z.compare (map row_weekday df) in
  let cols :=
    sorted_unique pair_compare (map (fun r => (row_year r, row_week r)) df) in
  {| index := idx;
     columns := cols;
     values := map (fun wd => map (pivot_cell 0 df wd) cols) idx |}.

(** Assigning to [frame.index].  On a frame that has columns the new labels
    must be as many as the rows.  On a frame without columns pandas does not
    compare the lengths: the labels are taken whatever their number, and the
    frame then has one row per label and no cell. *)
Definition set_index {L L' : Type} (labels : list L') (f : Frame L)
  : result (Frame L') :=
  match columns f with
  | [] =>
      Ok {| index := labels; columns := []; values := map (fun _ => []) labels |}
  | _ :: _ =>
      if Nat.eqb (List.length labels) (List.length (index f))
      then Ok {| index := labels; columns := columns f; values := values f |}
      else Raise ValueError
  end.

(** Python's [min(a, b)]: [b] when it is smaller, else [a]. *)
Definition py_min (a b : Q) : Q := if Qle_bool a b then a else b.

(** The cap applied to every cell: [lambda x: min(x, 10)]. *)
Definition cap (x : Q) : Q := py_min x 10.

Definition frame_map {L : Type} (f : Q -> Q) (fr : Frame L) : Frame L :=
  {| index := index fr;
     columns := columns fr;
     values := map (map f) (values fr) |}.

(** [Series.unique()]: the distinct values in order of first appearance. *)
Fixpoint unique (l : list Z) : list Z :=
  match l with
  | [] => []
  | x :: rest => x :: filter (fun y => negb (y =? x)) (unique rest)
  end.

Definition minimum (x : Z) (xs : list Z) : Z := fold_left Z.min xs x.

(** [df.groupby(df["year"])["week"].min()], iterated: the smallest week of
    each year, the years ascending. *)
Definition year_starts (df : list Row) : list Z :=
  flat_map (fun y =>
      match map row_week (filter (fun r => row_year r =? y) df) with
      | [] => []
      | w :: ws => [minimum w ws]
      end)
    (sorted_unique Z.compare (map row_year df)).

(** [columns.get_loc(key)]. *)
Fixpoint get_loc (cols : list (Z * Z)) (key : Z * Z) : result Z :=
  match cols with
  | [] => Raise KeyError
  | c :: rest =>
      match pair_compare c key with
      | Eq => Ok 0
      | _ => let? i := get_loc rest key in Ok (i + 1)
      end
  end.

Definition str_of_int (n : Z) : string :=
  DecimalString.NilZero.string_of_int (Z.to_int n).

Definition weekday_labels : list string :=
  ["Monday"; "Tuesday"; "Wednesday"; "Thursday"; "Friday"].

(** Lines 213 to 230 of [generate_plotly_heatmap]: from the parsed time
    stamps to the filtered frame and its pivot. *)
Definition weekday_rows (stamps : list Timestamp) : list Row :=
  let df := map (fun t => (t, 1)) stamps in
  let df := groupby_date_sum df in
  let df := map calendar_columns df in
  filter (fun r => row_weekday r <? 5) df.

Definition heatmap_grid (stamps : list Timestamp) : Frame Z :=
  pivot_table (weekday_rows stamps).

Section Heatmap.

(** [pd.to_datetime(dates, utc=True)]. *)
Variable to_datetime : list string -> result (list Timestamp).

Definition generate_plotly_heatmap (dates : list string) (output_file : string)
  : M unit :=
  stamps <- lift (to_datetime dates) ;;
  let df := weekday_rows stamps in
  let heatmap_data := pivot_table df in
  heatmap_data <- lift (set_index weekday_labels heatmap_data) ;;
  let heatmap_data := frame_map cap heatmap_data in
  let years := unique (map row_year df) in
  tickvals <-
    lift (for_each (combine years (year_starts df)) [] (fun key locs =>
            let? loc := get_loc (columns heatmap_data) key in
            Ok (locs ++ [loc]))) ;;
  let fig := {| fig_z := values heatmap_data;
                fig_yticks := weekday_labels;
                fig_tickvals := tickvals;
                fig_ticktext := map str_of_int years |} in
  emit (WroteHtml output_file fig) ;;;
  emit (Shown fig).

End Heatmap.

(** ** Definitions used to state the properties *)

(** The request the loop posts for one page. *)
Definition page_request (py_str : json -> string) (username : string)
  (header : list (string * string)) (from_date : string) (cursor : json)
  : request :=
  {| url := graphql_url;
     query := get_contributions_query py_str username from_date cursor;
     headers := header |}.

Definition errors_label : string := "GraphQL API returned errors:".

(** [needle] occurs in [text]. *)
Definition occurs (needle text : string) : Prop :=
  exists before after : string, text = (before ++ needle ++ after)%string.

(** The commit collection takes its pagination argument on the
    [contributions] of each repository. *)
Definition commit_contributions : string :=
  "commitContributionsByRepository(maxRepositories: 100) {
            contributions".

(** The selections of the query that take a pagination argument: commits by
    repository, issues, pull requests, reviews and repository creations. *)
Definition paginated_fields : list string :=
  [commit_contributions; "issueContributions"; "pullRequestContributions";
   "pullRequestReviewContributions"; "repositoryContributions"].

Definition mentions (word text : string) : bool :=
  match String.index 0 word text with
  | Some _ => true
  | None => false
  end.

(** The rest of [s] after the prefix [p], and the part of [s] before the
    suffix [p]. *)
Fixpoint strip_prefix (p s : string) : option string :=
  match p with
  | EmptyString => Some s
  | String c p' =>
      match s with
      | String c' s' => if Ascii.eqb c c' then strip_prefix p' s' else None
      | EmptyString => None
      end
  end.

Fixpoint strip_suffix (p s : string) : option string :=
  if (s =? p)%string then Some EmptyString
  else match s with
       | String c s' => option_map (String c) (strip_suffix p s')
       | EmptyString => None
       end.

(** *** Sample data *)

(** Stands for [str] where every cursor is a string, so that it is never
    consulted. *)
Definition unused_str : json -> string := fun _ => EmptyString.

Definition occurred (at_instant : string) : json :=
  JObj [("occurredAt", JStr at_instant)].

Definition sample_header : list (string * string) :=
  [("Authorization", "Bearer token")].

Definition sample_cursor : string := "Y3Vyc29yOnYyOpHOAAE".

(** A first page: the commits say there is more, the other collections say
    there is not. *)
Definition sample_page_one : Collection :=
  {| commitContributionsByRepository :=
       [ {| nodes := [occurred "2023-01-02T10:00:00Z";
                      occurred "2023-01-02T11:00:00Z"];
            pageInfo := {| hasNextPage := true;
                           endCursor := Some sample_cursor |} |} ];
     issueContributions :=
       {| nodes := [occurred "2023-01-03T09:30:00Z"];
          pageInfo := {| hasNextPage := false; endCursor := None |} |};
     pullRequestContributions :=
       {| nodes := [occurred "2023-01-04T15:00:00Z"];
          pageInfo := {| hasNextPage := false; endCursor := None |} |};
     pullRequestReviewContributions :=
       {| nodes := [occurred "2023-01-05T08:00:00Z"];
          pageInfo := {| hasNextPage := false; endCursor := None |} |};
     repositoryContributions :=
       {| nodes := [];
          pageInfo := {| hasNextPage := false; endCursor := None |} |};
     restrictedContributionsCount := 3;
     contributionCalendar := JObj [("totalContributions", JNum 8)] |}.

(** A last page: the commits say there is no more, though the issues and
    the reviews say there is. *)
Definition sample_page_two : Collection :=
  {| commitContributionsByRepository :=
       [ {| nodes := [occurred "2023-01-06T12:00:00Z"];
            pageInfo := {| hasNextPage := false; endCursor := None |} |};
         {| nodes := [occurred "2023-01-09T12:00:00Z"];
            pageInfo := {| hasNextPage := true;
                           endCursor := Some "b3RoZXI" |} |} ];
     issueContributions :=
       {| nodes := [occurred "2023-01-10T09:30:00Z"];
          pageInfo := {| hasNextPage := true; endCursor := Some "aXNzdWU" |} |};
     pullRequestContributions :=
       {| nodes := [];
          pageInfo := {| hasNextPage := false; endCursor := None |} |};
     pullRequestReviewContributions :=
       {| nodes := [occurred "2023-01-11T08:00:00Z"];
          pageInfo := {| hasNextPage := true; endCursor := Some "cmV2" |} |};
     repositoryContributions :=
       {| nodes := [occurred "2023-01-12T08:00:00Z"];
          pageInfo := {| hasNextPage := false; endCursor := None |} |};
     restrictedContributionsCount := 0;
     contributionCalendar := JNull |}.

(** A year without commits: issues only. *)
Definition sample_page_without_commits : Collection :=
  {| commitContributionsByRepository := [];
     issueContributions :=
       {| nodes := [occurred "2021-05-03T09:30:00Z"];
          pageInfo := {| hasNextPage := false; endCursor := None |} |};
     pullRequestContributions :=
       {| nodes := [];
          pageInfo := {| hasNextPage := false; endCursor := None |} |};
     pullRequestReviewContributions :=
       {| nodes := [];
          pageInfo := {| hasNextPage := false; endCursor := None |} |};
     repositoryContributions :=
       {| nodes := [];
          pageInfo := {| hasNextPage := false; endCursor := None |} |};
     restrictedContributionsCount := 0;
     contributionCalendar := JNull |}.

Definition sample_errors : json :=
  JArr [JObj [("type", JStr "RATE_LIMITED");
              ("message", JStr "API rate limit exceeded")]].

Definition sample_errors_body : json := JObj [("errors", sample_errors)].

(** The three time stamps of the specification's example: two on Monday 2 January
    2023, one on Saturday 7 January. *)
Definition sample_dates : list string :=
  ["2023-01-02T10:00:00Z"; "2023-01-02T11:00:00Z"; "2023-01-07T09:00:00Z"].

(** The example with the rest of the working week added, one event a day. *)
Definition sample_full_week : list string :=
  sample_dates
  ++ ["2023-01-03T10:00:00Z"; "2023-01-04T10:00:00Z"; "2023-01-05T10:00:00Z";
      "2023-01-06T10:00:00Z"].

(** A full working week, the Monday with twelve events at one instant. *)
Definition sample_busy_week : list string :=
  repeat "2023-01-02T10:00:00Z" 12
  ++ ["2023-01-03T10:00:00Z"; "2023-01-04T10:00:00Z"; "2023-01-05T10:00:00Z";
      "2023-01-06T10:00:00Z"].

Arguments get_contributions_query : simpl never.

(** *** Runs of several pages *)

(** The page info the loop reads on a page: that of the first repository. *)
Definition first_page_info (p : Collection) : option PageInfo :=
  match commitContributionsByRepository p with
  | c :: _ => Some (pageInfo c)
  | [] => None
  end.

Definition has_more (p : Collection) : bool :=
  match first_page_info p with
  | Some info => hasNextPage info
  | None => false
  end.

Definition next_cursor (p : Collection) : json :=
  match first_page_info p with
  | Some info => encode_cursor (endCursor info)
  | None => JNull
  end.

(** The pages of one year window: each lists a repository, every page but
    the last says there is a next one, the last says there is none. *)
Fixpoint paged (pages : list Collection) : bool :=
  match pages with
  | [] => false
  | p :: rest =>
      match first_page_info p with
      | None => false
      | Some info =>
          match rest with
          | [] => negb (hasNextPage info)
          | _ :: _ => hasNextPage info && paged rest
          end
      end
  end.

(** The requests that walk through these pages, the first with [cursor]. *)
Fixpoint page_requests (py_str : json -> string) (username : string)
  (header : list (string * string)) (from_date : string) (cursor : json)
  (pages : list Collection) : list request :=
  match pages with
  | [] => []
  | p :: rest =>
      page_request py_str username header from_date cursor
      :: page_requests py_str username header from_date (next_cursor p) rest
  end.

Definition replies_of (pages : list Collection) : list reply :=
  map (fun p => Body (encode_body p)) pages.

(** The requests of a run over several year windows, each window with its
    own pages. *)
Fixpoint window_requests (py_str : json -> string) (username : string)
  (header : list (string * string)) (from_dates : list string)
  (windows : list (list Collection)) : list request :=
  match from_dates, windows with
  | d :: ds, pages :: rest =>
      page_requests py_str username header d JNull pages
      ++ window_requests py_str username header ds rest
  | _, _ => []
  end.

(** *** Time stamps as pandas holds them *)

(** The time of day is within the day. *)
Definition time_in_day (t : Timestamp) : Prop :=
  0 <= ts_hour t < 24 /\ 0 <= ts_minute t < 60 /\ 0 <= ts_second t < 60
  /\ 0 <= ts_nanosecond t < 1000000000.

Definition total_count (groups : list (Timestamp * Z)) : Z :=
  fold_right Z.add 0 (map snd groups).

(** How many of the time stamps are the instant [v]. *)
Definition count_instant (v : Z) (stamps : list Timestamp) : Z :=
  Z.of_nat (List.length (filter (fun t => ts_value t =? v) stamps)).

(** *** More sample data *)

(** What the endpoint answers to a token it rejects. *)
Definition sample_rejected_body : json :=
  JObj [("message", JStr "Bad credentials");
        ("documentation_url", JStr "https://docs.github.com/graphql")].

(** An endpoint that answers every request with the same page. *)
Definition repeating (p : Collection) : nat -> request -> reply :=
  fun _ _ => Body (encode_body p).

(** Two year windows: two pages, then one page. *)
Definition sample_windows : list (list Collection) :=
  [[sample_page_one; sample_page_two]; [sample_page_two]].

(** A payload whose issues come without their list of nodes. *)
Definition sample_fields_with_null_nodes : list (string * json) :=
  [("commitContributionsByRepository", JArr []);
   ("issueContributions",
      JObj [("nodes", JNull);
            ("pageInfo", encode_page_info {| hasNextPage := false;
                                             endCursor := None |})]);
   ("pullRequestContributions",
      encode_connection {| nodes := [];
                           pageInfo := {| hasNextPage := false;
                                          endCursor := None |} |})].

(** The events the groups hold for the instant [v], and the order of the
    groups. *)
Definition group_count (v : Z) (groups : list (Timestamp * Z)) : Z :=
  fold_right Z.add 0
    (map snd (filter (fun g => ts_value (fst g) =? v) groups)).

Definition by_instant (a b : Timestamp * Z) : Prop :=
  ts_value (fst a) < ts_value (fst b).

(** The order of the columns: by year, then by week. *)
Definition pair_lt (a b : Z * Z) : Prop := pair_compare a b = Lt.

(** A time stamp as pandas holds one: a date that exists, a time within the
    day. *)
Definition well_formed (t : Timestamp) : Prop :=
  valid_date (ts_year t) (ts_month t) (ts_day t) = true /\ time_in_day t.

(** ** The command

    [main] as [click] calls it, with the value of [GITHUB_READ_TOKEN] in the
    environment as [token]. *)

(** [{"Authorization": f"Bearer {token}"}]; a missing token is formatted as
    [None]. *)
Definition bearer_header (token : option string) : list (string * string) :=
  [("Authorization",
    ("Bearer " ++ match token with Some t => t | None => "None" end)%string)].

(** The dates when all of them are strings, as the heat map expects. *)
Fixpoint as_strings (values : list json) : option (list string) :=
  match values with
  | [] => Some []
  | JStr s :: rest => option_map (cons s) (as_strings rest)
  | _ :: _ => None
  end.

Section Main.

Variable py_str : json -> string.
Variable server : nat -> request -> reply.
Variable to_datetime : list string -> result (list Timestamp).

(** [datetime.strptime(s, "%Y-%m-%d")]. *)
Variable strptime_Ymd : string -> result datetime.

(** The heat map of dates that are not all strings: what pandas makes of
    other values is left open. *)
Variable heatmap_of_values : list json -> string -> M unit.

Definition main (fuel : nat) (token : option string)
  (username start end_date output : string) : M unit :=
  let headers := bearer_header token in
  start_datetime <- lift (strptime_Ymd start) ;;
  end_datetime <- lift (strptime_Ymd end_date) ;;
  contributions_data <-
    fetch_all_contributions py_str server fuel username headers
      start_datetime end_datetime ;;
  contribution_dates <- lift (process_contributions contributions_data) ;;
  match as_strings contribution_dates with
  | Some dates => generate_plotly_heatmap to_datetime dates output
  | None => heatmap_of_values contribution_dates output
  end.

End Main.

(** What the fetch may add to the trace: a request to the GraphQL endpoint,
    with the header it was given and a query about the user it was given,
    or the line that reports errors. *)
Definition fetch_event (py_str : json -> string) (username : string)
  (header : list (string * string)) (e : event) : Prop :=
  match e with
  | Sent r =>
      url r = graphql_url /\ headers r = header
      /\ exists from_date cursor,
           query r = get_contributions_query py_str username from_date cursor
  | Printed label _ => label = errors_label
  | _ => False
  end.

(** *** Sample data for the whole run *)

(** A last page whose only event falls on a Thursday. *)
Definition sample_page_thursday : Collection :=
  {| commitContributionsByRepository :=
       [ {| nodes := [occurred "2023-01-12T08:00:00Z"];
            pageInfo := {| hasNextPage := false; endCursor := None |} |} ];
     issueContributions :=
       {| nodes := [];
          pageInfo := {| hasNextPage := false; endCursor := None |} |};
     pullRequestContributions :=
       {| nodes := [];
          pageInfo := {| hasNextPage := false; endCursor := None |} |};
     pullRequestReviewContributions :=
       {| nodes := [];
          pageInfo := {| hasNextPage := false; endCursor := None |} |};
     repositoryContributions :=
       {| nodes := [];
          pageInfo := {| hasNextPage := false; endCursor := None |} |};
     restrictedContributionsCount := 0;
     contributionCalendar := JNull |}.

(** Two year windows whose events cover the five working days. *)
Definition sample_full_windows : list (list Collection) :=
  [[sample_page_one; sample_page_two]; [sample_page_thursday]].

Definition sample_full_instants : list string :=
  ["2023-01-02T10:00:00Z"; "2023-01-02T11:00:00Z"; "2023-01-03T09:30:00Z";
   "2023-01-04T15:00:00Z"; "2023-01-06T12:00:00Z"; "2023-01-09T12:00:00Z";
   "2023-01-10T09:30:00Z"; "2023-01-12T08:00:00Z"].

(** [strptime] on dates written with all their digits, as the defaults of
    the command are. *)
Definition padded_strptime (s : string) : result datetime :=
  match
    obind (take_number 4 0 (list_ascii_of_string s)) (fun '(y, cs) =>
    obind (expect "-" cs) (fun cs =>
    obind (take_number 2 0 cs) (fun '(m, cs) =>
    obind (expect "-" cs) (fun cs =>
    obind (take_number 2 0 cs) (fun '(d, cs) =>
      match cs with
      | [] => if valid_date y m d
              then Some {| year := y; month := m; day := d |}
              else None
      | _ => None
      end)))))
  with
  | Some dt => Ok dt
  | None => Raise ValueError
  end.

(** A stand-in for the heat map of values that are not strings; the sample
    runs never reach it. *)
Definition unused_heatmap : list json -> string -> M unit :=
  fun _ _ => ret tt.

(** *** Checks that compute *)

Definition well_formedb (t : Timestamp) : bool :=
  valid_date (ts_year t) (ts_month t) (ts_day t)
  && (0 <=? ts_hour t) && (ts_hour t <? 24)
  && (0 <=? ts_minute t) && (ts_minute t <? 60)
  && (0 <=? ts_second t) && (ts_second t <? 60)
  && (0 <=? ts_nanosecond t) && (ts_nanosecond t <? 1000000000).

(** Every weekday from Monday to Friday has a time stamp. *)
Definition covers_week (stamps : list Timestamp) : bool :=
  forallb (fun wd => existsb (fun t => weekday t =? wd) stamps)
    [0; 1; 2; 3; 4].

(** The time stamps of dates in GitHub's format; none when a date is not. *)
Definition stamps_of (dates : list string) : list Timestamp :=
  match iso_to_datetime dates with
  | Ok stamps => stamps
  | Raise _ => []
  end.

(** *** Stand-ins and cursors for the runs over several years *)

(** A stand-in for the per-year fetch that records the window it is called
    with and then returns or raises as a table says. *)
Definition recording_fetch_or_raise (answer : string -> result (list json))
  : string -> list (string * string) -> string -> M (list json) :=
  fun _ _ from_date w =>
    Some (answer from_date, w ++ [Called "fetch_contributions" from_date]).

(** The body of the loop over the years once the window is computed. *)
Definition fetch_window
  (fetch : string -> list (string * string) -> string -> M (list json))
  (username : string) (header : list (string * string))
  (from_date : string) (contributions : list json) : M (list json) :=
  fetched <- fetch username header from_date ;;
  ret (contributions ++ fetched).

(** The cursor the loop holds after these pages. *)
Definition cursor_after (cursor : json) (pages : list Collection) : json :=
  fold_left (fun _ p => next_cursor p) pages cursor.

(** *** The ticks of the years *)

(** The week a year starts with in the frame: the smallest iso week among
    the time stamps of that calendar year that fall on a day from Monday to
    Friday. *)
Definition first_week (stamps : list Timestamp) (y wk : Z) : Prop :=
  (exists t, In t stamps /\ weekday t < 5 /\ ts_year t = y /\ iso_week t = wk)
  /\ (forall t, In t stamps -> weekday t < 5 -> ts_year t = y ->
        wk <= iso_week t).

(** *** A grid without cells *)

(** The figure drawn from a frame of five labelled rows without columns:
    no cell and no tick. *)
Definition empty_figure : Figure :=
  {| fig_z := [[]; []; []; []; []];
     fig_yticks := weekday_labels;
     fig_tickvals := [];
     fig_ticktext := [] |}.

(** A Saturday and a Sunday. *)
Definition sample_weekend : list string :=
  ["2023-01-07T09:00:00Z"; "2023-01-08T16:30:00Z"].

(** * Properties *)

(** ** Responses of the expected shape *)

Lemma for_each_repositories (cs : list Connection) (acc : list json) :
  for_each (map encode_repository cs) acc
    (fun repo_contrib contributions =>
       let? c := getitem repo_contrib "contributions" in
       let? nodes := getitem c "nodes" in
       let? items := py_iter nodes in
       Ok (contributions ++ items))
  = Ok (acc ++ flat_map nodes cs).
Proof.
  revert acc.
  induction cs as [|c cs IH]; intros acc; simpl.
  - now rewrite app_nil_r.
  - rewrite IH. now rewrite <- app_assoc.
Qed.

Lemma extract_contributions_encode (p : Collection) :
  extract_contributions (encode_collection p) = Ok (page_events p).
Proof.
  unfold extract_contributions, page_events.
  cbn [encode_collection getitem lookup String.eqb Ascii.eqb Bool.eqb rbind py_iter].
  rewrite for_each_repositories.
  cbn. now rewrite <- app_assoc.
Qed.

Lemma get_page_info_first (p : Collection) (c : Connection)
  (rest : list Connection) :
  commitContributionsByRepository p = c :: rest ->
  get_page_info (encode_collection p) = Ok (encode_page_info (pageInfo c)).
Proof.
  intros E. unfold get_page_info.
  cbn [encode_collection getitem lookup String.eqb Ascii.eqb Bool.eqb rbind].
  rewrite E. reflexivity.
Qed.

Lemma get_page_info_empty (p : Collection) :
  commitContributionsByRepository p = [] ->
  get_page_info (encode_collection p) = Raise IndexError.
Proof.
  intros E. unfold get_page_info.
  cbn [encode_collection getitem lookup String.eqb Ascii.eqb Bool.eqb rbind].
  rewrite E. reflexivity.
Qed.

Lemma bind_lift_ok {A B : Type} (a : A) (k : A -> M B) (w : world) :
  bind (lift (Ok a)) k w = k a w.
Proof. reflexivity. Qed.

Section FetchProperties.

Variable py_str : json -> string.
Variable server : nat -> request -> reply.

Lemma post_body (q : string) (header : list (string * string)) (w : world)
  (data : json) :
  server (List.length (requests_sent w))
    {| url := graphql_url; query := q; headers := header |} = Body data ->
  post server q header w
  = Some (Ok data,
          w ++ [Sent {| url := graphql_url; query := q; headers := header |}]).
Proof.
  intros E. unfold post. now rewrite E.
Qed.

(** One turn of the loop on a page of the expected shape whose list of
    repositories is not empty. *)
Lemma fetch_loop_page (fuel : nat) (username : string)
  (header : list (string * string)) (from_date : string)
  (contributions : list json) (cursor : json) (w : world)
  (p : Collection) (c : Connection) (rest : list Connection) :
  server (List.length (requests_sent w))
    (page_request py_str username header from_date cursor)
  = Body (encode_body p) ->
  commitContributionsByRepository p = c :: rest ->
  fetch_loop py_str server (S fuel) username header from_date contributions
    cursor w
  = if hasNextPage (pageInfo c)
    then fetch_loop py_str server fuel username header from_date
           (contributions ++ page_events p)
           (encode_cursor (endCursor (pageInfo c)))
           (w ++ [Sent (page_request py_str username header from_date cursor)])
    else Some (Ok (contributions ++ page_events p),
               w ++ [Sent (page_request py_str username header from_date
                             cursor)]).
Proof.
  intros Hreply Hrepos.
  cbn [fetch_loop]. unfold bind at 1.
  rewrite (post_body _ _ _ _ Hreply).
  change (py_in "errors" (encode_body p)) with (Ok false).
  rewrite bind_lift_ok.
  change (let? d := getitem (encode_body p) "data" in
          let? u := getitem d "user" in getitem u "contributionsCollection")
    with (Ok (encode_collection p)).
  rewrite bind_lift_ok, extract_contributions_encode, bind_lift_ok.
  rewrite (get_page_info_first p c rest Hrepos), bind_lift_ok.
  change (getitem (encode_page_info (pageInfo c)) "hasNextPage")
    with (Ok (JBool (hasNextPage (pageInfo c)))).
  rewrite bind_lift_ok. cbn [truthy].
  destruct (hasNextPage (pageInfo c)); reflexivity.
Qed.

(** One turn of the loop on a body that carries an [errors] field. *)
Lemma fetch_loop_errors (fuel : nat) (username : string)
  (header : list (string * string)) (from_date : string)
  (contributions : list json) (cursor : json) (w : world)
  (fields : list (string * json)) (errors : json) :
  server (List.length (requests_sent w))
    (page_request py_str username header from_date cursor)
  = Body (JObj fields) ->
  lookup "errors" fields = Some errors ->
  fetch_loop py_str server (S fuel) username header from_date contributions
    cursor w
  = Some (Ok contributions,
          w ++ [Sent (page_request py_str username header from_date cursor);
                Printed errors_label errors]).
Proof.
  intros Hreply Herrors.
  cbn [fetch_loop]. unfold bind at 1.
  rewrite (post_body _ _ _ _ Hreply).
  unfold py_in, getitem. rewrite Herrors.
  rewrite !bind_lift_ok.
  unfold print, emit, bind, ret. rewrite <- app_assoc. reflexivity.
Qed.

(** One turn of the loop on a page of the expected shape that lists no
    repository. *)
Lemma fetch_loop_no_repository (fuel : nat) (username : string)
  (header : list (string * string)) (from_date : string)
  (contributions : list json) (cursor : json) (w : world) (p : Collection) :
  server (List.length (requests_sent w))
    (page_request py_str username header from_date cursor)
  = Body (encode_body p) ->
  commitContributionsByRepository p = [] ->
  fetch_loop py_str server (S fuel) username header from_date contributions
    cursor w
  = Some (Raise IndexError,
          w ++ [Sent (page_request py_str username header from_date cursor)]).
Proof.
  intros Hreply Hrepos.
  cbn [fetch_loop]. unfold bind at 1.
  rewrite (post_body _ _ _ _ Hreply).
  change (py_in "errors" (encode_body p)) with (Ok false).
  rewrite bind_lift_ok.
  change (let? d := getitem (encode_body p) "data" in
          let? u := getitem d "user" in getitem u "contributionsCollection")
    with (Ok (encode_collection p)).
  rewrite bind_lift_ok, extract_contributions_encode, bind_lift_ok.
  rewrite (get_page_info_empty p Hrepos). reflexivity.
Qed.

(** C1: after a page, the loop goes on exactly when the page info of the
    commit collection (its first repository) has [hasNextPage] set, and then
    asks with that collection's [endCursor]; nothing else in the page is
    consulted.  When the first page says there is a next one and the second
    says there is none, two requests are posted and the events of the two
    pages come back in order. *)
Theorem pagination_follows_commit_page_info :
  (forall (fuel : nat) (username : string) (header : list (string * string))
          (from_date : string) (contributions : list json) (cursor : json)
          (w : world) (p : Collection) (c : Connection)
          (rest : list Connection),
      server (List.length (requests_sent w))
        (page_request py_str username header from_date cursor)
      = Body (encode_body p) ->
      commitContributionsByRepository p = c :: rest ->
      fetch_loop py_str server (S fuel) username header from_date
        contributions cursor w
      = if hasNextPage (pageInfo c)
        then fetch_loop py_str server fuel username header from_date
               (contributions ++ page_events p)
               (encode_cursor (endCursor (pageInfo c)))
               (w ++ [Sent (page_request py_str username header from_date
                              cursor)])
        else Some (Ok (contributions ++ page_events p),
                   w ++ [Sent (page_request py_str username header from_date
                                 cursor)]))
  /\
  (forall (fuel : nat) (username : string) (header : list (string * string))
          (from_date : string) (p1 p2 : Collection) (c1 c2 : Connection)
          (rest1 rest2 : list Connection),
      let first_request :=
        page_request py_str username header from_date JNull in
      let second_request :=
        page_request py_str username header from_date
          (encode_cursor (endCursor (pageInfo c1))) in
      server 0%nat first_request = Body (encode_body p1) ->
      commitContributionsByRepository p1 = c1 :: rest1 ->
      hasNextPage (pageInfo c1) = true ->
      server 1%nat second_request = Body (encode_body p2) ->
      commitContributionsByRepository p2 = c2 :: rest2 ->
      hasNextPage (pageInfo c2) = false ->
      fetch_contributions py_str server (S (S fuel)) username header
        from_date []
      = Some (Ok (page_events p1 ++ page_events p2),
              [Sent first_request; Sent second_request])).
Proof.
  split.
  - intros. now apply fetch_loop_page with (rest := rest).
  - intros fuel username header from_date p1 p2 c1 c2 rest1 rest2
      first_request second_request H1 R1 N1 H2 R2 N2.
    subst first_request second_request.
    unfold fetch_contributions.
    rewrite (fetch_loop_page (S fuel) username header from_date [] JNull []
               p1 c1 rest1 H1 R1).
    rewrite N1.
    rewrite (fetch_loop_page fuel username header from_date
               ([] ++ page_events p1)
               (encode_cursor (endCursor (pageInfo c1)))
               ([] ++ [Sent (page_request py_str username header from_date
                               JNull)])
               p2 c2 rest2 H2 R2).
    rewrite N2. reflexivity.
Qed.

(** The loop over the years keeps what the earlier windows gave: a window
    whose fetch returns is added to the list, and the loop goes on. *)
Lemma fetch_years_step
  (fetch : string -> list (string * string) -> string -> M (list json))
  (username : string) (header : list (string * string))
  (start_date : datetime) (k : Z) (offsets : list Z)
  (contributions fetched : list json) (w w' : world) :
  valid_date (year start_date + k) (month start_date) (day start_date)
  = true ->
  fetch username header
    (strftime_Ymd {| year := year start_date + k;
                     month := month start_date;
                     day := day start_date |}) w
  = Some (Ok fetched, w') ->
  fetch_years fetch username header start_date (k :: offsets) contributions w
  = fetch_years fetch username header start_date offsets
      (contributions ++ fetched) w'.
Proof.
  intros Hvalid Hfetch.
  unfold fetch_years at 1. cbn [for_each_M].
  unfold replace_year. rewrite Hvalid.
  unfold bind at 1. rewrite bind_lift_ok.
  unfold bind at 1. rewrite Hfetch. reflexivity.
Qed.

(** C5, as amended: a body with an [errors] field does not make
    [fetch_contributions] fail.  Whatever page carries it, the loop prints
    the errors and returns the list gathered so far, and raises nothing;
    when it is the first page, the call returns an empty list. *)
Theorem errors_are_printed_not_raised (fuel : nat) (username : string)
  (header : list (string * string)) (from_date : string)
  (contributions : list json) (cursor : json) (w : world)
  (fields : list (string * json)) (errors : json) :
  server (List.length (requests_sent w))
    (page_request py_str username header from_date cursor)
  = Body (JObj fields) ->
  lookup "errors" fields = Some errors ->
  (exists w' : world,
     fetch_loop py_str server (S fuel) username header from_date
       contributions cursor w
     = Some (Ok contributions, w')
     /\ In (Printed errors_label errors) w')
  /\ (forall (e : exn) (w' : world),
        fetch_loop py_str server (S fuel) username header from_date
          contributions cursor w
        <> Some (Raise e, w'))
  /\ (contributions = [] -> cursor = JNull ->
      fetch_contributions py_str server (S fuel) username header from_date w
      = Some (Ok [],
              w ++ [Sent (page_request py_str username header from_date
                            JNull);
                    Printed errors_label errors])).
Proof.
  intros Hreply Herrors.
  pose proof (fetch_loop_errors fuel username header from_date contributions
                cursor w fields errors Hreply Herrors) as Hrun.
  split; [| split].
  - eexists. split; [exact Hrun |].
    apply in_or_app. right. simpl. tauto.
  - intros e w'. rewrite Hrun. discriminate.
  - intros -> ->. exact Hrun.
Qed.

(** C9: [get_page_info] looks at the first repository of the commit
    collection and at nothing after it; when a page lists no repository the
    subscript [[0]] raises [IndexError], and the fetch loop fails with it
    after having posted the request. *)
Theorem page_info_reads_first_repository_only :
  (forall (p : Collection) (c : Connection) (rest : list Connection),
      commitContributionsByRepository p = c :: rest ->
      get_page_info (encode_collection p)
      = Ok (encode_page_info (pageInfo c)))
  /\
  (forall (p : Collection),
      commitContributionsByRepository p = [] ->
      get_page_info (encode_collection p) = Raise IndexError)
  /\
  (forall (fuel : nat) (username : string) (header : list (string * string))
          (from_date : string) (contributions : list json) (cursor : json)
          (w : world) (p : Collection),
      server (List.length (requests_sent w))
        (page_request py_str username header from_date cursor)
      = Body (encode_body p) ->
      commitContributionsByRepository p = [] ->
      fetch_loop py_str server (S fuel) username header from_date
        contributions cursor w
      = Some (Raise IndexError,
              w ++ [Sent (page_request py_str username header from_date
                            cursor)])).
Proof.
  split; [| split].
  - intros p c rest E. now apply get_page_info_first with (rest := rest).
  - apply get_page_info_empty.
  - intros fuel username header from_date contributions cursor w p Hreply
      Hrepos.
    now apply fetch_loop_no_repository with (p := p).
Qed.

End FetchProperties.

(** ** Extraction *)

(** C7: what [extract_contributions] returns is the nodes of the commit
    collection (repository after repository), then those of the issues, then
    those of the pull requests.  The reviews, the repository creations, the
    calendar and the restricted count have no part in it: two payloads that
    agree on the three collections read give the same list, also when they
    are dicts of any other shape. *)
Theorem extract_keeps_commit_issue_pull_events :
  (forall p : Collection,
      extract_contributions (encode_collection p)
      = Ok (flat_map nodes (commitContributionsByRepository p)
            ++ nodes (issueContributions p)
            ++ nodes (pullRequestContributions p)))
  /\
  (forall p q : Collection,
      map nodes (commitContributionsByRepository p)
      = map nodes (commitContributionsByRepository q) ->
      nodes (issueContributions p) = nodes (issueContributions q) ->
      nodes (pullRequestContributions p) = nodes (pullRequestContributions q) ->
      extract_contributions (encode_collection p)
      = extract_contributions (encode_collection q))
  /\
  (forall fields fields' : list (string * json),
      lookup "commitContributionsByRepository" fields
      = lookup "commitContributionsByRepository" fields' ->
      lookup "issueContributions" fields
      = lookup "issueContributions" fields' ->
      lookup "pullRequestContributions" fields
      = lookup "pullRequestContributions" fields' ->
      extract_contributions (JObj fields)
      = extract_contributions (JObj fields')).
Proof.
  split; [| split].
  - intros p. apply extract_contributions_encode.
  - intros p q Hc Hi Hp.
    rewrite !extract_contributions_encode. unfold page_events.
    rewrite !flat_map_concat_map, Hc, Hi, Hp. reflexivity.
  - intros fields fields' Hc Hi Hp.
    unfold extract_contributions, getitem.
    rewrite Hc, Hi, Hp. reflexivity.
Qed.

(** ** Year windows *)

Lemma py_range_bounds (n k : Z) : In k (py_range n) -> 0 <= k < n.
Proof.
  unfold py_range. rewrite in_map_iff.
  intros (i & <- & Hi). apply in_seq in Hi. lia.
Qed.

Lemma py_range_length (n : Z) : List.length (py_range n) = Z.to_nat n.
Proof. unfold py_range. now rewrite length_map, length_seq. Qed.

Lemma fetch_years_recorded (answer : string -> list json) (username : string)
  (header : list (string * string)) (start_date : datetime)
  (offsets : list Z) (contributions : list json) (w : world) :
  let window := fun k =>
    strftime_Ymd {| year := year start_date + k;
                    month := month start_date;
                    day := day start_date |} in
  (forall k, In k offsets ->
     valid_date (year start_date + k) (month start_date) (day start_date)
     = true) ->
  fetch_years (recording_fetch answer) username header start_date offsets
    contributions w
  = Some (Ok (contributions ++ flat_map answer (map window offsets)),
          w ++ map (Called "fetch_contributions") (map window offsets)).
Proof.
  intros window. revert contributions w.
  induction offsets as [|k offsets IH]; intros contributions w Hvalid.
  - cbn. now rewrite !app_nil_r.
  - unfold fetch_years in *. cbn [for_each_M].
    unfold replace_year. rewrite (Hvalid k (or_introl eq_refl)).
    unfold bind at 1. rewrite bind_lift_ok.
    unfold bind at 1. unfold recording_fetch at 1.
    unfold bind at 1. unfold ret at 1.
    rewrite IH by (intros j Hj; apply Hvalid; now right).
    cbn [map flat_map]. fold window.
    now rewrite <- !app_assoc.
Qed.

Lemma fetch_years_runs_the_windows
  (fetch : string -> list (string * string) -> string -> M (list json))
  (username : string) (header : list (string * string))
  (start_date : datetime) (offsets : list Z) :
  let window := fun k =>
    strftime_Ymd {| year := year start_date + k;
                    month := month start_date;
                    day := day start_date |} in
  (forall k, In k offsets ->
     valid_date (year start_date + k) (month start_date) (day start_date)
     = true) ->
  forall (contributions : list json) (w : world),
    fetch_years fetch username header start_date offsets contributions w
    = for_each_M (map window offsets) contributions
        (fetch_window fetch username header) w.
Proof.
  intros window.
  induction offsets as [|k offsets IH]; intros Hvalid contributions w.
  - reflexivity.
  - cbn [map for_each_M]. unfold bind at 1, fetch_window at 1, bind at 1.
    destruct (fetch username header (window k) w) as [[[fetched|e] w']|]
      eqn:Hfetch.
    + rewrite (fetch_years_step fetch username header start_date k offsets
                 contributions fetched w w' (Hvalid k (or_introl eq_refl))
                 Hfetch).
      unfold ret at 1. apply IH. intros j Hj. apply Hvalid. now right.
    + unfold fetch_years. cbn [for_each_M].
      unfold replace_year. rewrite (Hvalid k (or_introl eq_refl)).
      unfold bind at 1. rewrite bind_lift_ok.
      unfold bind at 1. fold (window k). now rewrite Hfetch.
    + unfold fetch_years. cbn [for_each_M].
      unfold replace_year. rewrite (Hvalid k (or_introl eq_refl)).
      unfold bind at 1. rewrite bind_lift_ok.
      unfold bind at 1. fold (window k). now rewrite Hfetch.
Qed.

(** The recording stand-in over a list of windows, the first of which to
    raise is window [i]. *)
Lemma recorded_until_the_first_raise (answer : string -> result (list json))
  (username : string) (header : list (string * string))
  (windows : list string) :
  forall (i : nat) (from_date : string) (e : exn)
         (contributions : list json) (w : world),
    nth_error windows i = Some from_date ->
    answer from_date = Raise e ->
    (forall (j : nat) (d : string),
        (j < i)%nat -> nth_error windows j = Some d ->
        exists fetched, answer d = Ok fetched) ->
    for_each_M windows contributions
      (fetch_window (recording_fetch_or_raise answer) username header) w
    = Some (Raise e,
            w ++ map (Called "fetch_contributions") (firstn (S i) windows)).
Proof.
  induction windows as [|d windows IH];
    intros i from_date e contributions w Hnth Hraise Hbefore.
  - destruct i; discriminate Hnth.
  - cbn [for_each_M]. unfold bind at 1.
    unfold fetch_window at 1, bind at 1, recording_fetch_or_raise at 1.
    destruct i as [|i].
    + cbn [nth_error] in Hnth. injection Hnth as ->.
      rewrite Hraise. reflexivity.
    + destruct (Hbefore 0%nat d (Nat.lt_0_succ i) eq_refl) as (fetched & ->).
      unfold ret at 1.
      rewrite (IH i from_date e); [| exact Hnth | exact Hraise |].
      * cbn [firstn map]. now rewrite <- app_assoc.
      * intros j d' Hj Hd'. apply (Hbefore (S j) d'); [lia | exact Hd'].
Qed.

Lemma year_window_at (start_date end_date : datetime) (k : Z) :
  0 <= k < year end_date - year start_date ->
  nth_error (year_windows start_date end_date) (Z.to_nat k)
  = Some (strftime_Ymd {| year := year start_date + k;
                          month := month start_date;
                          day := day start_date |}).
Proof.
  intros Hk. unfold year_windows, py_range.
  rewrite !nth_error_map.
  rewrite (nth_error_nth' _ 0%nat)
    by (rewrite length_seq; lia).
  rewrite seq_nth by lia. cbn [option_map].
  now rewrite Nat.add_0_l, Z2Nat.id by lia.
Qed.

(** C3, as amended: when the month and day of [start_date] exist in every
    year the loop shifts to, [fetch_all_contributions] is the run of the
    per-year fetch over the windows of the range, one after the other in
    ascending order, each window the start date moved by 0, 1, ... years;
    this holds whatever the per-year fetch does.  There are as many windows
    as [end_date.year - start_date.year], none when that is not positive.  A
    fetch that returns on every window is therefore called exactly that
    many times and the answers are concatenated; when the fetch of a window
    raises, the windows up to that one have been called, no later one is,
    and the exception leaves the loop.  Two dates of one year give no call
    and an empty list. *)
Theorem fetch_all_visits_each_year_window
  (username : string) (header : list (string * string))
  (start_date end_date : datetime) :
  (forall k, 0 <= k < year end_date - year start_date ->
     valid_date (year start_date + k) (month start_date) (day start_date)
     = true) ->
  (forall (fetch : string -> list (string * string) -> string
                   -> M (list json))
          (w : world),
      fetch_all_contributions_with fetch username header start_date end_date w
      = for_each_M (year_windows start_date end_date) []
          (fetch_window fetch username header) w)
  /\ List.length (year_windows start_date end_date)
     = Z.to_nat (year end_date - year start_date)
  /\ (forall k, 0 <= k < year end_date - year start_date ->
        nth_error (year_windows start_date end_date) (Z.to_nat k)
        = Some (strftime_Ymd {| year := year start_date + k;
                                month := month start_date;
                                day := day start_date |}))
  /\ (forall (answer : string -> list json) (w : world),
        fetch_all_contributions_with (recording_fetch answer) username header
          start_date end_date w
        = Some (Ok (flat_map answer (year_windows start_date end_date)),
                w ++ map (Called "fetch_contributions")
                       (year_windows start_date end_date)))
  /\ (forall (answer : string -> result (list json)) (w : world) (i : nat)
             (from_date : string) (e : exn),
        nth_error (year_windows start_date end_date) i = Some from_date ->
        answer from_date = Raise e ->
        (forall (j : nat) (d : string),
            (j < i)%nat ->
            nth_error (year_windows start_date end_date) j = Some d ->
            exists fetched, answer d = Ok fetched) ->
        fetch_all_contributions_with (recording_fetch_or_raise answer)
          username header start_date end_date w
        = Some (Raise e,
                w ++ map (Called "fetch_contributions")
                       (firstn (S i) (year_windows start_date end_date))))
  /\ (forall (py_str : json -> string) (server : nat -> request -> reply)
             (fuel : nat) (w : world),
        fetch_all_contributions py_str server fuel username header
          start_date end_date w
        = for_each_M (year_windows start_date end_date) []
            (fetch_window (fetch_contributions py_str server fuel)
               username header) w)
  /\ (year end_date = year start_date ->
      forall (fetch : string -> list (string * string) -> string
                      -> M (list json))
             (w : world),
        fetch_all_contributions_with fetch username header start_date
          end_date w
        = Some (Ok [], w)).
Proof.
  intros Hvalid.
  assert (Hrun : forall fetch w,
    fetch_all_contributions_with fetch username header start_date end_date w
    = for_each_M (year_windows start_date end_date) []
        (fetch_window fetch username header) w).
  { intros fetch w. unfold fetch_all_contributions_with, year_windows.
    apply fetch_years_runs_the_windows.
    intros k Hk. apply Hvalid. now apply py_range_bounds. }
  split; [exact Hrun |].
  split; [unfold year_windows; now rewrite length_map, py_range_length |].
  split; [apply year_window_at |].
  split.
  { intros answer w. unfold fetch_all_contributions_with.
    rewrite fetch_years_recorded
      by (intros k Hk; apply Hvalid; now apply py_range_bounds).
    reflexivity. }
  split.
  { intros answer w i from_date e Hnth Hraise Hbefore.
    rewrite Hrun.
    now apply recorded_until_the_first_raise with (from_date := from_date). }
  split.
  { intros py_str server fuel w. apply Hrun. }
  intros Hsame fetch w. rewrite Hrun. unfold year_windows.
  replace (year end_date - year start_date) with 0 by lia.
  reflexivity.
Qed.

(** ** The text of the query *)

Lemma append_assoc (a b c : string) :
  ((a ++ b) ++ c = a ++ (b ++ c))%string.
Proof. induction a as [|x a IH]; simpl; [reflexivity | now rewrite IH]. Qed.

Lemma strip_prefix_sound (p s t : string) :
  strip_prefix p s = Some t -> s = (p ++ t)%string.
Proof.
  revert s. induction p as [|c p IH]; intros s H; simpl in *.
  - now inversion H.
  - destruct s as [|c' s]; [discriminate |].
    destruct (Ascii.eqb_spec c c') as [->|]; [| discriminate].
    now rewrite (IH s H).
Qed.

Lemma strip_suffix_sound (p s t : string) :
  strip_suffix p s = Some t -> s = (t ++ p)%string.
Proof.
  revert t. induction s as [|c s IH]; intros t H; cbn [strip_suffix] in H.
  - destruct p; simpl in H; [now inversion H | discriminate].
  - destruct (String.eqb_spec (String c s) p) as [E|_].
    + inversion H; subst. reflexivity.
    + destruct (strip_suffix p s) as [t'|] eqn:E'; [| discriminate].
      inversion H; subst. simpl. now rewrite (IH t' eq_refl).
Qed.

Lemma occurs_skip (p needle text : string) :
  occurs needle text -> occurs needle (p ++ text)%string.
Proof.
  intros (before & rest & ->).
  exists (p ++ before)%string, rest. now rewrite append_assoc.
Qed.

(** The needle [f g a n] sits where a literal ending in [f g] is followed by
    [a] and by a literal starting with [n]. *)
Lemma occurs_slot (f g a n l r t1 t2 : string) :
  strip_suffix (f ++ g) l = Some t1 ->
  strip_prefix n r = Some t2 ->
  occurs (f ++ g ++ a ++ n) (l ++ a ++ r)%string.
Proof.
  intros Hl Hr.
  apply strip_suffix_sound in Hl. apply strip_prefix_sound in Hr.
  exists t1, t2. rewrite Hl, Hr.
  now rewrite !append_assoc.
Qed.

Lemma occurs_slot_more (f g a n l r rest t1 t2 : string) :
  strip_suffix (f ++ g) l = Some t1 ->
  strip_prefix n r = Some t2 ->
  occurs (f ++ g ++ a ++ n) (l ++ a ++ r ++ rest)%string.
Proof.
  intros Hl Hr.
  apply strip_suffix_sound in Hl. apply strip_prefix_sound in Hr.
  exists t1, (t2 ++ rest)%string. rewrite Hl, Hr.
  now rewrite !append_assoc.
Qed.

(** Whatever the cursor, each of the five argument lists reads
    [first: 100] followed by the same [after] clause. *)
Lemma query_pagination_arguments (py_str : json -> string)
  (username from_date : string) (cursor : json) (field : string) :
  In field paginated_fields ->
  occurs
    (field ++ "(first: 100"
       ++ (if truthy cursor
           then ", after: " ++ dquote ++ format_value py_str cursor ++ dquote
           else "")
       ++ ")")%string
    (get_contributions_query py_str username from_date cursor).
Proof.
  intros Hfield. unfold get_contributions_query.
  generalize (if truthy cursor
              then (", after: " ++ dquote ++ format_value py_str cursor
                    ++ dquote)%string
              else ""%string).
  intros after_clause. cbv zeta.
  cbn [paginated_fields In] in Hfield.
  destruct Hfield as [<-|[<-|[<-|[<-|[<-|[]]]]]];
    repeat first
      [ eapply occurs_slot_more; vm_compute; reflexivity
      | eapply occurs_slot; vm_compute; reflexivity
      | apply occurs_skip ].
Qed.

(** C6: with a non-empty cursor [c], each of the five pagination argument
    lists of the query reads [first: 100, after: "c"], the same clause in
    all of them; with no cursor each reads [first: 100] and nothing more, and
    the fixed text of the query, into which only the user name and the date
    are spliced, never says [after]. *)
Theorem cursor_reaches_every_pagination_argument (py_str : json -> string)
  (username from_date c : string) :
  c <> ""%string ->
  let after := (", after: " ++ dquote ++ c ++ dquote)%string in
  (forall field : string, In field paginated_fields ->
     occurs (field ++ "(first: 100" ++ after ++ ")")%string
       (get_contributions_query py_str username from_date (JStr c)))
  /\
  (forall field : string, In field paginated_fields ->
     occurs (field ++ "(first: 100)")%string
       (get_contributions_query py_str username from_date JNull))
  /\
  (exists head middle tail : string,
     (forall u d : string,
        get_contributions_query py_str u d JNull
        = (head ++ u ++ middle ++ d ++ tail)%string)
     /\ mentions "after" head = false
     /\ mentions "after" middle = false
     /\ mentions "after" tail = false).
Proof.
  intros Hc after. split; [| split].
  - intros field Hfield.
    pose proof (query_pagination_arguments py_str username from_date (JStr c)
                  field Hfield) as H.
    assert (Ht : truthy (JStr c) = true).
    { cbn [truthy]. destruct (String.eqb_spec c "") as [E|_];
        [now elim Hc | reflexivity]. }
    rewrite Ht in H. exact H.
  - intros field Hfield.
    exact (query_pagination_arguments py_str username from_date JNull field
             Hfield).
  - exists ("
    {
      user(login: " ++ dquote)%string.
    exists (dquote ++ ") {
        contributionsCollection(from: " ++ dquote)%string.
    eexists. split; [| split; [| split]].
    + intros u d. unfold get_contributions_query, dquote.
      cbn [truthy append]. reflexivity.
    + vm_compute. reflexivity.
    + vm_compute. reflexivity.
    + vm_compute. reflexivity.
Qed.

(** ** The calendar columns on known dates *)

Example weekday_of_known_dates :
  map (fun s => option_map weekday (parse_instant s))
    ["1970-01-01T00:00:00Z"; "2023-01-01T00:00:00Z"; "2023-01-02T10:00:00Z";
     "2023-01-07T09:00:00Z"; "2024-02-29T23:59:59Z"]
  = [Some 3; Some 6; Some 0; Some 5; Some 3].
Proof. vm_compute. reflexivity. Qed.

Example iso_week_of_known_dates :
  map (fun s => option_map iso_week (parse_instant s))
    ["2023-01-01T00:00:00Z"; "2023-01-02T10:00:00Z"; "2020-12-31T00:00:00Z";
     "2021-01-03T00:00:00Z"; "2024-12-30T00:00:00Z"; "2016-01-01T00:00:00Z"]
  = [Some 52; Some 1; Some 53; Some 53; Some 1; Some 53].
Proof. vm_compute. reflexivity. Qed.

Example parse_rejects_a_day_that_does_not_exist :
  parse_instant "2023-02-29T00:00:00Z" = None.
Proof. vm_compute. reflexivity. Qed.

Lemma weekday_range (t : Timestamp) : 0 <= weekday t < 7.
Proof. unfold weekday. apply Z.mod_pos_bound. lia. Qed.

(** ** The index of the pivot *)

Lemma insert_unique_in {A : Type} (cmp : A -> A -> comparison) (x y : A)
  (l : list A) :
  In y (insert_unique cmp x l) -> y = x \/ In y l.
Proof.
  induction l as [|z l IH]; simpl.
  - intros [<-|[]]. now left.
  - destruct (cmp x z); simpl.
    + tauto.
    + intros [<-|H]; tauto.
    + intros [<-|H]; [tauto |]. destruct (IH H); tauto.
Qed.

Lemma sorted_unique_in {A : Type} (cmp : A -> A -> comparison) (y : A)
  (l : list A) :
  In y (sorted_unique cmp l) -> In y l.
Proof.
  induction l as [|x l IH]; simpl; [tauto |].
  intros H. apply insert_unique_in in H. destruct H as [->|H]; auto.
Qed.

Lemma insert_unique_sorted (x : Z) (l : list Z) :
  StronglySorted Z.lt l -> StronglySorted Z.lt (insert_unique Z.compare x l).
Proof.
  induction 1 as [|y l Hs IH Hall]; simpl.
  - repeat constructor.
  - destruct (Z.compare_spec x y) as [E|L|G].
    + now constructor.
    + constructor; [now constructor |].
      constructor; [exact L |].
      rewrite Forall_forall in *. intros z Hz. specialize (Hall z Hz). lia.
    + constructor; [exact IH |].
      rewrite Forall_forall in *. intros z Hz.
      apply insert_unique_in in Hz. destruct Hz as [->|Hz]; [lia | auto].
Qed.

Lemma sorted_unique_sorted (l : list Z) :
  StronglySorted Z.lt (sorted_unique Z.compare l).
Proof.
  induction l as [|x l IH]; simpl; [constructor |].
  now apply insert_unique_sorted.
Qed.

Lemma strictly_sorted_nodup (l : list Z) : StronglySorted Z.lt l -> NoDup l.
Proof.
  induction 1 as [|y l Hs IH Hall]; constructor; [| exact IH].
  intros Hin. rewrite Forall_forall in Hall. specialize (Hall y Hin). lia.
Qed.

(** The rows that survive the grouping carry time stamps of the input. *)
Lemma add_to_group_in (t t0 : Timestamp) (c c0 : Z)
  (groups : list (Timestamp * Z)) :
  In (t, c) (add_to_group t0 c0 groups) ->
  t = t0 \/ exists c', In (t, c') groups.
Proof.
  induction groups as [|[t' c'] groups IH]; simpl.
  - intros [E|[]]. left. congruence.
  - destruct (ts_value t0 <? ts_value t').
    + intros [E|[E|H]].
      * left. congruence.
      * right. exists c'. left. congruence.
      * right. exists c. now right.
    + destruct (ts_value t0 =? ts_value t').
      * intros [E|H].
        -- right. exists c'. left. congruence.
        -- right. exists c. now right.
      * intros [E|H].
        -- right. exists c'. left. congruence.
        -- destruct (IH H) as [->|[c1 H1]]; [now left |].
           right. exists c1. now right.
Qed.

Lemma groupby_date_sum_in (df : list (Timestamp * Z)) (t : Timestamp) (c : Z) :
  In (t, c) (groupby_date_sum df) -> In t (map fst df).
Proof.
  unfold groupby_date_sum.
  enough (G : forall groups,
             In (t, c) (fold_left
                          (fun groups r => add_to_group (fst r) (snd r) groups)
                          df groups) ->
             In t (map fst df) \/ exists c', In (t, c') groups).
  { intros H. destruct (G [] H) as [H'|[c' []]]. exact H'. }
  revert c. induction df as [|[t0 c0] df IH]; intros c groups; simpl.
  - intros H. right. now exists c.
  - intros H. destruct (IH c _ H) as [H'|[c' H']]; [tauto |].
    apply add_to_group_in in H'. simpl in H'.
    destruct H' as [->|H']; [tauto | now right].
Qed.

Lemma weekday_rows_spec (stamps : list Timestamp) (r : Row) :
  In r (weekday_rows stamps) ->
  0 <= row_weekday r < 5
  /\ exists t, In t stamps /\ row_weekday r = weekday t.
Proof.
  unfold weekday_rows. rewrite filter_In, in_map_iff.
  intros [([t c] & <- & Hin) Hlt].
  apply groupby_date_sum_in in Hin.
  rewrite map_map, map_id in Hin.
  cbn [calendar_columns row_weekday fst] in *.
  split.
  - apply Z.ltb_lt in Hlt. pose proof (weekday_range t). lia.
  - exists t. auto.
Qed.

Lemma weekdays_without_one (missing : Z) (l : list Z) :
  0 <= missing < 5 ->
  NoDup l ->
  (forall x, In x l -> 0 <= x < 5 /\ x <> missing) ->
  (List.length l <= 4)%nat.
Proof.
  intros Hm Hnd Hl.
  assert (Hincl : incl l (remove Z.eq_dec missing [0; 1; 2; 3; 4])).
  { intros x Hx. destruct (Hl x Hx) as [Hr Hne].
    apply in_in_remove; [exact Hne |].
    simpl. lia. }
  apply NoDup_incl_length in Hincl; [| exact Hnd].
  assert (Hlen : List.length (remove Z.eq_dec missing [0; 1; 2; 3; 4]) = 4%nat).
  { assert (Hcases : missing = 0 \/ missing = 1 \/ missing = 2
                     \/ missing = 3 \/ missing = 4) by lia.
    destruct Hcases as [->|[->|[->|[->| ->]]]]; reflexivity. }
  lia.
Qed.

(** The pivot of a frame in which one weekday never shows has fewer than
    five rows. *)
Lemma heatmap_grid_rows (stamps : list Timestamp) (missing : Z) :
  0 <= missing < 5 ->
  (forall t, In t stamps -> weekday t <> missing) ->
  (List.length (index (heatmap_grid stamps)) <= 4)%nat.
Proof.
  intros Hm Hnone. unfold heatmap_grid, pivot_table. cbn [index].
  apply weekdays_without_one with (missing := missing); [exact Hm | |].
  - apply strictly_sorted_nodup, sorted_unique_sorted.
  - intros x Hx. apply sorted_unique_in in Hx.
    apply in_map_iff in Hx. destruct Hx as (r & <- & Hr).
    apply weekday_rows_spec in Hr. destruct Hr as [Hr (t & Ht & E)].
    split; [exact Hr |]. rewrite E. now apply Hnone.
Qed.

(** ** The grid and its rendering *)

Lemma cap_idempotent (x : Q) : cap (cap x) = cap x.
Proof.
  unfold cap, py_min.
  destruct (Qle_bool x 10) eqn:E; [now rewrite E | reflexivity].
Qed.

Lemma cap_le (x : Q) : (cap x <= 10)%Q.
Proof.
  unfold cap, py_min.
  destruct (Qle_bool x 10) eqn:E.
  - now apply Qle_bool_iff.
  - apply Qle_refl.
Qed.

(** What a successful assignment of labels leaves: the labels as index, and
    either the cells of the frame as they were, or, on a frame without
    columns, one row without cells per label. *)
Lemma set_index_ok {L L' : Type} (labels : list L') (f : Frame L)
  (frame : Frame L') :
  set_index labels f = Ok frame ->
  index frame = labels
  /\ ((columns f = [] /\ columns frame = []
       /\ values frame = map (fun _ => []) labels)
      \/ (columns f <> []
          /\ List.length labels = List.length (index f)
          /\ columns frame = columns f /\ values frame = values f)).
Proof.
  unfold set_index. destruct (columns f) as [|c cols] eqn:Hcols.
  - intros H. inversion H. cbn [index columns values]. auto.
  - destruct (Nat.eqb_spec (List.length labels) (List.length (index f)))
      as [E|_]; [| discriminate].
    intros H. inversion H. cbn [index columns values].
    split; [reflexivity |]. right. repeat split; auto. discriminate.
Qed.

(** C8: the cap is [min(x, 10)]: applying it twice is applying it once, no
    capped value exceeds 10, values up to 10 are left alone and an integer
    [n] becomes the integer [min n 10], so that 10, 11 and 25 all become
    10; the cells of the figure handed to the renderer are the capped cells
    of the labelled pivot, which are those of the pivot whenever it has a
    column. *)
Theorem cap_is_an_idempotent_clamp :
  (forall x : Q, cap (cap x) = cap x)
  /\ (forall x : Q, (cap x <= 10)%Q)
  /\ (forall x : Q, (x <= 10)%Q -> cap x = x)
  /\ (forall n : Z, cap (inject_Z n) = inject_Z (Z.min n 10))
  /\ cap 10 = 10%Q /\ cap 11 = 10%Q /\ cap 25 = 10%Q
  /\ (forall (to_datetime : list string -> result (list Timestamp))
             (dates : list string) (output_file : string) (w w' : world),
        generate_plotly_heatmap to_datetime dates output_file w
        = Some (Ok tt, w') ->
        exists (stamps : list Timestamp) (frame : Frame string)
               (fig : Figure),
          to_datetime dates = Ok stamps
          /\ set_index weekday_labels (heatmap_grid stamps) = Ok frame
          /\ w' = w ++ [WroteHtml output_file fig; Shown fig]
          /\ fig_z fig = map (map cap) (values frame)
          /\ (columns (heatmap_grid stamps) <> [] ->
              fig_z fig = map (map cap) (values (heatmap_grid stamps)))
          /\ Forall (Forall (fun x => (x <= 10)%Q)) (fig_z fig)).
Proof.
  split; [exact cap_idempotent |].
  split; [exact cap_le |].
  split.
  { intros x Hx. unfold cap, py_min.
    apply Qle_bool_iff in Hx. now rewrite Hx. }
  split.
  { intros n. unfold cap, py_min, Qle_bool. cbn [Qnum Qden inject_Z].
    rewrite !Z.mul_1_r.
    destruct (Z.leb_spec n 10) as [H|H].
    - now rewrite Z.min_l.
    - rewrite Z.min_r by lia. reflexivity. }
  split; [reflexivity |]. split; [reflexivity |]. split; [reflexivity |].
  intros to_datetime dates output_file w w' Hrun.
  unfold generate_plotly_heatmap in Hrun.
  destruct (to_datetime dates) as [stamps|e] eqn:Hparse;
    [rewrite bind_lift_ok in Hrun | discriminate Hrun].
  destruct (set_index weekday_labels (pivot_table (weekday_rows stamps)))
    as [frame|e] eqn:Hindex;
    [rewrite bind_lift_ok in Hrun | discriminate Hrun].
  match type of Hrun with
  | bind (lift ?ticks) _ _ = _ =>
      destruct ticks as [tickvals|e];
        [rewrite bind_lift_ok in Hrun | discriminate Hrun]
  end.
  unfold bind, emit in Hrun. injection Hrun as <-.
  eexists stamps, frame, _. split; [reflexivity |].
  split; [exact Hindex |].
  split; [now rewrite <- app_assoc |].
  cbn [fig_z frame_map values]. split; [reflexivity |].
  split.
  { intros Hcols. apply set_index_ok in Hindex.
    destruct Hindex as (_ & [(Hnone & _)|(_ & _ & _ & ->)]);
      [| reflexivity].
    now destruct Hcols. }
  apply Forall_map, Forall_forall. intros row _.
  apply Forall_map, Forall_forall. intros x _. apply cap_le.
Qed.

(** C2, on the code: for the three time stamps of the example the frame is
    grouped by instant, so the Monday holds two rows of count 1, and the
    pivot averages them: the Monday cell of week 1 of 2023 is 1.  No row of
    the grid comes from the Saturday; and with a single weekday present the
    assignment of the five labels raises [ValueError], so that no figure is
    written.  With the other four working days added the figure is written,
    its Monday cell still 1. *)
Theorem monday_cell_averages_the_instants :
  iso_to_datetime sample_dates
  = Ok [ {| ts_year := 2023; ts_month := 1; ts_day := 2; ts_hour := 10;
           ts_minute := 0; ts_second := 0; ts_nanosecond := 0 |};
         {| ts_year := 2023; ts_month := 1; ts_day := 2; ts_hour := 11;
           ts_minute := 0; ts_second := 0; ts_nanosecond := 0 |};
         {| ts_year := 2023; ts_month := 1; ts_day := 7; ts_hour := 9;
           ts_minute := 0; ts_second := 0; ts_nanosecond := 0 |} ]
  /\ (let? stamps := iso_to_datetime sample_dates in
      Ok (map (fun r => (row_weekday r, row_year r, row_week r, row_count r))
            (weekday_rows stamps)))
     = Ok [(0, 2023, 1, 1); (0, 2023, 1, 1)]
  /\ (let? stamps := iso_to_datetime sample_dates in Ok (heatmap_grid stamps))
     = Ok {| index := [0]; columns := [(2023, 1)]; values := [[1%Q]] |}
  /\ generate_plotly_heatmap iso_to_datetime sample_dates
       "contributions_plotly_fig.html" []
     = Some (Raise ValueError, [])
  /\ (exists fig : Figure,
        generate_plotly_heatmap iso_to_datetime sample_full_week
          "contributions_plotly_fig.html" []
        = Some (Ok tt,
                [WroteHtml "contributions_plotly_fig.html" fig; Shown fig])
        /\ fig_z fig = [[1%Q]; [1%Q]; [1%Q]; [1%Q]; [1%Q]]).
Proof.
  repeat split; try (vm_compute; reflexivity).
  eexists. split; vm_compute; reflexivity.
Qed.

(** ** Concrete runs *)

(** Against an endpoint that answers [sample_page_one] and then
    [sample_page_two], the fetch posts two requests, the second with the
    commits' cursor, and returns the events of both pages. *)
Lemma two_pages_are_fetched_in_order :
  fetch_contributions unused_str
    (scripted [Body (encode_body sample_page_one);
               Body (encode_body sample_page_two)])
    2 "octocat" sample_header "2023-01-01" []
  = Some (Ok (page_events sample_page_one ++ page_events sample_page_two),
          [Sent (page_request unused_str "octocat" sample_header "2023-01-01"
                   JNull);
           Sent (page_request unused_str "octocat" sample_header "2023-01-01"
                   (JStr sample_cursor))]).
Proof.
  apply (proj2 (pagination_follows_commit_page_info unused_str
                  (scripted [Body (encode_body sample_page_one);
                             Body (encode_body sample_page_two)]))
           0%nat "octocat" sample_header "2023-01-01"
           sample_page_one sample_page_two
           {| nodes := [occurred "2023-01-02T10:00:00Z";
                        occurred "2023-01-02T11:00:00Z"];
              pageInfo := {| hasNextPage := true;
                             endCursor := Some sample_cursor |} |}
           {| nodes := [occurred "2023-01-06T12:00:00Z"];
              pageInfo := {| hasNextPage := false; endCursor := None |} |}
           []
           [ {| nodes := [occurred "2023-01-09T12:00:00Z"];
                pageInfo := {| hasNextPage := true;
                               endCursor := Some "b3RoZXI" |} |} ]);
    reflexivity.
Defined.

(** Two year windows: the first answers one page and then errors, the
    second answers its last page.  The events of both windows come back. *)
Example errors_in_one_year_keep_the_other_years :
  exists w' : world,
    fetch_all_contributions unused_str
      (scripted [Body (encode_body sample_page_one);
                 Body sample_errors_body;
                 Body (encode_body sample_page_two)])
      2 "octocat" sample_header
      {| year := 2021; month := 9; day := 15 |}
      {| year := 2023; month := 3; day := 1 |} []
    = Some (Ok (page_events sample_page_one ++ page_events sample_page_two),
            w')
    /\ List.length (requests_sent w') = 3%nat.
Proof. eexists. split; vm_compute; reflexivity. Qed.

(** An errors body as the first reply: an empty list comes back, and the
    call raises nothing. *)
Lemma errors_body_returns_normally :
  fetch_contributions unused_str (scripted [Body sample_errors_body])
    1 "octocat" sample_header "2023-01-01" []
  = Some (Ok [],
          [Sent (page_request unused_str "octocat" sample_header "2023-01-01"
                   JNull);
           Printed errors_label sample_errors])
  /\ ~ (exists (e : exn) (w' : world),
          fetch_contributions unused_str (scripted [Body sample_errors_body])
            1 "octocat" sample_header "2023-01-01" []
          = Some (Raise e, w')).
Proof.
  split.
  - vm_compute. reflexivity.
  - intros (e & w' & H). vm_compute in H. discriminate H.
Qed.

Lemma errors_on_first_page_give_an_empty_list :
  fetch_contributions unused_str (scripted [Body sample_errors_body])
    1 "octocat" sample_header "2023-01-01" []
  = Some (Ok [],
          [] ++ [Sent (page_request unused_str "octocat" sample_header
                         "2023-01-01" JNull);
                 Printed errors_label sample_errors]).
Proof.
  apply (proj2 (proj2 (errors_are_printed_not_raised unused_str
                         (scripted [Body sample_errors_body])
                         0%nat "octocat" sample_header "2023-01-01" [] JNull []
                         [("errors", sample_errors)] sample_errors
                         eq_refl eq_refl)));
    reflexivity.
Defined.

(** A page without repositories: the loop fails with [IndexError]. *)
Lemma year_without_commits_raises_index_error :
  fetch_loop unused_str
    (scripted [Body (encode_body sample_page_without_commits)])
    1 "octocat" sample_header "2021-01-01" [] JNull []
  = Some (Raise IndexError,
          [] ++ [Sent (page_request unused_str "octocat" sample_header
                         "2021-01-01" JNull)]).
Proof.
  apply (proj2 (proj2 (page_info_reads_first_repository_only unused_str
                         (scripted [Body (encode_body
                                            sample_page_without_commits)])))
           0%nat "octocat" sample_header "2021-01-01" [] JNull []
           sample_page_without_commits);
    reflexivity.
Defined.

(** [sample_page_two] with its reviews and repository creations removed
    yields the same events. *)
Lemma reviews_and_repositories_are_not_extracted :
  extract_contributions (encode_collection sample_page_two)
  = extract_contributions
      (encode_collection
         {| commitContributionsByRepository :=
              commitContributionsByRepository sample_page_two;
            issueContributions := issueContributions sample_page_two;
            pullRequestContributions :=
              pullRequestContributions sample_page_two;
            pullRequestReviewContributions :=
              {| nodes := [];
                 pageInfo := {| hasNextPage := false; endCursor := None |} |};
            repositoryContributions :=
              {| nodes := [];
                 pageInfo := {| hasNextPage := false; endCursor := None |} |};
            restrictedContributionsCount := 7;
            contributionCalendar := JNull |}).
Proof.
  apply (proj1 (proj2 extract_keeps_commit_issue_pull_events));
    reflexivity.
Defined.

(** From 15 September 2019 to 1 March 2022: three windows. *)
Lemma three_year_windows :
  fetch_all_contributions_with (recording_fetch (fun d => [occurred d]))
    "octocat" sample_header
    {| year := 2019; month := 9; day := 15 |}
    {| year := 2022; month := 3; day := 1 |} []
  = Some (Ok [occurred "2019-09-15"; occurred "2020-09-15";
              occurred "2021-09-15"],
          [Called "fetch_contributions" "2019-09-15";
           Called "fetch_contributions" "2020-09-15";
           Called "fetch_contributions" "2021-09-15"]).
Proof.
  refine (proj1 (proj2 (proj2 (proj2
            (fetch_all_visits_each_year_window
               "octocat" sample_header
               {| year := 2019; month := 9; day := 15 |}
               {| year := 2022; month := 3; day := 1 |} _))))
            (fun d => [occurred d]) []).
  cbn [year month day]. intros k Hk.
  assert (Hcases : k = 0 \/ k = 1 \/ k = 2) by lia.
  destruct Hcases as [->|[->| ->]]; reflexivity.
Defined.

(** The same range when the year 2020 cannot be fetched: two calls, and the
    exception leaves the loop.  Against the endpoint, a first year without
    commits ends the run of two years after one request. *)
Example raising_window_ends_the_range :
  fetch_all_contributions_with
    (recording_fetch_or_raise
       (fun d => if String.eqb d "2020-09-15" then Raise ConnectionError
                 else Ok [occurred d]))
    "octocat" sample_header
    {| year := 2019; month := 9; day := 15 |}
    {| year := 2022; month := 3; day := 1 |} []
  = Some (Raise ConnectionError,
          [Called "fetch_contributions" "2019-09-15";
           Called "fetch_contributions" "2020-09-15"])
  /\ fetch_all_contributions unused_str
       (scripted [Body (encode_body sample_page_without_commits);
                  Body (encode_body sample_page_two)])
       2 "octocat" sample_header
       {| year := 2021; month := 9; day := 15 |}
       {| year := 2023; month := 3; day := 1 |} []
     = Some (Raise IndexError,
             [Sent (page_request unused_str "octocat" sample_header
                      "2021-09-15" JNull)]).
Proof. split; vm_compute; reflexivity. Qed.

(** A start on 29 February: the second window does not exist, [replace]
    raises after one call of the per-year fetch, where the difference of the
    years is 2.  An end before the start: no call, where the difference of
    the years is -1. *)
Lemma leap_day_start_breaks_the_year_windows :
  fetch_all_contributions_with (recording_fetch (fun d => [occurred d]))
    "octocat" sample_header
    {| year := 2020; month := 2; day := 29 |}
    {| year := 2022; month := 6; day := 1 |} []
  = Some (Raise ValueError, [Called "fetch_contributions" "2020-02-29"])
  /\ valid_date 2020 2 29 = true
  /\ valid_date 2022 6 1 = true
  /\ fetch_all_contributions_with (recording_fetch (fun d => [occurred d]))
       "octocat" sample_header
       {| year := 2024; month := 3; day := 1 |}
       {| year := 2023; month := 3; day := 1 |} []
     = Some (Ok [], []).
Proof.
  repeat split; vm_compute; reflexivity.
Qed.

(** The cursor of the sample in the argument list of the issues. *)
Lemma issues_are_asked_after_the_cursor :
  occurs ("issueContributions(first: 100, after: " ++ dquote
            ++ sample_cursor ++ dquote ++ ")")%string
    (get_contributions_query unused_str "octocat" "2023-01-01"
       (JStr sample_cursor)).
Proof.
  refine (proj1 (cursor_reaches_every_pagination_argument unused_str
                   "octocat" "2023-01-01" sample_cursor _)
            "issueContributions" _).
  - discriminate.
  - cbn [paginated_fields In]. tauto.
Defined.

(** Twelve events at one instant of a Monday are drawn as 10. *)
Lemma busy_monday_is_drawn_as_ten :
  exists (stamps : list Timestamp) (frame : Frame string) (fig : Figure),
    iso_to_datetime sample_busy_week = Ok stamps
    /\ set_index weekday_labels (heatmap_grid stamps) = Ok frame
    /\ [WroteHtml "contributions_plotly_fig.html"
          {| fig_z := [[10%Q]; [1%Q]; [1%Q]; [1%Q]; [1%Q]];
             fig_yticks := weekday_labels;
             fig_tickvals := [0];
             fig_ticktext := ["2023"] |};
        Shown
          {| fig_z := [[10%Q]; [1%Q]; [1%Q]; [1%Q]; [1%Q]];
             fig_yticks := weekday_labels;
             fig_tickvals := [0];
             fig_ticktext := ["2023"] |}]
       = [] ++ [WroteHtml "contributions_plotly_fig.html" fig; Shown fig]
    /\ fig_z fig = map (map cap) (values frame)
    /\ (columns (heatmap_grid stamps) <> [] ->
        fig_z fig = map (map cap) (values (heatmap_grid stamps)))
    /\ Forall (Forall (fun x => (x <= 10)%Q)) (fig_z fig).
Proof.
  apply (proj2 (proj2 (proj2 (proj2 (proj2 (proj2 (proj2
           cap_is_an_idempotent_clamp))))))
           iso_to_datetime sample_busy_week
           "contributions_plotly_fig.html" []).
  vm_compute. reflexivity.
Defined.

(** * Further properties of the fetch *)

(** ** The dates handed to the heat map *)

Lemma process_contributions_from (events dates acc : list json) :
  Forall2 (fun ev d => getitem ev "occurredAt" = Ok d) events dates ->
  for_each events acc (fun contribution dates =>
    let? d := getitem contribution "occurredAt" in Ok (dates ++ [d]))
  = Ok (acc ++ dates).
Proof.
  intros H. revert acc.
  induction H as [|ev d events dates Hd _ IH]; intros acc; cbn [for_each].
  - now rewrite app_nil_r.
  - rewrite Hd. cbn [rbind]. rewrite IH. now rewrite <- app_assoc.
Qed.

(** X1: [process_contributions] projects every event to the value of its
    [occurredAt], in the order of the events and without dropping
    duplicates: as many dates come out as events went in. *)
Theorem process_contributions_keeps_order_and_duplicates
  (events dates : list json) :
  Forall2 (fun ev d => getitem ev "occurredAt" = Ok d) events dates ->
  process_contributions events = Ok dates
  /\ List.length dates = List.length events.
Proof.
  intros H. split.
  - unfold process_contributions.
    now rewrite (process_contributions_from events dates [] H).
  - symmetry. exact (Forall2_length H).
Qed.

(** X2: an event without [occurredAt], or one that is no dict at all, makes
    [process_contributions] raise what the subscript raises; the dates of the
    events before it are not returned. *)
Theorem process_contributions_stops_at_a_bad_event
  (good dates : list json) (bad : json) (rest : list json) (e : exn) :
  Forall2 (fun ev d => getitem ev "occurredAt" = Ok d) good dates ->
  getitem bad "occurredAt" = Raise e ->
  process_contributions (good ++ bad :: rest) = Raise e.
Proof.
  intros Hgood Hbad. unfold process_contributions.
  enough (G : forall acc,
             for_each (good ++ bad :: rest) acc
               (fun contribution dates =>
                  let? d := getitem contribution "occurredAt" in
                  Ok (dates ++ [d]))
             = Raise e) by apply G.
  induction Hgood as [|ev d good dates Hd _ IH]; intros acc; cbn [for_each app].
  - now rewrite Hbad.
  - rewrite Hd. cbn [rbind]. apply IH.
Qed.

Lemma occurred_dates (instants : list string) :
  Forall2 (fun ev d => getitem ev "occurredAt" = Ok d)
    (map occurred instants) (map JStr instants).
Proof.
  induction instants as [|i instants IH]; cbn [map]; constructor; auto.
Qed.

Lemma dates_of_sample_events :
  process_contributions (map occurred sample_dates)
  = Ok (map JStr sample_dates)
  /\ List.length (map JStr sample_dates)
     = List.length (map occurred sample_dates).
Proof.
  apply (process_contributions_keeps_order_and_duplicates
           (map occurred sample_dates) (map JStr sample_dates)).
  apply occurred_dates.
Defined.

Lemma null_event_is_a_type_error :
  process_contributions
    (map occurred ["2023-01-02T10:00:00Z"] ++ JNull :: map occurred sample_dates)
  = Raise TypeError.
Proof.
  apply (process_contributions_stops_at_a_bad_event
           (map occurred ["2023-01-02T10:00:00Z"])
           (map JStr ["2023-01-02T10:00:00Z"]) JNull
           (map occurred sample_dates) TypeError).
  - apply occurred_dates.
  - reflexivity.
Defined.

(** ** Replies the loop does not handle *)

Section FetchCoverage.

Variable py_str : json -> string.
Variable server : nat -> request -> reply.

Lemma post_fault (q : string) (header : list (string * string)) (w : world)
  (e : exn) :
  server (List.length (requests_sent w))
    {| url := graphql_url; query := q; headers := header |} = Fault e ->
  post server q header w
  = Some (Raise e,
          w ++ [Sent {| url := graphql_url; query := q; headers := header |}]).
Proof.
  intros E. unfold post. now rewrite E.
Qed.

(** X3: nothing catches a failure of the request or of the decoding of its
    body: the exception leaves the loop, the events gathered so far are not
    returned, and in [fetch_all_contributions] no later window is asked
    for. *)
Theorem network_fault_leaves_the_fetch (fuel : nat) (username : string)
  (header : list (string * string)) (from_date : string)
  (contributions : list json) (cursor : json) (w : world) (e : exn) :
  server (List.length (requests_sent w))
    (page_request py_str username header from_date cursor)
  = Fault e ->
  fetch_loop py_str server (S fuel) username header from_date contributions
    cursor w
  = Some (Raise e,
          w ++ [Sent (page_request py_str username header from_date cursor)])
  /\ forall (start_date : datetime) (k : Z) (offsets : list Z)
            (gathered : list json),
       cursor = JNull ->
       from_date = strftime_Ymd {| year := year start_date + k;
                                   month := month start_date;
                                   day := day start_date |} ->
       valid_date (year start_date + k) (month start_date) (day start_date)
       = true ->
       fetch_years (fetch_contributions py_str server (S fuel)) username
         header start_date (k :: offsets) gathered w
       = Some (Raise e,
               w ++ [Sent (page_request py_str username header from_date
                             JNull)]).
Proof.
  intros Hreply.
  assert (Hloop : forall acc,
    fetch_loop py_str server (S fuel) username header from_date acc cursor w
    = Some (Raise e,
            w ++ [Sent (page_request py_str username header from_date
                          cursor)])).
  { intros acc. cbn [fetch_loop]. unfold bind at 1.
    now rewrite (post_fault _ _ _ _ Hreply). }
  split; [apply Hloop |].
  intros start_date k offsets gathered -> Hdate Hvalid.
  unfold fetch_years. cbn [for_each_M].
  unfold replace_year. rewrite Hvalid.
  unfold bind at 1. rewrite bind_lift_ok.
  unfold bind at 1. unfold fetch_contributions. rewrite <- Hdate.
  now rewrite Hloop.
Qed.

(** X4: a body that is a dict with neither [errors] nor [data], such as the
    message the endpoint sends with a rejected token, makes the loop raise
    [KeyError]; a body whose [user] is null makes it raise [TypeError].
    Neither is printed or turned into an empty result. *)
Theorem body_without_data_raises (fuel : nat) (username : string)
  (header : list (string * string)) (from_date : string)
  (contributions : list json) (cursor : json) (w : world)
  (fields : list (string * json)) :
  server (List.length (requests_sent w))
    (page_request py_str username header from_date cursor)
  = Body (JObj fields) ->
  lookup "errors" fields = None ->
  (lookup "data" fields = None ->
   fetch_loop py_str server (S fuel) username header from_date contributions
     cursor w
   = Some (Raise KeyError,
           w ++ [Sent (page_request py_str username header from_date
                         cursor)]))
  /\ (forall inner : list (string * json),
        lookup "data" fields = Some (JObj inner) ->
        lookup "user" inner = Some JNull ->
        fetch_loop py_str server (S fuel) username header from_date
          contributions cursor w
        = Some (Raise TypeError,
                w ++ [Sent (page_request py_str username header from_date
                              cursor)])).
Proof.
  intros Hreply Herrors.
  split.
  - intros Hdata. cbn [fetch_loop]. unfold bind at 1.
    rewrite (post_body _ _ _ _ _ Hreply).
    unfold py_in. rewrite Herrors, bind_lift_ok.
    unfold getitem at 1. rewrite Hdata. reflexivity.
  - intros inner Hdata Huser. cbn [fetch_loop]. unfold bind at 1.
    rewrite (post_body _ _ _ _ _ Hreply).
    unfold py_in. rewrite Herrors, bind_lift_ok.
    unfold getitem at 1. rewrite Hdata. cbn [rbind].
    unfold getitem at 1. rewrite Huser. reflexivity.
Qed.

(** X5: the loop has no bound of its own.  Against an endpoint that answers
    every request with a page whose commits say there is a next page, it
    never returns: whatever the fuel, the run is cut off. *)
Theorem endless_pages_never_return (p : Collection) (c : Connection)
  (rest : list Connection) (fuel : nat) (username : string)
  (header : list (string * string)) (from_date : string)
  (contributions : list json) (cursor : json) (w : world) :
  (forall (n : nat) (r : request), server n r = Body (encode_body p)) ->
  commitContributionsByRepository p = c :: rest ->
  hasNextPage (pageInfo c) = true ->
  fetch_loop py_str server fuel username header from_date contributions
    cursor w
  = None.
Proof.
  intros Hserver Hrepos Hnext.
  revert contributions cursor w.
  induction fuel as [|fuel IH]; intros contributions cursor w.
  - reflexivity.
  - rewrite (fetch_loop_page py_str server fuel username header from_date
               contributions cursor w p c rest (Hserver _ _) Hrepos).
    rewrite Hnext. apply IH.
Qed.

End FetchCoverage.

(** ** Runs over several pages and several years *)

Lemma requests_sent_app (w1 w2 : world) :
  requests_sent (w1 ++ w2) = requests_sent w1 ++ requests_sent w2.
Proof. unfold requests_sent. apply flat_map_app. Qed.

Lemma requests_sent_of_sent (rs : list request) :
  requests_sent (map Sent rs) = rs.
Proof.
  induction rs as [|r rs IH]; [reflexivity |].
  cbn. unfold requests_sent in IH. now rewrite IH.
Qed.

Lemma page_requests_length (py_str : json -> string) (username : string)
  (header : list (string * string)) (from_date : string) (cursor : json)
  (pages : list Collection) :
  List.length (page_requests py_str username header from_date cursor pages)
  = List.length pages.
Proof.
  revert cursor. induction pages as [|p pages IH]; intros cursor;
    cbn [page_requests List.length]; [reflexivity | now rewrite IH].
Qed.

Lemma scripted_after (before : list reply) (r : reply) (rest : list reply)
  (n : nat) (req : request) :
  n = List.length before ->
  scripted (before ++ r :: rest) n req = r.
Proof.
  intros ->. unfold scripted. now rewrite nth_middle.
Qed.

Lemma first_page_info_some (p : Collection) (info : PageInfo) :
  first_page_info p = Some info ->
  exists c rest,
    commitContributionsByRepository p = c :: rest /\ pageInfo c = info.
Proof.
  unfold first_page_info.
  destruct (commitContributionsByRepository p) as [|c rest];
    [discriminate |].
  intros H. inversion H. now exists c, rest.
Qed.

(** The loop against an endpoint that has these pages next in its script. *)
Lemma fetch_loop_pages (py_str : json -> string) (username : string)
  (header : list (string * string)) (from_date : string)
  (pages : list Collection) :
  forall (before after : list reply) (fuel : nat) (contributions : list json)
         (cursor : json) (w : world),
    paged pages = true ->
    List.length (requests_sent w) = List.length before ->
    (List.length pages <= fuel)%nat ->
    fetch_loop py_str (scripted (before ++ replies_of pages ++ after)) fuel
      username header from_date contributions cursor w
    = Some (Ok (contributions ++ flat_map page_events pages),
            w ++ map Sent (page_requests py_str username header from_date
                             cursor pages)).
Proof.
  induction pages as [|p pages IH];
    intros before after fuel contributions cursor w Hpaged Hsent Hfuel.
  - discriminate Hpaged.
  - destruct fuel as [|fuel]; [cbn in Hfuel; lia |].
    cbn [paged] in Hpaged.
    destruct (first_page_info p) as [info|] eqn:Hinfo; [| discriminate].
    destruct (first_page_info_some p info Hinfo) as (c & cs & Hrepos & Hc).
    change (replies_of (p :: pages) ++ after)
      with (Body (encode_body p) :: replies_of pages ++ after).
    rewrite (fetch_loop_page py_str _ fuel username header from_date
               contributions cursor w p c cs
               (scripted_after before _ _ _ _ Hsent) Hrepos).
    rewrite Hc.
    assert (Hcursor : encode_cursor (endCursor info) = next_cursor p).
    { unfold next_cursor. now rewrite Hinfo. }
    destruct pages as [|q pages].
    + apply negb_true_iff in Hpaged. rewrite Hpaged.
      cbn [flat_map page_requests map]. now rewrite !app_nil_r.
    + apply andb_true_iff in Hpaged. destruct Hpaged as [Hnext Hrest].
      rewrite Hnext, Hcursor.
      change (before ++ Body (encode_body p)
                :: replies_of (q :: pages) ++ after)
        with (before ++ [Body (encode_body p)]
                ++ replies_of (q :: pages) ++ after).
      rewrite (app_assoc before).
      rewrite IH.
      * cbn [flat_map page_requests map].
        now rewrite <- !app_assoc.
      * exact Hrest.
      * rewrite requests_sent_app, !length_app, Hsent. reflexivity.
      * cbn [List.length] in *. lia.
Qed.

(** X6: when the commits of every page but the last say there is a next
    page, [fetch_contributions] asks once per page, the first time without
    cursor and then with the cursor of the page before, and returns the
    events of all the pages in the order of the pages. *)
Theorem fetch_contributions_walks_every_page (py_str : json -> string)
  (username : string) (header : list (string * string)) (from_date : string)
  (pages : list Collection) (fuel : nat) :
  paged pages = true ->
  (List.length pages <= fuel)%nat ->
  fetch_contributions py_str (scripted (replies_of pages)) fuel username
    header from_date []
  = Some (Ok (flat_map page_events pages),
          map Sent (page_requests py_str username header from_date JNull
                      pages))
  /\ List.length (page_requests py_str username header from_date JNull pages)
     = List.length pages.
Proof.
  intros Hpaged Hfuel. split; [| apply page_requests_length].
  unfold fetch_contributions.
  pose proof (fetch_loop_pages py_str username header from_date pages [] []
                fuel [] JNull [] Hpaged eq_refl Hfuel) as H.
  cbn [app] in H. rewrite app_nil_r in H. exact H.
Qed.

Lemma fetch_years_windows (py_str : json -> string) (username : string)
  (header : list (string * string)) (start_date : datetime) (fuel : nat)
  (windows : list (list Collection)) :
  forall (offsets : list Z) (before after : list reply)
         (contributions : list json) (w : world),
    let window := fun k =>
      strftime_Ymd {| year := year start_date + k;
                      month := month start_date;
                      day := day start_date |} in
    List.length offsets = List.length windows ->
    Forall (fun pages => paged pages = true) windows ->
    Forall (fun pages => (List.length pages <= fuel)%nat) windows ->
    (forall k, In k offsets ->
       valid_date (year start_date + k) (month start_date) (day start_date)
       = true) ->
    List.length (requests_sent w) = List.length before ->
    fetch_years
      (fetch_contributions py_str
         (scripted (before ++ replies_of (List.concat windows) ++ after)) fuel)
      username header start_date offsets contributions w
    = Some (Ok (contributions ++ flat_map page_events (List.concat windows)),
            w ++ map Sent (window_requests py_str username header
                             (map window offsets) windows)).
Proof.
  induction windows as [|pages windows IH];
    intros offsets before after contributions w window Hlen Hpaged Hfuel
      Hvalid Hsent.
  - destruct offsets; [| discriminate Hlen].
    cbn. now rewrite !app_nil_r.
  - destruct offsets as [|k offsets]; [discriminate Hlen |].
    inversion Hpaged as [|? ? Hp Hps]; subst.
    inversion Hfuel as [|? ? Hf Hfs]; subst.
    cbn [List.concat]. unfold replies_of. rewrite map_app.
    fold (replies_of pages). fold (replies_of (List.concat windows)).
    rewrite <- app_assoc.
    rewrite (fetch_years_step _ username header start_date k offsets
               contributions (flat_map page_events pages) w
               (w ++ map Sent (page_requests py_str username header (window k)
                                 JNull pages))
               (Hvalid k (or_introl eq_refl))).
    + rewrite (app_assoc before).
      rewrite (IH offsets (before ++ replies_of pages) after).
      * cbn [map window_requests]. rewrite flat_map_app, map_app.
        now rewrite <- !app_assoc.
      * cbn [List.length] in Hlen. lia.
      * exact Hps.
      * exact Hfs.
      * intros j Hj. apply Hvalid. now right.
      * rewrite requests_sent_app, requests_sent_of_sent, !length_app.
        rewrite page_requests_length. unfold replies_of.
        rewrite length_map. lia.
    + unfold fetch_contributions.
      exact (fetch_loop_pages py_str username header (window k) pages
               before (replies_of (List.concat windows) ++ after) fuel []
               JNull w Hp Hsent Hf).
Qed.

(** ** A year window that ends on errors *)

Lemma for_each_M_app {A S : Type} (xs ys : list A) (body : A -> S -> M S) :
  forall (s : S) (w : world),
    for_each_M (xs ++ ys) s body w
    = match for_each_M xs s body w with
      | Some (Ok s', w') => for_each_M ys s' body w'
      | Some (Raise e, w') => Some (Raise e, w')
      | None => None
      end.
Proof.
  induction xs as [|x xs IH]; intros s w; cbn [app for_each_M].
  - reflexivity.
  - unfold bind at 1 2.
    destruct (body x s w) as [[[s'|e] w']|]; auto.
Qed.

(** A window that does not return ends the loop over the years. *)
Lemma fetch_years_stop
  (fetch : string -> list (string * string) -> string -> M (list json))
  (username : string) (header : list (string * string))
  (start_date : datetime) (k : Z) (offsets : list Z)
  (contributions : list json) (w : world) :
  fetch_years fetch username header start_date (k :: offsets) contributions w
  = if valid_date (year start_date + k) (month start_date) (day start_date)
    then
      match fetch username header
              (strftime_Ymd {| year := year start_date + k;
                               month := month start_date;
                               day := day start_date |}) w with
      | Some (Ok fetched, w') =>
          fetch_years fetch username header start_date offsets
            (contributions ++ fetched) w'
      | Some (Raise e, w') => Some (Raise e, w')
      | None => None
      end
    else Some (Raise ValueError, w).
Proof.
  unfold fetch_years at 1. cbn [for_each_M]. unfold replace_year.
  destruct (valid_date (year start_date + k) (month start_date)
              (day start_date)); [| reflexivity].
  unfold bind at 1. rewrite bind_lift_ok. unfold bind at 1.
  destruct (fetch username header _ w) as [[[fetched|e] w']|]; reflexivity.
Qed.

(** What the loop over the years returns begins with the events it was
    entered with; the rest is what the same windows give from an empty
    list. *)
Lemma fetch_years_keeps_the_gathered
  (fetch : string -> list (string * string) -> string -> M (list json))
  (username : string) (header : list (string * string))
  (start_date : datetime) (offsets : list Z) :
  forall (contributions : list json) (w : world),
    fetch_years fetch username header start_date offsets contributions w
    = match fetch_years fetch username header start_date offsets [] w with
      | Some (Ok later, w') => Some (Ok (contributions ++ later), w')
      | Some (Raise e, w') => Some (Raise e, w')
      | None => None
      end.
Proof.
  induction offsets as [|k offsets IH]; intros contributions w.
  - cbn. now rewrite app_nil_r.
  - rewrite !fetch_years_stop.
    destruct (valid_date (year start_date + k) (month start_date)
                (day start_date)); [| reflexivity].
    destruct (fetch username header _ w) as [[[fetched|e] w']|];
      try reflexivity.
    cbn [app]. rewrite (IH (contributions ++ fetched) w'), (IH fetched w').
    destruct (fetch_years fetch username header start_date offsets [] w')
      as [[[later|e] w'']|]; try reflexivity.
    now rewrite app_assoc.
Qed.

Lemma cursor_after_page (cursor : json) (p : Collection)
  (pages : list Collection) :
  cursor_after cursor (p :: pages) = cursor_after (next_cursor p) pages.
Proof. reflexivity. Qed.

(** The loop against an endpoint whose script goes on with these pages, each
    of which announces a next one: it is then where it would be, had it been
    entered after them. *)
Lemma fetch_loop_more_pages (py_str : json -> string) (username : string)
  (header : list (string * string)) (from_date : string)
  (pages : list Collection) :
  forall (before after : list reply) (fuel : nat) (contributions : list json)
         (cursor : json) (w : world),
    forallb has_more pages = true ->
    List.length (requests_sent w) = List.length before ->
    fetch_loop py_str (scripted (before ++ replies_of pages ++ after))
      (List.length pages + fuel) username header from_date contributions
      cursor w
    = fetch_loop py_str (scripted (before ++ replies_of pages ++ after)) fuel
        username header from_date
        (contributions ++ flat_map page_events pages)
        (cursor_after cursor pages)
        (w ++ map Sent (page_requests py_str username header from_date
                          cursor pages)).
Proof.
  induction pages as [|p pages IH];
    intros before after fuel contributions cursor w Hmore Hsent.
  - cbn. now rewrite !app_nil_r.
  - cbn [forallb] in Hmore. apply andb_true_iff in Hmore.
    destruct Hmore as [Hp Hrest].
    unfold has_more in Hp.
    destruct (first_page_info p) as [info|] eqn:Hinfo; [| discriminate].
    destruct (first_page_info_some p info Hinfo) as (c & cs & Hrepos & Hc).
    assert (Hcursor : encode_cursor (endCursor info) = next_cursor p).
    { unfold next_cursor. now rewrite Hinfo. }
    cbn [List.length Nat.add].
    change (replies_of (p :: pages) ++ after)
      with (Body (encode_body p) :: replies_of pages ++ after).
    rewrite (fetch_loop_page py_str _ (List.length pages + fuel) username
               header from_date contributions cursor w p c cs
               (scripted_after before _ _ _ _ Hsent) Hrepos).
    rewrite Hc, Hp, Hcursor.
    change (before ++ Body (encode_body p) :: replies_of pages ++ after)
      with (before ++ [Body (encode_body p)] ++ replies_of pages ++ after).
    rewrite (app_assoc before).
    rewrite IH.
    + rewrite cursor_after_page. cbn [flat_map page_requests map].
      now rewrite <- !app_assoc.
    + exact Hrest.
    + rewrite requests_sent_app, !length_app, Hsent. reflexivity.
Qed.

(** A year window whose pages each announce a next one and are followed by
    a body with errors. *)
Lemma fetch_loop_pages_then_errors (py_str : json -> string)
  (username : string) (header : list (string * string)) (from_date : string)
  (pages : list Collection) (fields : list (string * json)) (errors : json)
  (before after : list reply) (fuel : nat) (contributions : list json)
  (cursor : json) (w : world) :
  forallb has_more pages = true ->
  lookup "errors" fields = Some errors ->
  List.length (requests_sent w) = List.length before ->
  (List.length pages < fuel)%nat ->
  fetch_loop py_str
    (scripted (before ++ replies_of pages ++ Body (JObj fields) :: after))
    fuel username header from_date contributions cursor w
  = Some (Ok (contributions ++ flat_map page_events pages),
          w ++ map Sent (page_requests py_str username header from_date
                           cursor pages)
            ++ [Sent (page_request py_str username header from_date
                        (cursor_after cursor pages));
                Printed errors_label errors]).
Proof.
  intros Hmore Herrors Hsent Hfuel.
  replace fuel
    with (List.length pages + S (fuel - List.length pages - 1))%nat by lia.
  rewrite (fetch_loop_more_pages py_str username header from_date pages
             before (Body (JObj fields) :: after) _ contributions cursor w
             Hmore Hsent).
  rewrite (fetch_loop_errors py_str _ _ username header from_date _ _ _
             fields errors); [now rewrite <- app_assoc | | exact Herrors].
  rewrite app_assoc. apply scripted_after.
  rewrite requests_sent_app, requests_sent_of_sent, !length_app.
  rewrite page_requests_length. unfold replies_of.
  rewrite length_map. lia.
Qed.

Lemma window_requests_length (py_str : json -> string) (username : string)
  (header : list (string * string)) (windows : list (list Collection)) :
  forall from_dates : list string,
    List.length from_dates = List.length windows ->
    List.length (window_requests py_str username header from_dates windows)
    = List.length (List.concat windows).
Proof.
  induction windows as [|pages windows IH]; intros from_dates Hlen.
  - destruct from_dates; [reflexivity | discriminate Hlen].
  - destruct from_dates as [|d from_dates]; [discriminate Hlen |].
    cbn [window_requests List.concat]. rewrite !length_app.
    rewrite page_requests_length, IH; [reflexivity |].
    cbn [List.length] in Hlen. lia.
Qed.

Lemma in_firstn {A : Type} (n : nat) (l : list A) (x : A) :
  In x (firstn n l) -> In x l.
Proof.
  intros H. rewrite <- (firstn_skipn n l). apply in_or_app. now left.
Qed.

Lemma in_skipn {A : Type} (n : nat) (l : list A) (x : A) :
  In x (skipn n l) -> In x l.
Proof.
  intros H. rewrite <- (firstn_skipn n l). apply in_or_app. now right.
Qed.

Lemma skipn_at {A : Type} (l : list A) :
  forall (n : nat) (d : A),
    (n < List.length l)%nat ->
    skipn n l = nth n l d :: skipn (S n) l.
Proof.
  induction l as [|x l IH]; intros n d Hn; [cbn in Hn; lia |].
  destruct n as [|n]; [reflexivity |].
  cbn [skipn nth]. rewrite (IH n d) by (cbn in Hn; lia). reflexivity.
Qed.

(** A range of years in which one window ends on errors: the windows before
    it, its own pages, and the windows after it. *)
Lemma fetch_all_with_an_errors_window (py_str : json -> string)
  (username : string) (header : list (string * string))
  (start_date end_date : datetime)
  (earlier later : list (list Collection)) (pages : list Collection)
  (fields : list (string * json)) (errors : json) (fuel : nat) :
  Z.of_nat (List.length earlier) + 1 + Z.of_nat (List.length later)
  = year end_date - year start_date ->
  Forall (fun pages => paged pages = true) (earlier ++ later) ->
  Forall (fun pages => (List.length pages <= fuel)%nat) (earlier ++ later) ->
  forallb has_more pages = true ->
  (List.length pages < fuel)%nat ->
  lookup "errors" fields = Some errors ->
  (forall k, 0 <= k < year end_date - year start_date ->
     valid_date (year start_date + k) (month start_date) (day start_date)
     = true) ->
  let windows := year_windows start_date end_date in
  let from_date := nth (List.length earlier) windows ""%string in
  fetch_all_contributions py_str
    (scripted (replies_of (List.concat earlier)
               ++ replies_of pages
               ++ Body (JObj fields) :: replies_of (List.concat later)))
    fuel username header start_date end_date []
  = Some (Ok (flat_map page_events (List.concat earlier)
              ++ flat_map page_events pages
              ++ flat_map page_events (List.concat later)),
          map Sent (window_requests py_str username header
                      (firstn (List.length earlier) windows) earlier)
          ++ map Sent (page_requests py_str username header from_date JNull
                         pages)
          ++ [Sent (page_request py_str username header from_date
                      (cursor_after JNull pages));
              Printed errors_label errors]
          ++ map Sent (window_requests py_str username header
                         (skipn (S (List.length earlier)) windows) later)).
Proof.
  intros Hlen Hpaged Hfuel Hmore Hpages Herrors Hvalid windows from_date.
  apply Forall_app in Hpaged. destruct Hpaged as [Hpaged1 Hpaged2].
  apply Forall_app in Hfuel. destruct Hfuel as [Hfuel1 Hfuel2].
  set (n := List.length earlier) in *.
  set (offsets := py_range (year end_date - year start_date)).
  set (window := fun k =>
         strftime_Ymd {| year := year start_date + k;
                         month := month start_date;
                         day := day start_date |}).
  assert (Hwindows : windows = map window offsets) by reflexivity.
  assert (Hoffsets : List.length offsets
                     = (n + 1 + List.length later)%nat).
  { unfold offsets. rewrite py_range_length. lia. }
  assert (Hsplit : offsets
                   = firstn n offsets
                     ++ nth n offsets 0 :: skipn (S n) offsets).
  { rewrite <- (skipn_at offsets n 0) by lia.
    symmetry. apply firstn_skipn. }
  assert (Hin : forall k, In k offsets ->
            valid_date (year start_date + k) (month start_date)
              (day start_date) = true).
  { intros k Hk. apply Hvalid. now apply py_range_bounds. }
  assert (Hfirst : firstn n windows = map window (firstn n offsets)).
  { rewrite Hwindows. apply firstn_map. }
  assert (Hrest : skipn (S n) windows = map window (skipn (S n) offsets)).
  { rewrite Hwindows. apply skipn_map. }
  assert (Hdate : from_date = window (nth n offsets 0)).
  { unfold from_date. rewrite Hwindows.
    rewrite (nth_indep _ ""%string (window 0))
      by (rewrite length_map; lia).
    apply map_nth. }
  rewrite Hfirst, Hrest, Hdate.
  unfold fetch_all_contributions, fetch_all_contributions_with.
  fold offsets. rewrite Hsplit at 1.
  unfold fetch_years at 1. rewrite for_each_M_app.
  fold (fetch_years
          (fetch_contributions py_str
             (scripted (replies_of (List.concat earlier)
                        ++ replies_of pages
                        ++ Body (JObj fields)
                           :: replies_of (List.concat later))) fuel)
          username header start_date (firstn n offsets) []).
  pose proof (fetch_years_windows py_str username header start_date fuel
                earlier (firstn n offsets) []
                (replies_of pages
                 ++ Body (JObj fields) :: replies_of (List.concat later))
                [] []) as Hearlier.
  cbn zeta in Hearlier. cbn [app] in Hearlier.
  rewrite Hearlier; clear Hearlier.
  2: { rewrite length_firstn. unfold n. lia. }
  2: { exact Hpaged1. }
  2: { exact Hfuel1. }
  2: { intros k Hk. apply Hin. now apply in_firstn in Hk. }
  2: { reflexivity. }
  fold window.
  fold (fetch_years
          (fetch_contributions py_str
             (scripted (replies_of (List.concat earlier)
                        ++ replies_of pages
                        ++ Body (JObj fields)
                           :: replies_of (List.concat later))) fuel)
          username header start_date
          (nth n offsets 0 :: skipn (S n) offsets)
          (flat_map page_events (List.concat earlier))).
  assert (Hsent : List.length
                    (requests_sent
                       (map Sent (window_requests py_str username header
                                    (map window (firstn n offsets))
                                    earlier)))
                  = List.length (replies_of (List.concat earlier))).
  { rewrite requests_sent_of_sent, window_requests_length.
    - unfold replies_of. now rewrite length_map.
    - rewrite length_map, length_firstn. unfold n. lia. }
  rewrite (fetch_years_step _ username header start_date (nth n offsets 0)
             (skipn (S n) offsets)
             (flat_map page_events (List.concat earlier))
             (flat_map page_events pages)
             (map Sent (window_requests py_str username header
                          (map window (firstn n offsets)) earlier))
             (map Sent (window_requests py_str username header
                          (map window (firstn n offsets)) earlier)
              ++ map Sent (page_requests py_str username header
                             (window (nth n offsets 0)) JNull pages)
              ++ [Sent (page_request py_str username header
                          (window (nth n offsets 0))
                          (cursor_after JNull pages));
                  Printed errors_label errors])).
  2: { apply Hin. apply nth_In. lia. }
  2: { unfold fetch_contributions. fold (window (nth n offsets 0)).
       exact (fetch_loop_pages_then_errors py_str username header
                (window (nth n offsets 0)) pages fields errors
                (replies_of (List.concat earlier))
                (replies_of (List.concat later)) fuel [] JNull _
                Hmore Herrors Hsent Hpages). }
  assert (Hscript :
    replies_of (List.concat earlier)
    ++ replies_of pages ++ Body (JObj fields) :: replies_of (List.concat later)
    = (replies_of (List.concat earlier)
       ++ replies_of pages ++ [Body (JObj fields)])
      ++ replies_of (List.concat later) ++ []).
  { rewrite app_nil_r, <- !app_assoc. reflexivity. }
  rewrite Hscript.
  pose proof (fetch_years_windows py_str username header start_date fuel
                later (skipn (S n) offsets)
                (replies_of (List.concat earlier)
                 ++ replies_of pages ++ [Body (JObj fields)])
                []
                (flat_map page_events (List.concat earlier)
                 ++ flat_map page_events pages)
                (map Sent (window_requests py_str username header
                             (map window (firstn n offsets)) earlier)
                 ++ map Sent (page_requests py_str username header
                                (window (nth n offsets 0)) JNull pages)
                 ++ [Sent (page_request py_str username header
                             (window (nth n offsets 0))
                             (cursor_after JNull pages));
                     Printed errors_label errors])) as Hlater.
  cbn zeta in Hlater. fold window in Hlater.
  rewrite Hlater; clear Hlater.
  - now rewrite <- !app_assoc.
  - rewrite length_skipn. lia.
  - exact Hpaged2.
  - exact Hfuel2.
  - intros k Hk. apply Hin. now apply in_skipn in Hk.
  - rewrite !requests_sent_app, !length_app, Hsent.
    rewrite requests_sent_of_sent, page_requests_length.
    unfold replies_of. rewrite !length_map. reflexivity.
Qed.

(** C4: a body with an [errors] field ends the loop of that year window
    without an exception: the errors are printed and the events gathered on
    the earlier pages are returned.  In [fetch_all_contributions] whatever a
    window returns is appended to the events of the earlier windows and the
    next window is fetched.  So a range of years in which one window ends on
    errors after some pages returns, in order, the events of the windows
    before it, those of its pages before the errors, and those of the
    windows after it; every request of the run and the printed errors are
    in the trace, and nothing is raised. *)
Theorem errors_stop_pagination_and_keep_events (py_str : json -> string)
  (server : nat -> request -> reply) :
  (forall (fuel : nat) (username : string) (header : list (string * string))
          (from_date : string) (contributions : list json) (cursor : json)
          (w : world) (fields : list (string * json)) (errors : json),
      server (List.length (requests_sent w))
        (page_request py_str username header from_date cursor)
      = Body (JObj fields) ->
      lookup "errors" fields = Some errors ->
      fetch_loop py_str server (S fuel) username header from_date
        contributions cursor w
      = Some (Ok contributions,
              w ++ [Sent (page_request py_str username header from_date
                            cursor);
                    Printed errors_label errors]))
  /\
  (forall (fuel : nat) (username : string) (header : list (string * string))
          (start_date : datetime) (k : Z) (offsets : list Z)
          (contributions fetched : list json) (w w' : world),
      valid_date (year start_date + k) (month start_date) (day start_date)
      = true ->
      fetch_contributions py_str server fuel username header
        (strftime_Ymd {| year := year start_date + k;
                         month := month start_date;
                         day := day start_date |}) w
      = Some (Ok fetched, w') ->
      fetch_years (fetch_contributions py_str server fuel) username header
        start_date (k :: offsets) contributions w
      = fetch_years (fetch_contributions py_str server fuel) username header
          start_date offsets (contributions ++ fetched) w')
  /\
  (forall (fuel : nat) (username : string) (header : list (string * string))
          (start_date : datetime) (k : Z) (offsets : list Z)
          (contributions : list json) (w : world)
          (fields : list (string * json)) (errors : json),
      let from_date :=
        strftime_Ymd {| year := year start_date + k;
                        month := month start_date;
                        day := day start_date |} in
      valid_date (year start_date + k) (month start_date) (day start_date)
      = true ->
      server (List.length (requests_sent w))
        (page_request py_str username header from_date JNull)
      = Body (JObj fields) ->
      lookup "errors" fields = Some errors ->
      fetch_years (fetch_contributions py_str server (S fuel)) username header
        start_date (k :: offsets) contributions w
      = fetch_years (fetch_contributions py_str server (S fuel)) username
          header start_date offsets contributions
          (w ++ [Sent (page_request py_str username header from_date JNull);
                 Printed errors_label errors]))
  /\
  (forall (fuel : nat) (username : string) (header : list (string * string))
          (start_date : datetime) (offsets : list Z)
          (contributions : list json) (w : world),
      fetch_years (fetch_contributions py_str server fuel) username header
        start_date offsets contributions w
      = match fetch_years (fetch_contributions py_str server fuel) username
                header start_date offsets [] w with
        | Some (Ok later, w') => Some (Ok (contributions ++ later), w')
        | Some (Raise e, w') => Some (Raise e, w')
        | None => None
        end)
  /\
  (forall (fuel : nat) (username : string) (header : list (string * string))
          (from_date : string) (pages : list Collection)
          (fields : list (string * json)) (errors : json),
      forallb has_more pages = true ->
      lookup "errors" fields = Some errors ->
      (List.length pages < fuel)%nat ->
      fetch_contributions py_str
        (scripted (replies_of pages ++ [Body (JObj fields)])) fuel username
        header from_date []
      = Some (Ok (flat_map page_events pages),
              map Sent (page_requests py_str username header from_date JNull
                          pages)
              ++ [Sent (page_request py_str username header from_date
                          (cursor_after JNull pages));
                  Printed errors_label errors]))
  /\
  (forall (fuel : nat) (username : string) (header : list (string * string))
          (start_date end_date : datetime)
          (earlier later : list (list Collection)) (pages : list Collection)
          (fields : list (string * json)) (errors : json),
      Z.of_nat (List.length earlier) + 1 + Z.of_nat (List.length later)
      = year end_date - year start_date ->
      Forall (fun pages => paged pages = true) (earlier ++ later) ->
      Forall (fun pages => (List.length pages <= fuel)%nat)
        (earlier ++ later) ->
      forallb has_more pages = true ->
      (List.length pages < fuel)%nat ->
      lookup "errors" fields = Some errors ->
      (forall k, 0 <= k < year end_date - year start_date ->
         valid_date (year start_date + k) (month start_date)
           (day start_date)
         = true) ->
      let windows := year_windows start_date end_date in
      let from_date := nth (List.length earlier) windows ""%string in
      fetch_all_contributions py_str
        (scripted (replies_of (List.concat earlier)
                   ++ replies_of pages
                   ++ Body (JObj fields) :: replies_of (List.concat later)))
        fuel username header start_date end_date []
      = Some (Ok (flat_map page_events (List.concat earlier)
                  ++ flat_map page_events pages
                  ++ flat_map page_events (List.concat later)),
              map Sent (window_requests py_str username header
                          (firstn (List.length earlier) windows) earlier)
              ++ map Sent (page_requests py_str username header from_date
                             JNull pages)
              ++ [Sent (page_request py_str username header from_date
                          (cursor_after JNull pages));
                  Printed errors_label errors]
              ++ map Sent (window_requests py_str username header
                             (skipn (S (List.length earlier)) windows)
                             later))).
Proof.
  split; [| split; [| split; [| split; [| split]]]].
  - intros. now apply fetch_loop_errors with (fields := fields).
  - intros. now apply fetch_years_step.
  - intros fuel username header start_date k offsets contributions w fields
      errors from_date Hvalid Hreply Herrors.
    rewrite (fetch_years_step _ username header start_date k offsets
               contributions [] w _ Hvalid
               (fetch_loop_errors py_str server fuel username header
                  from_date [] JNull w fields errors Hreply Herrors)).
    now rewrite app_nil_r.
  - intros. apply fetch_years_keeps_the_gathered.
  - intros fuel username header from_date pages fields errors Hmore Herrors
      Hfuel.
    unfold fetch_contributions.
    pose proof (fetch_loop_pages_then_errors py_str username header
                  from_date pages fields errors [] [] fuel [] JNull []
                  Hmore Herrors eq_refl Hfuel) as H.
    cbn [app] in H. exact H.
  - intros fuel username header start_date end_date earlier later pages
      fields errors.
    now apply fetch_all_with_an_errors_window.
Qed.

Lemma fetch_all_windows (py_str : json -> string)
  (username : string) (header : list (string * string))
  (start_date end_date : datetime) (windows : list (list Collection))
  (fuel : nat) :
  Z.of_nat (List.length windows) = year end_date - year start_date ->
  Forall (fun pages => paged pages = true) windows ->
  Forall (fun pages => (List.length pages <= fuel)%nat) windows ->
  (forall k, 0 <= k < year end_date - year start_date ->
     valid_date (year start_date + k) (month start_date) (day start_date)
     = true) ->
  fetch_all_contributions py_str (scripted (replies_of (List.concat windows))) fuel
    username header start_date end_date []
  = Some (Ok (flat_map page_events (List.concat windows)),
          map Sent (window_requests py_str username header
                      (year_windows start_date end_date) windows)).
Proof.
  intros Hlen Hpaged Hfuel Hvalid.
  unfold fetch_all_contributions, fetch_all_contributions_with.
  pose proof (fetch_years_windows py_str username header start_date fuel
                windows (py_range (year end_date - year start_date)) [] []
                [] []) as H.
  cbn zeta in H. cbn [app] in H. rewrite app_nil_r in H.
  apply H.
  - rewrite py_range_length. lia.
  - exact Hpaged.
  - exact Hfuel.
  - intros k Hk. apply Hvalid. now apply py_range_bounds.
  - reflexivity.
Qed.

(** X7: over a range of several years [fetch_all_contributions] walks the
    pages of the first window, then those of the next, and so on; every
    window starts again without cursor, and the events come back window by
    window, page by page. *)
Theorem fetch_all_contributions_walks_every_window (py_str : json -> string)
  (username : string) (header : list (string * string))
  (start_date end_date : datetime) (windows : list (list Collection))
  (fuel : nat) :
  Z.of_nat (List.length windows) = year end_date - year start_date ->
  Forall (fun pages => paged pages = true) windows ->
  Forall (fun pages => (List.length pages <= fuel)%nat) windows ->
  (forall k, 0 <= k < year end_date - year start_date ->
     valid_date (year start_date + k) (month start_date) (day start_date)
     = true) ->
  fetch_all_contributions py_str (scripted (replies_of (List.concat windows)))
    fuel username header start_date end_date []
  = Some (Ok (flat_map page_events (List.concat windows)),
          map Sent (window_requests py_str username header
                      (year_windows start_date end_date) windows)).
Proof. apply fetch_all_windows. Qed.


(** X8: [extract_contributions] skips nothing that is missing.  A payload
    without the commit collection, or with the commits in place but without
    the issues, raises [KeyError]; issues whose [nodes] are null raise
    [TypeError]. *)
Theorem extract_contributions_raises_on_missing_parts
  (fields : list (string * json)) :
  (lookup "commitContributionsByRepository" fields = None ->
   extract_contributions (JObj fields) = Raise KeyError)
  /\ (forall repositories : list Connection,
        lookup "commitContributionsByRepository" fields
        = Some (JArr (map encode_repository repositories)) ->
        (lookup "issueContributions" fields = None ->
         extract_contributions (JObj fields) = Raise KeyError)
        /\ (forall issue_fields : list (string * json),
              lookup "issueContributions" fields = Some (JObj issue_fields) ->
              lookup "nodes" issue_fields = Some JNull ->
              extract_contributions (JObj fields) = Raise TypeError)).
Proof.
  split.
  - intros H. unfold extract_contributions, getitem. now rewrite H.
  - intros repositories Hc. split.
    + intros Hi. unfold extract_contributions.
      unfold getitem at 1. rewrite Hc. cbn [rbind py_iter].
      rewrite for_each_repositories. cbn [rbind].
      unfold getitem at 1. now rewrite Hi.
    + intros issue_fields Hi Hn. unfold extract_contributions.
      unfold getitem at 1. rewrite Hc. cbn [rbind py_iter].
      rewrite for_each_repositories. cbn [rbind].
      unfold getitem at 1. rewrite Hi. cbn [rbind].
      unfold getitem at 1. rewrite Hn. reflexivity.
Qed.

(** X9: whatever the cursor, the query names the user as given and opens the
    window at midnight UTC of [from_date]: the user name and the date are
    spliced into the text as they are, between quotes. *)
Theorem query_names_the_user_and_the_window (py_str : json -> string)
  (username from_date : string) (cursor : json) :
  occurs ("user(login: " ++ dquote ++ username ++ dquote ++ ")")%string
    (get_contributions_query py_str username from_date cursor)
  /\ occurs ("contributionsCollection(from: " ++ dquote ++ from_date
               ++ "T00:00:00Z" ++ dquote ++ ")")%string
       (get_contributions_query py_str username from_date cursor).
Proof.
  unfold get_contributions_query.
  generalize (if truthy cursor
              then (", after: " ++ dquote ++ format_value py_str cursor
                    ++ dquote)%string
              else ""%string).
  intros after_clause. cbv zeta. split.
  - exists "
    {
      "%string. eexists.
    unfold dquote. rewrite !append_assoc. cbn [append]. reflexivity.
  - exists ("
    {
      user(login: " ++ dquote ++ username ++ dquote ++ ") {
        ")%string. eexists.
    unfold dquote. rewrite !append_assoc. cbn [append]. reflexivity.
Qed.

(** * Further properties of the heat map *)

(** ** Grouping by instant *)

Lemma add_to_group_count (v : Z) (t : Timestamp) (c : Z)
  (groups : list (Timestamp * Z)) :
  group_count v (add_to_group t c groups)
  = group_count v groups + (if ts_value t =? v then c else 0).
Proof.
  unfold group_count.
  induction groups as [|[t' c'] groups IH]; cbn [add_to_group].
  - cbn. destruct (ts_value t =? v); cbn; lia.
  - destruct (Z.ltb_spec (ts_value t) (ts_value t')) as [Hlt|Hge].
    + cbn [filter fst]. destruct (ts_value t =? v); cbn; lia.
    + destruct (Z.eqb_spec (ts_value t) (ts_value t')) as [Heq|Hne].
      * cbn [filter fst]. rewrite <- Heq.
        destruct (ts_value t =? v); cbn; lia.
      * cbn [filter fst].
        destruct (ts_value t' =? v); cbn [map fold_right snd];
          rewrite IH; lia.
Qed.

Lemma groupby_date_sum_count (v : Z) (df : list (Timestamp * Z)) :
  group_count v (groupby_date_sum df) = group_count v df.
Proof.
  unfold groupby_date_sum.
  enough (G : forall groups,
             group_count v
               (fold_left
                  (fun groups r => add_to_group (fst r) (snd r) groups)
                  df groups)
             = group_count v groups + group_count v df).
  { rewrite G. unfold group_count at 1. cbn. lia. }
  induction df as [|[t c] df IH]; intros groups; cbn [fold_left].
  - unfold group_count at 3. cbn. lia.
  - rewrite IH, add_to_group_count. cbn [fst snd].
    unfold group_count at 4. cbn [filter fst].
    destruct (ts_value t =? v); cbn [map fold_right snd];
      fold (group_count v df); lia.
Qed.

Lemma count_of_ones (v : Z) (stamps : list Timestamp) :
  group_count v (map (fun t => (t, 1)) stamps) = count_instant v stamps.
Proof.
  unfold group_count, count_instant.
  induction stamps as [|t stamps IH]; [reflexivity |].
  cbn [map filter fst].
  destruct (ts_value t =? v); cbn [map fold_right snd List.length];
    rewrite IH; lia.
Qed.

Lemma add_to_group_sorted (t : Timestamp) (c : Z)
  (groups : list (Timestamp * Z)) :
  StronglySorted by_instant groups ->
  StronglySorted by_instant (add_to_group t c groups).
Proof.
  induction 1 as [|[t' c'] groups Hs IH Hall]; cbn [add_to_group].
  - repeat constructor.
  - rewrite Forall_forall in Hall.
    destruct (Z.ltb_spec (ts_value t) (ts_value t')) as [Hlt|Hge].
    + constructor; [now constructor; [| apply Forall_forall] |].
      constructor; [exact Hlt |].
      apply Forall_forall. intros x Hx. specialize (Hall x Hx).
      unfold by_instant in *. cbn [fst] in *. lia.
    + destruct (Z.eqb_spec (ts_value t) (ts_value t')) as [Heq|Hne].
      * constructor; [exact Hs |]. apply Forall_forall. exact Hall.
      * constructor; [exact IH |].
        apply Forall_forall. intros [x cx] Hx.
        apply add_to_group_in in Hx. destruct Hx as [->|[cy Hy]].
        -- unfold by_instant. cbn [fst]. lia.
        -- exact (Hall _ Hy).
Qed.

Lemma groupby_date_sum_sorted (df : list (Timestamp * Z)) :
  StronglySorted by_instant (groupby_date_sum df).
Proof.
  unfold groupby_date_sum.
  enough (G : forall groups,
             StronglySorted by_instant groups ->
             StronglySorted by_instant
               (fold_left
                  (fun groups r => add_to_group (fst r) (snd r) groups)
                  df groups)) by (apply G; constructor).
  induction df as [|r df IH]; intros groups Hs; cbn [fold_left]; [exact Hs |].
  apply IH. now apply add_to_group_sorted.
Qed.

Lemma group_count_none (v : Z) (groups : list (Timestamp * Z)) :
  (forall g, In g groups -> ts_value (fst g) <> v) ->
  group_count v groups = 0.
Proof.
  unfold group_count.
  induction groups as [|g groups IH]; intros H; [reflexivity |].
  cbn [filter].
  destruct (Z.eqb_spec (ts_value (fst g)) v) as [E|_].
  - now elim (H g (or_introl eq_refl)).
  - apply IH. intros g' Hg'. apply H. now right.
Qed.

Lemma group_count_of_member (groups : list (Timestamp * Z)) (t : Timestamp)
  (c : Z) :
  StronglySorted by_instant groups ->
  In (t, c) groups ->
  group_count (ts_value t) groups = c.
Proof.
  induction 1 as [|g groups Hs IH Hall]; intros Hin; [destruct Hin |].
  rewrite Forall_forall in Hall.
  destruct Hin as [->|Hin].
  - unfold group_count. cbn [filter fst]. rewrite Z.eqb_refl.
    cbn [map fold_right snd].
    fold (group_count (ts_value t) groups).
    rewrite group_count_none; [lia |].
    intros g Hg. specialize (Hall g Hg). unfold by_instant in Hall.
    cbn [fst] in Hall. lia.
  - unfold group_count. cbn [filter].
    destruct (Z.eqb_spec (ts_value (fst g)) (ts_value t)) as [E|_].
    + specialize (Hall _ Hin). unfold by_instant in Hall.
      cbn [fst] in Hall. lia.
    + now apply IH.
Qed.

Lemma group_count_found (v : Z) (groups : list (Timestamp * Z)) :
  group_count v groups <> 0 ->
  exists t c, In (t, c) groups /\ ts_value t = v.
Proof.
  unfold group_count.
  induction groups as [|[t c] groups IH]; cbn [filter fst];
    [intros H; now elim H |].
  destruct (Z.eqb_spec (ts_value t) v) as [E|_].
  - intros _. exists t, c. split; [now left | exact E].
  - intros H. destruct (IH H) as (t' & c' & Hin & E).
    exists t', c'. split; [now right | exact E].
Qed.

Lemma count_instant_of_member (t : Timestamp) (stamps : list Timestamp) :
  In t stamps -> 1 <= count_instant (ts_value t) stamps.
Proof.
  unfold count_instant.
  induction stamps as [|t' stamps IH]; intros Hin; [destruct Hin |].
  destruct Hin as [->|Hin]; cbn [filter].
  - rewrite Z.eqb_refl. cbn [List.length]. lia.
  - destruct (ts_value t' =? ts_value t); cbn [List.length];
      specialize (IH Hin); lia.
Qed.

Lemma add_to_group_total (t : Timestamp) (c : Z)
  (groups : list (Timestamp * Z)) :
  total_count (add_to_group t c groups) = total_count groups + c.
Proof.
  unfold total_count.
  induction groups as [|[t' c'] groups IH]; cbn [add_to_group].
  - cbn. lia.
  - destruct (ts_value t <? ts_value t'); [cbn; lia |].
    destruct (ts_value t =? ts_value t'); cbn [map fold_right snd];
      [| rewrite IH]; lia.
Qed.

Lemma groupby_date_sum_total (df : list (Timestamp * Z)) :
  total_count (groupby_date_sum df) = total_count df.
Proof.
  unfold groupby_date_sum.
  enough (G : forall groups,
             total_count
               (fold_left
                  (fun groups r => add_to_group (fst r) (snd r) groups)
                  df groups)
             = total_count groups + total_count df).
  { rewrite G. unfold total_count at 1. cbn. lia. }
  induction df as [|[t c] df IH]; intros groups; cbn [fold_left].
  - unfold total_count at 3. cbn. lia.
  - rewrite IH, add_to_group_total. cbn [fst snd].
    unfold total_count at 4. cbn [map fold_right snd].
    fold (total_count df). lia.
Qed.

Lemma total_of_ones (stamps : list Timestamp) :
  total_count (map (fun t => (t, 1)) stamps) = Z.of_nat (List.length stamps).
Proof.
  unfold total_count.
  induction stamps as [|t stamps IH]; [reflexivity |].
  cbn [map fold_right snd List.length]. rewrite IH. lia.
Qed.

Lemma groups_of_stamps (stamps : list Timestamp) :
  let groups := groupby_date_sum (map (fun t => (t, 1)) stamps) in
  StronglySorted by_instant groups
  /\ (forall t c, In (t, c) groups ->
        In t stamps /\ c = count_instant (ts_value t) stamps /\ 1 <= c)
  /\ (forall t, In t stamps ->
        exists t' c, In (t', c) groups /\ ts_value t' = ts_value t)
  /\ total_count groups = Z.of_nat (List.length stamps).
Proof.
  intros groups.
  pose proof (groupby_date_sum_sorted (map (fun t => (t, 1)) stamps))
    as Hsorted.
  assert (Hcount : forall v, group_count v groups = count_instant v stamps).
  { intros v. unfold groups.
    now rewrite groupby_date_sum_count, count_of_ones. }
  split; [exact Hsorted | split; [| split]].
  - intros t c Hin.
    assert (Hmember : In t stamps).
    { apply groupby_date_sum_in in Hin.
      now rewrite map_map, map_id in Hin. }
    pose proof (group_count_of_member groups t c Hsorted Hin) as Hc.
    rewrite Hcount in Hc.
    pose proof (count_instant_of_member t stamps Hmember).
    repeat split; [exact Hmember | now symmetry | lia].
  - intros t Hin.
    apply group_count_found. rewrite Hcount.
    pose proof (count_instant_of_member t stamps Hin). lia.
  - unfold groups. now rewrite groupby_date_sum_total, total_of_ones.
Qed.

(** X10: grouping by [date] loses no event and counts none twice.  The
    groups come out in ascending order of their instants, each instant once;
    a group's count is the number of time stamps at that instant, every time
    stamp has its group, and the counts add up to the number of time
    stamps. *)
Theorem groupby_counts_every_event_once (stamps : list Timestamp) :
  let groups := groupby_date_sum (map (fun t => (t, 1)) stamps) in
  StronglySorted by_instant groups
  /\ (forall t c, In (t, c) groups ->
        In t stamps /\ c = count_instant (ts_value t) stamps /\ 1 <= c)
  /\ (forall t, In t stamps ->
        exists t' c, In (t', c) groups /\ ts_value t' = ts_value t)
  /\ total_count groups = Z.of_nat (List.length stamps).
Proof. exact (groups_of_stamps stamps). Qed.


(** ** The shape of the grid *)

Lemma pair_compare_eq (a b : Z * Z) : pair_compare a b = Eq -> a = b.
Proof.
  destruct a as [a1 a2], b as [b1 b2]. unfold pair_compare. cbn [fst snd].
  destruct (Z.compare_spec a1 b1); try discriminate.
  destruct (Z.compare_spec a2 b2); try discriminate. congruence.
Qed.

Lemma pair_compare_refl (a : Z * Z) : pair_compare a a = Eq.
Proof.
  unfold pair_compare. now rewrite !Z.compare_refl.
Qed.

Lemma pair_lt_spec (a b : Z * Z) :
  pair_lt a b <-> fst a < fst b \/ (fst a = fst b /\ snd a < snd b).
Proof.
  unfold pair_lt, pair_compare.
  destruct (Z.compare_spec (fst a) (fst b));
    destruct (Z.compare_spec (snd a) (snd b));
    split; intros Hx; try discriminate; try reflexivity; lia.
Qed.

Lemma pair_compare_gt (a b : Z * Z) : pair_compare a b = Gt -> pair_lt b a.
Proof.
  intros H. apply pair_lt_spec. unfold pair_compare in H.
  destruct (Z.compare_spec (fst a) (fst b));
    destruct (Z.compare_spec (snd a) (snd b)); try discriminate; lia.
Qed.

Lemma insert_pair_sorted (x : Z * Z) (l : list (Z * Z)) :
  StronglySorted pair_lt l ->
  StronglySorted pair_lt (insert_unique pair_compare x l).
Proof.
  induction 1 as [|y l Hs IH Hall]; simpl.
  - repeat constructor.
  - rewrite Forall_forall in Hall.
    destruct (pair_compare x y) eqn:E.
    + constructor; [exact Hs | now apply Forall_forall].
    + constructor; [constructor; [exact Hs | now apply Forall_forall] |].
      constructor; [exact E |].
      apply Forall_forall. intros z Hz. specialize (Hall z Hz).
      apply pair_lt_spec in E. apply pair_lt_spec in Hall.
      apply pair_lt_spec. lia.
    + constructor; [exact IH |].
      apply Forall_forall. intros z Hz.
      apply insert_unique_in in Hz. destruct Hz as [->|Hz].
      * now apply pair_compare_gt.
      * now apply Hall.
Qed.

Lemma sorted_pairs (l : list (Z * Z)) :
  StronglySorted pair_lt (sorted_unique pair_compare l).
Proof.
  induction l as [|x l IH]; simpl; [constructor |].
  now apply insert_pair_sorted.
Qed.

(** Inserting keeps what was there and adds the new key. *)
Lemma insert_unique_keeps {A : Type} (cmp : A -> A -> comparison)
  (x y : A) (l : list A) :
  (forall a b, cmp a b = Eq -> a = b) ->
  y = x \/ In y l -> In y (insert_unique cmp x l).
Proof.
  intros Heq. induction l as [|z l IH]; simpl.
  - intros [->|[]]. now left.
  - destruct (cmp x z) eqn:E; simpl.
    + intros [->|H]; [| exact H]. left. symmetry. now apply Heq.
    + intros [->|H]; [now left | now right].
    + intros [->|[->|H]]; [right; apply IH; now left | now left |].
      right. apply IH. now right.
Qed.

Lemma sorted_unique_keeps {A : Type} (cmp : A -> A -> comparison) (y : A)
  (l : list A) :
  (forall a b, cmp a b = Eq -> a = b) ->
  In y l -> In y (sorted_unique cmp l).
Proof.
  intros Heq. induction l as [|x l IH]; simpl; [tauto |].
  intros [->|H]; apply insert_unique_keeps; auto.
Qed.

Lemma Z_compare_eq (a b : Z) : (a ?= b) = Eq -> a = b.
Proof. apply Z.compare_eq. Qed.

Lemma weekday_rows_date (stamps : list Timestamp) (r : Row) :
  In r (weekday_rows stamps) ->
  In (row_date r) stamps
  /\ r = calendar_columns (row_date r, row_count r)
  /\ row_count r = count_instant (ts_value (row_date r)) stamps
  /\ 1 <= row_count r
  /\ weekday (row_date r) < 5.
Proof.
  unfold weekday_rows. rewrite filter_In, in_map_iff.
  intros [([t c] & <- & Hin) Hlt].
  destruct (groups_of_stamps stamps) as (_ & Hgroups & _).
  destruct (Hgroups t c Hin) as (Hmember & Hc & Hpos).
  cbn [calendar_columns row_date row_count row_weekday fst snd] in *.
  apply Z.ltb_lt in Hlt. repeat split; assumption.
Qed.

Lemma sum_of_counts (xs : list Z) :
  Forall (fun x => 1 <= x) xs ->
  Z.of_nat (List.length xs) <= fold_right Z.add 0 xs.
Proof.
  induction 1 as [|x xs Hx _ IH]; cbn [fold_right List.length]; lia.
Qed.

Lemma mean_of_counts (x : Z) (xs : list Z) :
  Forall (fun x => 1 <= x) (x :: xs) -> (1 <= mean (x :: xs))%Q.
Proof.
  intros H. unfold mean. rewrite Qred_correct.
  pose proof (sum_of_counts (x :: xs) H) as Hsum.
  unfold Qle. cbn [Qnum Qden].
  rewrite Z.mul_1_l, Z.mul_1_r.
  cbn [List.length] in *.
  rewrite <- positive_nat_Z, Nat2Pos.id by discriminate.
  exact Hsum.
Qed.

Lemma pivot_cell_range (df : list Row) (wd : Z) (col : Z * Z) :
  Forall (fun r => 1 <= row_count r) df ->
  pivot_cell 0 df wd col = 0%Q \/ (1 <= pivot_cell 0 df wd col)%Q.
Proof.
  intros Hcounts. unfold pivot_cell.
  destruct (map row_count (filter (in_cell wd col) df)) as [|x xs] eqn:E;
    [now left | right].
  apply mean_of_counts. rewrite <- E.
  apply Forall_map. apply Forall_forall. intros r Hr.
  apply filter_In in Hr. rewrite Forall_forall in Hcounts.
  now apply Hcounts.
Qed.

(** ** When the five labels fit *)

Lemma same_instant_same_day (t1 t2 : Timestamp) :
  time_in_day t1 -> time_in_day t2 ->
  ts_value t1 = ts_value t2 ->
  days_from_civil (ts_year t1) (ts_month t1) (ts_day t1)
  = days_from_civil (ts_year t2) (ts_month t2) (ts_day t2).
Proof.
  unfold time_in_day, ts_value.
  generalize (days_from_civil (ts_year t1) (ts_month t1) (ts_day t1)) as d1.
  generalize (days_from_civil (ts_year t2) (ts_month t2) (ts_day t2)) as d2.
  intros d2 d1 H1 H2 E. lia.
Qed.

Lemma same_instant_same_weekday (t1 t2 : Timestamp) :
  time_in_day t1 -> time_in_day t2 ->
  ts_value t1 = ts_value t2 -> weekday t1 = weekday t2.
Proof.
  intros H1 H2 E. unfold weekday.
  now rewrite (same_instant_same_day t1 t2 H1 H2 E).
Qed.

Lemma weekday_present_or_not (stamps : list Timestamp) (wd : Z) :
  (exists t, In t stamps /\ weekday t = wd)
  \/ (forall t, In t stamps -> weekday t <> wd).
Proof.
  induction stamps as [|t stamps [(t' & Hin & E)|IH]].
  - right. intros t [].
  - left. exists t'. split; [now right | exact E].
  - destruct (Z.eq_dec (weekday t) wd) as [E|N].
    + left. exists t. split; [now left | exact E].
    + right. intros t' [<-|Hin]; auto.
Qed.

Lemma strictly_sorted_ext (l1 : list Z) :
  forall l2 : list Z,
    StronglySorted Z.lt l1 -> StronglySorted Z.lt l2 ->
    (forall x, In x l1 <-> In x l2) -> l1 = l2.
Proof.
  induction l1 as [|a l1 IH]; intros l2 H1 H2 Hext.
  - destruct l2 as [|b l2]; [reflexivity |].
    now destruct (proj2 (Hext b) (or_introl eq_refl)).
  - destruct l2 as [|b l2];
      [now destruct (proj1 (Hext a) (or_introl eq_refl)) |].
    inversion H1 as [|? ? Hs1 Ha]; subst.
    inversion H2 as [|? ? Hs2 Hb]; subst.
    rewrite Forall_forall in Ha, Hb.
    assert (a = b).
    { destruct (proj1 (Hext a) (or_introl eq_refl)) as [->|Hin];
        [reflexivity |].
      destruct (proj2 (Hext b) (or_introl eq_refl)) as [->|Hin'];
        [reflexivity |].
      specialize (Ha _ Hin'). specialize (Hb _ Hin). lia. }
    subst b. f_equal. apply IH; [exact Hs1 | exact Hs2 |].
    intros x. split; intros Hx.
    + destruct (proj1 (Hext x) (or_intror Hx)) as [->|Hin]; [| exact Hin].
      specialize (Ha _ Hx). lia.
    + destruct (proj2 (Hext x) (or_intror Hx)) as [->|Hin]; [| exact Hin].
      specialize (Hb _ Hx). lia.
Qed.

(** A weekday from Monday to Friday that some time stamp falls on is in the
    index of the grid. *)
Lemma weekday_in_index (stamps : list Timestamp) (t : Timestamp) :
  Forall time_in_day stamps ->
  In t stamps -> weekday t < 5 ->
  In (weekday t) (index (heatmap_grid stamps)).
Proof.
  intros Hwf Hin Hwd. rewrite Forall_forall in Hwf.
  destruct (groups_of_stamps stamps) as (_ & Hgroups & Hfound & _).
  destruct (Hfound t Hin) as (t' & c & Hgroup & E).
  destruct (Hgroups t' c Hgroup) as (Hin' & _).
  pose proof (same_instant_same_weekday t' t (Hwf _ Hin') (Hwf _ Hin) E)
    as Hsame.
  unfold heatmap_grid, pivot_table. cbn [index].
  apply sorted_unique_keeps; [exact Z_compare_eq |].
  apply in_map_iff. exists (calendar_columns (t', c)).
  split; [cbn [calendar_columns row_weekday fst]; exact Hsame |].
  unfold weekday_rows. apply filter_In. split.
  - apply in_map. exact Hgroup.
  - cbn [calendar_columns row_weekday fst]. apply Z.ltb_lt. lia.
Qed.

Lemma full_week_index (stamps : list Timestamp) :
  Forall time_in_day stamps ->
  (forall wd, 0 <= wd < 5 -> exists t, In t stamps /\ weekday t = wd) ->
  index (heatmap_grid stamps) = [0; 1; 2; 3; 4].
Proof.
  intros Hwf Hall.
  apply strictly_sorted_ext.
  - unfold heatmap_grid, pivot_table. cbn [index].
    apply sorted_unique_sorted.
  - repeat constructor; lia.
  - intros x. split.
    + intros Hx.
      assert (Hr : 0 <= x < 5).
      { unfold heatmap_grid, pivot_table in Hx. cbn [index] in Hx.
        apply sorted_unique_in in Hx. apply in_map_iff in Hx.
        destruct Hx as (r & <- & Hr). now apply weekday_rows_spec in Hr. }
      simpl. lia.
    + intros Hx.
      assert (Hr : 0 <= x < 5) by (simpl in Hx; lia).
      destruct (Hall x Hr) as (t & Hin & <-).
      apply weekday_in_index; [exact Hwf | exact Hin | lia].
Qed.

(** *** A grid without columns *)

Lemma insert_unique_not_nil {A : Type} (cmp : A -> A -> comparison) (x : A)
  (l : list A) :
  insert_unique cmp x l <> [].
Proof.
  destruct l as [|y l]; simpl; [discriminate |].
  destruct (cmp x y); discriminate.
Qed.

Lemma sorted_unique_nil {A : Type} (cmp : A -> A -> comparison) (l : list A) :
  sorted_unique cmp l = [] -> l = [].
Proof.
  destruct l as [|x l]; [reflexivity |]. simpl. intros H.
  now apply insert_unique_not_nil in H.
Qed.

Lemma grid_of_no_rows (stamps : list Timestamp) :
  weekday_rows stamps = [] ->
  heatmap_grid stamps = {| index := []; columns := []; values := [] |}.
Proof.
  intros H. unfold heatmap_grid, pivot_table. now rewrite H.
Qed.

Lemma grid_without_columns (stamps : list Timestamp) :
  columns (heatmap_grid stamps) = [] -> weekday_rows stamps = [].
Proof.
  unfold heatmap_grid, pivot_table. cbn [columns]. intros H.
  apply sorted_unique_nil in H. now apply map_eq_nil in H.
Qed.

(** Time stamps that all fall on a Saturday or a Sunday leave no row. *)
Lemma weekend_has_no_rows (stamps : list Timestamp) :
  (forall t, In t stamps -> 5 <= weekday t) -> weekday_rows stamps = [].
Proof.
  intros Hend. destruct (weekday_rows stamps) as [|r rows] eqn:E;
    [reflexivity |].
  assert (Hr : In r (weekday_rows stamps)) by (rewrite E; now left).
  apply weekday_rows_spec in Hr. destruct Hr as (Hrange & t & Ht & Heq).
  specialize (Hend t Ht). lia.
Qed.

(** A time stamp on a day from Monday to Friday gives the grid a column. *)
Lemma weekday_stamp_gives_a_column (stamps : list Timestamp) (t : Timestamp) :
  Forall time_in_day stamps ->
  In t stamps -> weekday t < 5 ->
  columns (heatmap_grid stamps) <> [].
Proof.
  intros Hwf Hin Hwd Hcols. apply grid_without_columns in Hcols.
  pose proof (weekday_in_index stamps t Hwf Hin Hwd) as Hidx.
  rewrite (grid_of_no_rows stamps Hcols) in Hidx. destruct Hidx.
Qed.

Lemma no_column_no_weekday (stamps : list Timestamp) :
  Forall time_in_day stamps ->
  columns (heatmap_grid stamps) = [] ->
  forall t, In t stamps -> 5 <= weekday t.
Proof.
  intros Hwf Hcols t Hin.
  destruct (Z_lt_ge_dec (weekday t) 5) as [Hwd|Hwd]; [| lia].
  now destruct (weekday_stamp_gives_a_column stamps t Hwf Hin Hwd).
Qed.

(** With a column and fewer than five rows the labels do not fit. *)
Lemma set_index_partial_week (stamps : list Timestamp) :
  columns (heatmap_grid stamps) <> [] ->
  (List.length (index (heatmap_grid stamps)) <= 4)%nat ->
  set_index weekday_labels (heatmap_grid stamps) = Raise ValueError.
Proof.
  intros Hcols Hrows. unfold set_index.
  destruct (columns (heatmap_grid stamps)) as [|c cols];
    [now destruct Hcols |].
  destruct (Nat.eqb_spec (List.length weekday_labels)
              (List.length (index (heatmap_grid stamps)))) as [E|_];
    [| reflexivity].
  cbn [weekday_labels List.length] in E. lia.
Qed.

Lemma set_index_full_week (stamps : list Timestamp) :
  Forall time_in_day stamps ->
  (forall wd, 0 <= wd < 5 -> exists t, In t stamps /\ weekday t = wd) ->
  set_index weekday_labels (heatmap_grid stamps)
  = Ok {| index := weekday_labels;
          columns := columns (heatmap_grid stamps);
          values := values (heatmap_grid stamps) |}.
Proof.
  intros Hwf Hall.
  destruct (Hall 0 ltac:(lia)) as (t & Hin & Hwd).
  pose proof (weekday_stamp_gives_a_column stamps t Hwf Hin ltac:(lia))
    as Hcols.
  unfold set_index. rewrite (full_week_index stamps Hwf Hall).
  destruct (columns (heatmap_grid stamps)) as [|c cols];
    [now destruct Hcols | reflexivity].
Qed.

Lemma set_index_no_rows (stamps : list Timestamp) :
  weekday_rows stamps = [] ->
  set_index weekday_labels (heatmap_grid stamps)
  = Ok {| index := weekday_labels;
          columns := [];
          values := [[]; []; []; []; []] |}.
Proof.
  intros Hrows. now rewrite (grid_of_no_rows stamps Hrows).
Qed.

(** The run on dates none of which falls on a day from Monday to Friday. *)
Lemma render_without_weekdays
  (to_datetime : list string -> result (list Timestamp))
  (dates : list string) (output_file : string) (w : world)
  (stamps : list Timestamp) :
  to_datetime dates = Ok stamps ->
  weekday_rows stamps = [] ->
  generate_plotly_heatmap to_datetime dates output_file w
  = Some (Ok tt,
          w ++ [WroteHtml output_file empty_figure; Shown empty_figure]).
Proof.
  intros Hparse Hrows.
  unfold generate_plotly_heatmap. rewrite Hparse, bind_lift_ok, Hrows.
  cbn. unfold bind, emit. now rewrite <- app_assoc.
Qed.

(** C10, as amended: the five labels are assigned whatever rows the pivot
    has.  When the parsed dates have a time stamp on some day from Monday to
    Friday and none on some other such day, so that the pivot has a column
    and from one to four rows, the assignment raises [ValueError] and
    nothing is written.  When no time stamp at all falls on a day from
    Monday to Friday (no dates, or weekend dates only) the pivot has no
    column, the five labels are accepted, and the figure of five rows
    without cells is written and shown. *)
Theorem partial_week_is_a_length_mismatch
  (to_datetime : list string -> result (list Timestamp))
  (dates : list string) (output_file : string) (w : world)
  (stamps : list Timestamp) :
  to_datetime dates = Ok stamps ->
  (forall (present : Timestamp) (missing : Z),
      Forall time_in_day stamps ->
      In present stamps -> weekday present < 5 ->
      0 <= missing < 5 ->
      (forall t, In t stamps -> weekday t <> missing) ->
      (1 <= List.length (index (heatmap_grid stamps)) <= 4)%nat
      /\ set_index weekday_labels (heatmap_grid stamps) = Raise ValueError
      /\ generate_plotly_heatmap to_datetime dates output_file w
         = Some (Raise ValueError, w))
  /\ ((forall t, In t stamps -> 5 <= weekday t) ->
      heatmap_grid stamps = {| index := []; columns := []; values := [] |}
      /\ set_index weekday_labels (heatmap_grid stamps)
         = Ok {| index := weekday_labels;
                 columns := [];
                 values := [[]; []; []; []; []] |}
      /\ generate_plotly_heatmap to_datetime dates output_file w
         = Some (Ok tt,
                 w ++ [WroteHtml output_file empty_figure;
                       Shown empty_figure])).
Proof.
  intros Hparse. split.
  - intros present missing Hwf Hin Hwd Hm Hnone.
    pose proof (heatmap_grid_rows stamps missing Hm Hnone) as Hrows.
    pose proof (weekday_stamp_gives_a_column stamps present Hwf Hin Hwd)
      as Hcols.
    pose proof (set_index_partial_week stamps Hcols Hrows) as Hindex.
    split; [split; [| exact Hrows] |].
    { pose proof (weekday_in_index stamps present Hwf Hin Hwd) as Hidx.
      destruct (index (heatmap_grid stamps)); [destruct Hidx | cbn; lia]. }
    split; [exact Hindex |].
    unfold generate_plotly_heatmap. rewrite Hparse, bind_lift_ok.
    fold (heatmap_grid stamps). now rewrite Hindex.
  - intros Hend. pose proof (weekend_has_no_rows stamps Hend) as Hrows.
    split; [now apply grid_of_no_rows |].
    split; [now apply set_index_no_rows |].
    now apply render_without_weekdays with (stamps := stamps).
Qed.

(** X12: the assignment of the five labels succeeds in two cases and no
    other: when every weekday from Monday to Friday has a time stamp, and
    when none has.  In the first case the rows of the grid are those five
    weekdays in order, so that each row gets its own label, and columns and
    cells are kept; in the second the grid is empty and the labelled frame
    has five rows without cells. *)
Theorem labels_fit_a_full_week_or_no_weekday (stamps : list Timestamp) :
  Forall time_in_day stamps ->
  ((exists frame,
       set_index weekday_labels (heatmap_grid stamps) = Ok frame)
   <-> ((forall wd, 0 <= wd < 5 -> exists t, In t stamps /\ weekday t = wd)
        \/ (forall t, In t stamps -> 5 <= weekday t)))
  /\ ((forall wd, 0 <= wd < 5 -> exists t, In t stamps /\ weekday t = wd) ->
      index (heatmap_grid stamps) = [0; 1; 2; 3; 4]
      /\ set_index weekday_labels (heatmap_grid stamps)
         = Ok {| index := weekday_labels;
                 columns := columns (heatmap_grid stamps);
                 values := values (heatmap_grid stamps) |})
  /\ ((forall t, In t stamps -> 5 <= weekday t) ->
      heatmap_grid stamps = {| index := []; columns := []; values := [] |}
      /\ set_index weekday_labels (heatmap_grid stamps)
         = Ok {| index := weekday_labels;
                 columns := [];
                 values := [[]; []; []; []; []] |}).
Proof.
  intros Hwf. split; [split |].
  - intros (frame & Hset).
    destruct (set_index_ok _ _ _ Hset)
      as (_ & [(Hnone & _)|(Hcols & Hlen & _)]).
    + right. now apply no_column_no_weekday.
    + left. intros wd Hwd.
      destruct (weekday_present_or_not stamps wd) as [H|H]; [exact H |].
      pose proof (heatmap_grid_rows stamps wd Hwd H) as Hrows.
      cbn [weekday_labels List.length] in Hlen. lia.
  - intros [Hall|Hend].
    + eexists. now apply set_index_full_week.
    + eexists. apply set_index_no_rows. now apply weekend_has_no_rows.
  - split.
    + intros Hall. split; [now apply full_week_index |].
      now apply set_index_full_week.
    + intros Hend. pose proof (weekend_has_no_rows stamps Hend) as Hrows.
      split; [now apply grid_of_no_rows | now apply set_index_no_rows].
Qed.

(** ** When the figure is written *)

Lemma new_year_is_monotone (y1 y2 : Z) :
  y1 <= y2 -> days_from_civil y1 1 1 <= days_from_civil y2 1 1.
Proof.
  intros H. unfold days_from_civil.
  change (1 <=? 2) with true. change (2 <? 1) with false. cbv iota.
  change ((153 * (1 + 9) + 2) / 5) with 306.
  Z.div_mod_to_equations; lia.
Qed.

Lemma day_within_its_year (y m d : Z) :
  1 <= m <= 12 -> 1 <= d <= 31 ->
  days_from_civil y 1 1 <= days_from_civil y m d
  /\ days_from_civil y m d < days_from_civil (y + 1) 1 1.
Proof.
  intros Hm Hd.
  assert (Hcases : m = 1 \/ m = 2 \/ m = 3 \/ m = 4 \/ m = 5 \/ m = 6 \/ m = 7
                   \/ m = 8 \/ m = 9 \/ m = 10 \/ m = 11 \/ m = 12) by lia.
  unfold days_from_civil.
  destruct Hcases
    as [->|[->|[->|[->|[->|[->|[->|[->|[->|[->|[->| ->]]]]]]]]]]];
    cbn [Z.leb Z.ltb Z.compare Pos.compare Pos.compare_cont]; cbv iota;
    (split; Z.div_mod_to_equations; lia).
Qed.

Lemma valid_date_ranges (y m d : Z) :
  valid_date y m d = true -> 1 <= m <= 12 /\ 1 <= d <= 31.
Proof.
  unfold valid_date. rewrite !andb_true_iff, !Z.leb_le.
  intros (((((_ & _) & Hm1) & Hm2) & Hd1) & Hd2).
  assert (Hcases : m = 1 \/ m = 2 \/ m = 3 \/ m = 4 \/ m = 5 \/ m = 6 \/ m = 7
                   \/ m = 8 \/ m = 9 \/ m = 10 \/ m = 11 \/ m = 12) by lia.
  assert (days_in_month y m <= 31).
  { destruct Hcases
      as [->|[->|[->|[->|[->|[->|[->|[->|[->|[->|[->| ->]]]]]]]]]]];
      cbn [days_in_month]; try destruct (is_leap y); lia. }
  lia.
Qed.

Lemma later_instant_later_year (t1 t2 : Timestamp) :
  well_formed t1 -> well_formed t2 ->
  ts_value t1 < ts_value t2 -> ts_year t1 <= ts_year t2.
Proof.
  intros [Hv1 Ht1] [Hv2 Ht2] Hlt.
  destruct (Z_le_gt_dec (ts_year t1) (ts_year t2)) as [H|H]; [exact H |].
  apply valid_date_ranges in Hv1, Hv2.
  destruct (day_within_its_year (ts_year t1) (ts_month t1) (ts_day t1))
    as [Hlow _]; [tauto | tauto |].
  destruct (day_within_its_year (ts_year t2) (ts_month t2) (ts_day t2))
    as [_ Hhigh]; [tauto | tauto |].
  pose proof (new_year_is_monotone (ts_year t2 + 1) (ts_year t1)
                ltac:(lia)) as Hyears.
  unfold time_in_day in Ht1, Ht2. unfold ts_value in Hlt.
  revert Hlow Hhigh Hyears Hlt.
  generalize (days_from_civil (ts_year t1) (ts_month t1) (ts_day t1)) as d1.
  generalize (days_from_civil (ts_year t2) (ts_month t2) (ts_day t2)) as d2.
  generalize (days_from_civil (ts_year t1) 1 1) as n1.
  generalize (days_from_civil (ts_year t2 + 1) 1 1) as n2.
  intros. lia.
Qed.

(** ** The grid holds every weekday time stamp *)

Lemma pivot_cell_zero (df : list Row) (wd : Z) (col : Z * Z) :
  Forall (fun r => 1 <= row_count r) df ->
  pivot_cell 0 df wd col = 0%Q <-> filter (in_cell wd col) df = [].
Proof.
  intros Hcounts. unfold pivot_cell. split.
  - destruct (filter (in_cell wd col) df) as [|r rows] eqn:E;
      [reflexivity |].
    cbn [map]. intros Hzero.
    assert (Hone : (1 <= mean (row_count r :: map row_count rows))%Q).
    { apply mean_of_counts.
      change (row_count r :: map row_count rows)
        with (map row_count (r :: rows)).
      rewrite <- E. apply Forall_map, Forall_forall. intros r' Hr'.
      apply filter_In in Hr'. rewrite Forall_forall in Hcounts.
      now apply Hcounts. }
    rewrite Hzero in Hone. now destruct Hone.
  - intros ->. reflexivity.
Qed.

Lemma instant_orders_years (t1 t2 : Timestamp) :
  well_formed t1 -> well_formed t2 ->
  ts_value t1 <= ts_value t2 -> ts_year t1 <= ts_year t2.
Proof.
  intros [Hv1 Ht1] [Hv2 Ht2] Hle.
  destruct (Z_le_gt_dec (ts_year t1) (ts_year t2)) as [H|H]; [exact H |].
  destruct (valid_date_ranges _ _ _ Hv1) as [Hm1 Hd1].
  destruct (valid_date_ranges _ _ _ Hv2) as [Hm2 Hd2].
  destruct (day_within_its_year (ts_year t1) (ts_month t1) (ts_day t1)
              Hm1 Hd1) as [Hlow _].
  destruct (day_within_its_year (ts_year t2) (ts_month t2) (ts_day t2)
              Hm2 Hd2) as [_ Hhigh].
  pose proof (new_year_is_monotone (ts_year t2 + 1) (ts_year t1)
                ltac:(lia)) as Hyears.
  unfold time_in_day in Ht1, Ht2. unfold ts_value in Hle.
  revert Hlow Hhigh Hyears Hle.
  generalize (days_from_civil (ts_year t1) (ts_month t1) (ts_day t1)) as d1.
  generalize (days_from_civil (ts_year t2) (ts_month t2) (ts_day t2)) as d2.
  generalize (days_from_civil (ts_year t1) 1 1) as n1.
  generalize (days_from_civil (ts_year t2 + 1) 1 1) as n2.
  intros. lia.
Qed.

(** Two time stamps of one instant fall in the same cell of the grid. *)
Lemma same_instant_same_cell (t1 t2 : Timestamp) :
  well_formed t1 -> well_formed t2 ->
  ts_value t1 = ts_value t2 ->
  weekday t1 = weekday t2 /\ ts_year t1 = ts_year t2
  /\ iso_week t1 = iso_week t2.
Proof.
  intros H1 H2 E.
  pose proof (same_instant_same_day t1 t2 (proj2 H1) (proj2 H2) E) as Hday.
  assert (Hyear : ts_year t1 = ts_year t2).
  { pose proof (instant_orders_years t1 t2 H1 H2 ltac:(lia)).
    pose proof (instant_orders_years t2 t1 H2 H1 ltac:(lia)). lia. }
  assert (Hwd : weekday t1 = weekday t2).
  { unfold weekday. now rewrite Hday. }
  repeat split; [exact Hwd | exact Hyear |].
  unfold iso_week, day_of_year. now rewrite Hwd, Hday, Hyear.
Qed.

(** The rows left after the filter are time stamps of the input ... *)
Lemma row_is_a_stamp (stamps : list Timestamp) (r : Row) :
  In r (weekday_rows stamps) ->
  exists t,
    In t stamps /\ weekday t < 5 /\ row_weekday r = weekday t
    /\ row_year r = ts_year t /\ row_week r = iso_week t.
Proof.
  intros Hr. apply weekday_rows_date in Hr.
  destruct Hr as (Hin & Hr & _ & _ & Hwd).
  pose proof (f_equal row_weekday Hr) as Ewd.
  pose proof (f_equal row_year Hr) as Ey.
  pose proof (f_equal row_week Hr) as Ew.
  cbn [calendar_columns row_weekday row_year row_week fst] in Ewd, Ey, Ew.
  exists (row_date r). repeat split; assumption.
Qed.

(** ... and every time stamp on a day from Monday to Friday has its row. *)
Lemma stamp_has_a_row (stamps : list Timestamp) (t : Timestamp) :
  Forall well_formed stamps ->
  In t stamps -> weekday t < 5 ->
  exists r,
    In r (weekday_rows stamps) /\ row_weekday r = weekday t
    /\ row_year r = ts_year t /\ row_week r = iso_week t.
Proof.
  intros Hwf Hin Hwd. rewrite Forall_forall in Hwf.
  destruct (groups_of_stamps stamps) as (_ & Hgroups & Hfound & _).
  destruct (Hfound t Hin) as (t' & c & Hgroup & E).
  destruct (Hgroups t' c Hgroup) as (Hin' & _).
  destruct (same_instant_same_cell t' t (Hwf _ Hin') (Hwf _ Hin) E)
    as (Hsame & Hyear & Hweek).
  exists (calendar_columns (t', c)).
  cbn [calendar_columns row_weekday row_year row_week fst].
  repeat split; try assumption.
  unfold weekday_rows. apply filter_In. split.
  - apply in_map. exact Hgroup.
  - cbn [calendar_columns row_weekday fst]. apply Z.ltb_lt. lia.
Qed.

(** X11: the pivot is a rectangle: one row of cells for each weekday of the
    index, and in every row one cell for each column.  The index holds
    weekdays from Monday to Friday in ascending order, each once; the
    columns are (year, week) pairs of time stamps that fall on such a
    weekday, in ascending order, each once; a cell is 0 or at least 1.  For
    time stamps as pandas holds them nothing is left out: every weekday from
    Monday to Friday on which a time stamp falls is in the index, the
    (year, week) pair of every such time stamp is a column, and the cell of
    a weekday and a column is 0 exactly when no time stamp falls on that
    weekday in that week of that year. *)
Theorem heatmap_grid_is_a_sorted_rectangle (stamps : list Timestamp) :
  let grid := heatmap_grid stamps in
  List.length (values grid) = List.length (index grid)
  /\ Forall (fun row => List.length row = List.length (columns grid))
       (values grid)
  /\ StronglySorted Z.lt (index grid)
  /\ (forall wd, In wd (index grid) -> 0 <= wd < 5)
  /\ StronglySorted pair_lt (columns grid)
  /\ (forall col, In col (columns grid) ->
        exists t, In t stamps /\ weekday t < 5
                  /\ col = (ts_year t, iso_week t))
  /\ Forall (Forall (fun x => x = 0%Q \/ (1 <= x)%Q)) (values grid)
  /\ (Forall well_formed stamps ->
      (forall wd, In wd (index grid)
                  <-> wd < 5 /\ exists t, In t stamps /\ weekday t = wd)
      /\ (forall col, In col (columns grid)
                      <-> exists t, In t stamps /\ weekday t < 5
                                    /\ col = (ts_year t, iso_week t))
      /\ (forall (i j : nat) (wd : Z) (col : Z * Z),
            nth_error (index grid) i = Some wd ->
            nth_error (columns grid) j = Some col ->
            exists (row : list Q) (x : Q),
              nth_error (values grid) i = Some row
              /\ nth_error row j = Some x
              /\ (x = 0%Q
                  <-> ~ exists t, In t stamps /\ weekday t = wd
                                  /\ (ts_year t, iso_week t) = col))).
Proof.
  intros grid. unfold grid, heatmap_grid, pivot_table.
  cbn [index columns values].
  assert (Hcounts : Forall (fun r => 1 <= row_count r) (weekday_rows stamps)).
  { apply Forall_forall. intros r Hr. now apply weekday_rows_date in Hr. }
  assert (Hindex : forall wd,
    In wd (sorted_unique Z.compare (map row_weekday (weekday_rows stamps))) ->
    0 <= wd < 5 /\ exists t, In t stamps /\ weekday t = wd).
  { intros wd Hwd. apply sorted_unique_in in Hwd.
    apply in_map_iff in Hwd. destruct Hwd as (r & <- & Hr).
    apply weekday_rows_spec in Hr. destruct Hr as (Hrange & t & Ht & E).
    split; [exact Hrange |]. exists t. auto. }
  assert (Hcolumns : forall col,
    In col (sorted_unique pair_compare
              (map (fun r => (row_year r, row_week r))
                 (weekday_rows stamps))) ->
    exists t, In t stamps /\ weekday t < 5 /\ col = (ts_year t, iso_week t)).
  { intros col Hcol. apply sorted_unique_in in Hcol.
    apply in_map_iff in Hcol. destruct Hcol as (r & <- & Hr).
    apply row_is_a_stamp in Hr.
    destruct Hr as (t & Hin & Hwd & _ & -> & ->). exists t. auto. }
  split; [now rewrite length_map |].
  split; [apply Forall_map, Forall_forall; intros wd _;
          now rewrite length_map |].
  split; [apply sorted_unique_sorted |].
  split; [intros wd Hwd; now apply Hindex |].
  split; [apply sorted_pairs |].
  split; [exact Hcolumns |].
  split.
  { apply Forall_map, Forall_forall. intros wd _.
    apply Forall_map, Forall_forall. intros col _.
    now apply pivot_cell_range. }
  intros Hwf. split; [| split].
  - intros wd. split.
    + intros Hwd. destruct (Hindex wd Hwd) as (Hrange & Ht).
      split; [lia | exact Ht].
    + intros (Hwd & t & Hin & <-).
      destruct (stamp_has_a_row stamps t Hwf Hin Hwd) as (r & Hr & E & _).
      apply sorted_unique_keeps; [exact Z_compare_eq |].
      apply in_map_iff. now exists r.
  - intros col. split; [apply Hcolumns |].
    intros (t & Hin & Hwd & ->).
    destruct (stamp_has_a_row stamps t Hwf Hin Hwd)
      as (r & Hr & _ & Hy & Hw).
    apply sorted_unique_keeps; [exact pair_compare_eq |].
    apply in_map_iff. exists r. split; [now rewrite Hy, Hw | exact Hr].
  - intros i j wd col Hi Hj.
    exists (map (pivot_cell 0 (weekday_rows stamps) wd)
              (sorted_unique pair_compare
                 (map (fun r => (row_year r, row_week r))
                    (weekday_rows stamps)))),
           (pivot_cell 0 (weekday_rows stamps) wd col).
    split; [now rewrite nth_error_map, Hi |].
    split; [now rewrite nth_error_map, Hj |].
    rewrite (pivot_cell_zero _ wd col Hcounts).
    destruct (Hindex wd (nth_error_In _ _ Hi)) as (Hrange & _).
    split.
    + intros Hnone (t & Hin & Hwd & Hcol).
      destruct (stamp_has_a_row stamps t Hwf Hin ltac:(lia))
        as (r & Hr & Ewd & Ey & Ew).
      assert (Hcell : In r (filter (in_cell wd col) (weekday_rows stamps))).
      { apply filter_In. split; [exact Hr |].
        unfold in_cell. rewrite <- Hcol. cbn [fst snd].
        rewrite Ewd, Ey, Ew, Hwd, !Z.eqb_refl. reflexivity. }
      rewrite Hnone in Hcell. destruct Hcell.
    + intros Hnone.
      destruct (filter (in_cell wd col) (weekday_rows stamps))
        as [|r rows] eqn:E; [reflexivity |].
      assert (Hcell : In r (filter (in_cell wd col) (weekday_rows stamps)))
        by (rewrite E; now left).
      apply filter_In in Hcell. destruct Hcell as (Hr & Hcell).
      unfold in_cell in Hcell.
      rewrite !andb_true_iff, !Z.eqb_eq in Hcell.
      destruct Hcell as ((Ewd & Ey) & Ew).
      destruct (row_is_a_stamp stamps r Hr) as (t & Hin & _ & Hw & Hy & Hk).
      destruct Hnone. exists t. split; [exact Hin |].
      split; [congruence |].
      destruct col as [y k]. cbn [fst snd] in *. congruence.
Qed.

(** ** The ticks *)

Lemma rows_by_year (f : Row -> bool) (groups : list (Timestamp * Z)) :
  StronglySorted by_instant groups ->
  (forall t c, In (t, c) groups -> well_formed t) ->
  StronglySorted Z.le
    (map row_year (filter f (map calendar_columns groups))).
Proof.
  induction 1 as [|[t c] groups Hs IH Hall]; intros Hwf; [constructor |].
  rewrite Forall_forall in Hall.
  assert (IH' : StronglySorted Z.le
                  (map row_year (filter f (map calendar_columns groups)))).
  { apply IH. intros t' c' Hin. apply (Hwf t' c'). now right. }
  cbn [map filter].
  destruct (f (calendar_columns (t, c))); [| exact IH'].
  cbn [map]. constructor; [exact IH' |].
  apply Forall_forall. intros y Hy.
  apply in_map_iff in Hy. destruct Hy as (r & <- & Hr).
  apply filter_In in Hr. destruct Hr as [Hr _].
  apply in_map_iff in Hr. destruct Hr as ([t' c'] & <- & Hin).
  cbn [calendar_columns row_year fst].
  apply later_instant_later_year.
  - apply (Hwf t c). now left.
  - apply (Hwf t' c'). now right.
  - exact (Hall _ Hin).
Qed.

Lemma filter_keeps_all {A : Type} (f : A -> bool) (l : list A) :
  Forall (fun x => f x = true) l -> filter f l = l.
Proof.
  induction 1 as [|x l Hx _ IH]; [reflexivity |].
  cbn [filter]. now rewrite Hx, IH.
Qed.

Lemma insert_in_front (x : Z) (s : list Z) :
  StronglySorted Z.lt s -> Forall (fun y => x <= y) s ->
  insert_unique Z.compare x s = x :: filter (fun y => negb (y =? x)) s.
Proof.
  intros Hs Hge. destruct Hs as [|y s Hs Hall]; [reflexivity |].
  rewrite Forall_forall in Hall.
  inversion Hge as [|? ? Hxy Hrest]; subst.
  cbn [insert_unique filter].
  destruct (Z.compare_spec x y) as [E|L|G]; [| | lia].
  - subst y. rewrite Z.eqb_refl. cbn [negb].
    rewrite filter_keeps_all; [reflexivity |].
    apply Forall_forall. intros z Hz. specialize (Hall z Hz).
    apply negb_true_iff, Z.eqb_neq. lia.
  - rewrite filter_keeps_all.
    + destruct (Z.eqb_spec y x); [lia | reflexivity].
    + apply Forall_forall. intros z Hz. specialize (Hall z Hz).
      apply negb_true_iff, Z.eqb_neq. lia.
Qed.

(** On a list in ascending order the values in order of first appearance
    are the sorted distinct values. *)
Lemma unique_of_sorted (l : list Z) :
  StronglySorted Z.le l -> unique l = sorted_unique Z.compare l.
Proof.
  induction 1 as [|x l Hs IH Hall]; [reflexivity |].
  cbn [unique sorted_unique fold_right].
  fold (sorted_unique Z.compare l). rewrite IH.
  symmetry. apply insert_in_front; [apply sorted_unique_sorted |].
  rewrite Forall_forall in *. intros y Hy.
  apply Hall. now apply sorted_unique_in in Hy.
Qed.

Lemma minimum_is_a_member (x : Z) (xs : list Z) :
  In (minimum x xs) (x :: xs).
Proof.
  unfold minimum. revert x.
  induction xs as [|y xs IH]; intros x; cbn [fold_left]; [now left |].
  destruct (IH (Z.min x y)) as [E|Hin].
  - rewrite <- E. destruct (Z.min_spec x y) as [[_ ->]|[_ ->]];
      [now left | right; now left].
  - right. now right.
Qed.

Lemma minimum_is_least (x : Z) (xs : list Z) (z : Z) :
  In z (x :: xs) -> minimum x xs <= z.
Proof.
  unfold minimum. revert x z.
  induction xs as [|y xs IH]; intros x z Hz; cbn [fold_left].
  - destruct Hz as [<-|[]]. lia.
  - assert (Hmin : fold_left Z.min xs (Z.min x y) <= Z.min x y)
      by (apply IH; now left).
    destruct Hz as [<-|[<-|Hz]]; [lia | lia |].
    apply IH. now right.
Qed.

Lemma get_loc_found (cols : list (Z * Z)) (key : Z * Z) :
  In key cols ->
  exists i, get_loc cols key = Ok i /\ 0 <= i < Z.of_nat (List.length cols)
            /\ nth_error cols (Z.to_nat i) = Some key.
Proof.
  induction cols as [|c cols IH]; intros Hin; [destruct Hin |].
  cbn [get_loc List.length].
  destruct (pair_compare c key) eqn:E.
  - exists 0. apply pair_compare_eq in E. subst c.
    split; [reflexivity |]. split; [lia | reflexivity].
  - destruct Hin as [->|Hin]; [now rewrite pair_compare_refl in E |].
    destruct (IH Hin) as (i & -> & Hi & Hnth). exists (i + 1).
    split; [reflexivity |]. split; [lia |].
    replace (Z.to_nat (i + 1)) with (S (Z.to_nat i)) by lia. exact Hnth.
  - destruct Hin as [->|Hin]; [now rewrite pair_compare_refl in E |].
    destruct (IH Hin) as (i & -> & Hi & Hnth). exists (i + 1).
    split; [reflexivity |]. split; [lia |].
    replace (Z.to_nat (i + 1)) with (S (Z.to_nat i)) by lia. exact Hnth.
Qed.

(** Every year of the frame gets its tick, at the column of the smallest
    week the frame has for that year. *)
Lemma ticks_are_found (df : list Row) (cols : list (Z * Z)) (ys : list Z) :
  (forall y, In y ys -> exists r, In r df /\ row_year r = y) ->
  (forall r, In r df -> In (row_year r, row_week r) cols) ->
  forall acc : list Z,
  exists locs : list Z,
    for_each
      (combine ys
         (flat_map (fun y =>
              match map row_week (filter (fun r => row_year r =? y) df) with
              | [] => []
              | w :: ws => [minimum w ws]
              end) ys))
      acc
      (fun key locs => let? loc := get_loc cols key in Ok (locs ++ [loc]))
    = Ok (acc ++ locs)
    /\ List.length locs = List.length ys
    /\ Forall (fun i => 0 <= i < Z.of_nat (List.length cols)) locs
    /\ Forall2 (fun y i =>
                  exists wk,
                    nth_error cols (Z.to_nat i) = Some (y, wk)
                    /\ (exists r, In r df /\ row_year r = y
                                  /\ row_week r = wk)
                    /\ (forall r, In r df -> row_year r = y ->
                          wk <= row_week r))
         ys locs.
Proof.
  intros Hyears Hcols.
  induction ys as [|y ys IH]; intros acc.
  - exists []. cbn. rewrite app_nil_r. auto.
  - cbn [flat_map].
    destruct (Hyears y (or_introl eq_refl)) as (r & Hr & Hy).
    destruct (map row_week (filter (fun r => row_year r =? y) df))
      as [|w ws] eqn:E.
    { assert (Hin : In (row_week r)
                      (map row_week
                         (filter (fun r => row_year r =? y) df))).
      { apply in_map, filter_In. split; [exact Hr | now apply Z.eqb_eq]. }
      rewrite E in Hin. destruct Hin. }
    cbn [app combine for_each].
    pose proof (minimum_is_a_member w ws) as Hmin. rewrite <- E in Hmin.
    apply in_map_iff in Hmin. destruct Hmin as (r' & Hweek & Hr').
    apply filter_In in Hr'. destruct Hr' as [Hr' Hy'].
    apply Z.eqb_eq in Hy'.
    destruct (get_loc_found cols (y, minimum w ws)) as (i & Hloc & Hi & Hnth).
    { rewrite <- Hweek, <- Hy'. now apply Hcols. }
    rewrite Hloc. cbn [rbind].
    destruct (IH (fun y' Hy'' => Hyears y' (or_intror Hy'')) (acc ++ [i]))
      as (locs & Hrun & Hlen & Hall & Hticks).
    exists (i :: locs). rewrite Hrun. rewrite <- app_assoc.
    cbn [app List.length].
    split; [reflexivity |]. split; [now rewrite Hlen |].
    split; [now constructor |].
    constructor; [| exact Hticks].
    exists (minimum w ws). split; [exact Hnth |]. split.
    + exists r'. auto.
    + intros r'' Hr'' Hy''. apply minimum_is_least. rewrite <- E.
      apply in_map, filter_In. split; [exact Hr'' | now apply Z.eqb_eq].
Qed.

Lemma cap_of_cell (x : Q) :
  x = 0%Q \/ (1 <= x)%Q -> (0 <= cap x <= 10)%Q.
Proof.
  intros Hx. split; [| apply cap_le].
  unfold cap, py_min. destruct (Qle_bool x 10); [| discriminate].
  destruct Hx as [->|Hx]; [apply Qle_refl |].
  apply Qle_trans with (y := 1%Q); [discriminate | exact Hx].
Qed.

Lemma weekday_rows_by_year (stamps : list Timestamp) :
  Forall well_formed stamps ->
  StronglySorted Z.le (map row_year (weekday_rows stamps)).
Proof.
  intros Hwf. rewrite Forall_forall in Hwf.
  unfold weekday_rows. apply rows_by_year.
  - apply groupby_date_sum_sorted.
  - intros t c Hin. apply Hwf.
    apply groupby_date_sum_in in Hin. now rewrite map_map, map_id in Hin.
Qed.

Lemma render_full_week
  (to_datetime : list string -> result (list Timestamp))
  (dates : list string) (output_file : string) (w : world)
  (stamps : list Timestamp) :
  to_datetime dates = Ok stamps ->
  Forall well_formed stamps ->
  (forall wd, 0 <= wd < 5 -> exists t, In t stamps /\ weekday t = wd) ->
  exists fig : Figure,
    generate_plotly_heatmap to_datetime dates output_file w
    = Some (Ok tt, w ++ [WroteHtml output_file fig; Shown fig])
    /\ fig_z fig = map (map cap) (values (heatmap_grid stamps))
    /\ List.length (fig_z fig) = 5%nat
    /\ fig_yticks fig = weekday_labels
    /\ List.length (fig_tickvals fig) = List.length (fig_ticktext fig)
    /\ Forall (fun i =>
                 0 <= i < Z.of_nat (List.length
                                      (columns (heatmap_grid stamps))))
         (fig_tickvals fig)
    /\ Forall (Forall (fun x => (0 <= x <= 10)%Q)) (fig_z fig)
    /\ exists years : list Z,
         fig_ticktext fig = map str_of_int years
         /\ StronglySorted Z.lt years
         /\ (forall y, In y years
                       <-> exists t, In t stamps /\ weekday t < 5
                                     /\ ts_year t = y)
         /\ Forall2 (fun y i =>
                       exists wk,
                         first_week stamps y wk
                         /\ nth_error (columns (heatmap_grid stamps))
                              (Z.to_nat i)
                            = Some (y, wk))
              years (fig_tickvals fig).
Proof.
  intros Hparse Hwf Hall.
  assert (Htime : Forall time_in_day stamps).
  { apply Forall_forall. intros t Ht. rewrite Forall_forall in Hwf.
    exact (proj2 (Hwf t Ht)). }
  pose proof (full_week_index stamps Htime Hall) as Hindex.
  pose proof (unique_of_sorted _ (weekday_rows_by_year stamps Hwf)) as Hyears.
  destruct (ticks_are_found (weekday_rows stamps)
              (columns (heatmap_grid stamps))
              (sorted_unique Z.compare (map row_year (weekday_rows stamps))))
    with (acc := @nil Z) as (locs & Hticks & Hlen & Hrange & Hstarts).
  { intros y Hy. apply sorted_unique_in in Hy. apply in_map_iff in Hy.
    destruct Hy as (r & <- & Hr). now exists r. }
  { intros r Hr. unfold heatmap_grid, pivot_table. cbn [columns].
    apply sorted_unique_keeps; [exact pair_compare_eq |].
    apply in_map_iff. now exists r. }
  eexists.
  split; [| split; [| split; [| split; [| split; [| split; [| split]]]]]].
  - unfold generate_plotly_heatmap. rewrite Hparse, bind_lift_ok.
    fold (heatmap_grid stamps).
    rewrite (set_index_full_week stamps Htime Hall), bind_lift_ok.
    cbn [frame_map columns]. unfold year_starts. rewrite Hyears.
    rewrite Hticks, bind_lift_ok.
    unfold bind, emit. rewrite <- app_assoc. reflexivity.
  - reflexivity.
  - cbn [fig_z frame_map values]. rewrite length_map.
    unfold heatmap_grid, pivot_table in Hindex |- *.
    cbn [values index] in Hindex |- *.
    now rewrite length_map, Hindex.
  - reflexivity.
  - cbn [fig_tickvals fig_ticktext app]. rewrite length_map.
    exact Hlen.
  - exact Hrange.
  - cbn [fig_z frame_map values].
    unfold heatmap_grid, pivot_table. cbn [values].
    rewrite map_map. apply Forall_map, Forall_forall. intros wd _.
    rewrite map_map. apply Forall_map, Forall_forall. intros col _.
    apply cap_of_cell.
    apply pivot_cell_range. apply Forall_forall. intros r Hr.
    now apply weekday_rows_date in Hr.
  - exists (sorted_unique Z.compare (map row_year (weekday_rows stamps))).
    cbn [fig_ticktext fig_tickvals app].
    split; [reflexivity |].
    split; [apply sorted_unique_sorted |].
    split.
    + intros y. split.
      * intros Hy. apply sorted_unique_in in Hy. apply in_map_iff in Hy.
        destruct Hy as (r & <- & Hr).
        destruct (row_is_a_stamp stamps r Hr) as (t & Hin & Hwd & _ & Ey & _).
        exists t. auto.
      * intros (t & Hin & Hwd & <-).
        destruct (stamp_has_a_row stamps t Hwf Hin Hwd)
          as (r & Hr & _ & Ey & _).
        apply sorted_unique_keeps; [exact Z_compare_eq |].
        apply in_map_iff. now exists r.
    + eapply Forall2_impl; [| exact Hstarts].
      intros y i (wk & Hnth & (r & Hr & Ey & Ew) & Hleast).
      exists wk. split; [| exact Hnth]. split.
      * destruct (row_is_a_stamp stamps r Hr)
          as (t & Hin & Hwd & _ & Ey' & Ew').
        exists t. repeat split; congruence || assumption.
      * intros t Hin Hwd Hy.
        destruct (stamp_has_a_row stamps t Hwf Hin Hwd)
          as (r' & Hr' & _ & Ey' & Ew').
        rewrite <- Ew'. apply Hleast; [exact Hr' | congruence].
Qed.

(** X13: when the dates parse to time stamps that fall on every weekday from
    Monday to Friday, [generate_plotly_heatmap] completes: it writes one
    file, at the path it was given, and shows the same figure.  The figure
    has five rows of cells between 0 and 10, one row per label, and one
    tick per calendar year that has a time stamp on a day from Monday to
    Friday: the years in ascending order, each labelled with its number and
    placed at the column of the smallest week the frame has for it. *)
Theorem full_week_is_rendered
  (to_datetime : list string -> result (list Timestamp))
  (dates : list string) (output_file : string) (w : world)
  (stamps : list Timestamp) :
  to_datetime dates = Ok stamps ->
  Forall well_formed stamps ->
  (forall wd, 0 <= wd < 5 -> exists t, In t stamps /\ weekday t = wd) ->
  exists fig : Figure,
    generate_plotly_heatmap to_datetime dates output_file w
    = Some (Ok tt, w ++ [WroteHtml output_file fig; Shown fig])
    /\ fig_z fig = map (map cap) (values (heatmap_grid stamps))
    /\ List.length (fig_z fig) = 5%nat
    /\ fig_yticks fig = weekday_labels
    /\ List.length (fig_tickvals fig) = List.length (fig_ticktext fig)
    /\ Forall (fun i =>
                 0 <= i < Z.of_nat (List.length
                                      (columns (heatmap_grid stamps))))
         (fig_tickvals fig)
    /\ Forall (Forall (fun x => (0 <= x <= 10)%Q)) (fig_z fig)
    /\ exists years : list Z,
         fig_ticktext fig = map str_of_int years
         /\ StronglySorted Z.lt years
         /\ (forall y, In y years
                       <-> exists t, In t stamps /\ weekday t < 5
                                     /\ ts_year t = y)
         /\ Forall2 (fun y i =>
                       exists wk,
                         first_week stamps y wk
                         /\ nth_error (columns (heatmap_grid stamps))
                              (Z.to_nat i)
                            = Some (y, wk))
              years (fig_tickvals fig).
Proof. apply render_full_week. Qed.


(** * Further properties of the whole run *)

(** ** What the fetch sends *)

Section FetchTrace.

Variable py_str : json -> string.
Variable server : nat -> request -> reply.

Lemma fetch_loop_trace (fuel : nat) (username : string)
  (header : list (string * string)) (from_date : string) :
  forall (contributions : list json) (cursor : json) (w w' : world)
         (r : result (list json)),
    fetch_loop py_str server fuel username header from_date contributions
      cursor w
    = Some (r, w') ->
    exists events,
      w' = w ++ events /\ Forall (fetch_event py_str username header) events.
Proof.
  assert (Hsent : forall cursor,
            fetch_event py_str username header
              (Sent {| url := graphql_url;
                       query := get_contributions_query py_str username
                                  from_date cursor;
                       headers := header |})).
  { intros cursor. cbn. repeat split. now exists from_date, cursor. }
  induction fuel as [|fuel IH]; intros contributions cursor w w' r Hrun;
    [discriminate Hrun |].
  cbn [fetch_loop] in Hrun. unfold bind at 1 in Hrun. unfold post in Hrun.
  set (req := {| url := graphql_url;
                 query := get_contributions_query py_str username from_date
                            cursor;
                 headers := header |}) in *.
  assert (Hone : exists events,
            w ++ [Sent req] = w ++ events
            /\ Forall (fetch_event py_str username header) events).
  { exists [Sent req]. split; [reflexivity |]. constructor; [apply Hsent |].
    constructor. }
  destruct (server (List.length (requests_sent w)) req) as [e|data];
    [inversion Hrun; subst; exact Hone |].
  unfold bind at 1 in Hrun. cbn [lift] in Hrun.
  destruct (py_in "errors" data) as [[|]|e];
    [| | inversion Hrun; subst; exact Hone].
  - unfold bind at 1 in Hrun. cbn [lift] in Hrun.
    destruct (getitem data "errors") as [errors|e];
      [| inversion Hrun; subst; exact Hone].
    unfold bind, print, emit, ret in Hrun. inversion Hrun; subst.
    exists [Sent req; Printed errors_label errors].
    split; [now rewrite <- app_assoc |].
    repeat constructor. apply Hsent.
  - unfold bind at 1 in Hrun. cbn [lift] in Hrun.
    match type of Hrun with
    | match ?x with _ => _ end = _ =>
        destruct x as [contributions_data|e];
          [| inversion Hrun; subst; exact Hone]
    end.
    unfold bind at 1 in Hrun. cbn [lift] in Hrun.
    destruct (extract_contributions contributions_data) as [extracted|e];
      [| inversion Hrun; subst; exact Hone].
    unfold bind at 1 in Hrun. cbn [lift] in Hrun.
    destruct (get_page_info contributions_data) as [page_info|e];
      [| inversion Hrun; subst; exact Hone].
    unfold bind at 1 in Hrun. cbn [lift] in Hrun.
    destruct (getitem page_info "hasNextPage") as [has_next|e];
      [| inversion Hrun; subst; exact Hone].
    destruct (truthy has_next).
    + unfold bind at 1 in Hrun. cbn [lift] in Hrun.
      destruct (getitem page_info "endCursor") as [next|e];
        [| inversion Hrun; subst; exact Hone].
      apply IH in Hrun. destruct Hrun as (events & -> & Hevents).
      exists (Sent req :: events). split; [now rewrite <- app_assoc |].
      constructor; [apply Hsent | exact Hevents].
    + unfold ret in Hrun. inversion Hrun; subst. exact Hone.
Qed.

Lemma fetch_years_trace (fuel : nat) (username : string)
  (header : list (string * string)) (start_date : datetime)
  (offsets : list Z) :
  forall (contributions : list json) (w w' : world) (r : result (list json)),
    fetch_years (fetch_contributions py_str server fuel) username header
      start_date offsets contributions w
    = Some (r, w') ->
    exists events,
      w' = w ++ events /\ Forall (fetch_event py_str username header) events.
Proof.
  induction offsets as [|k offsets IH]; intros contributions w w' r Hrun.
  - cbn in Hrun. inversion Hrun; subst. exists []. now rewrite app_nil_r.
  - unfold fetch_years in Hrun. cbn [for_each_M] in Hrun.
    unfold bind at 1 in Hrun. unfold bind at 1 in Hrun. cbn [lift] in Hrun.
    destruct (replace_year start_date (year start_date + k))
      as [current_start|e].
    + unfold bind at 1 in Hrun. unfold fetch_contributions at 1 in Hrun.
      destruct (fetch_loop py_str server fuel username header
                  (strftime_Ymd current_start) [] JNull w)
        as [[[fetched|e] w1]|] eqn:Hloop; [| | discriminate Hrun].
      * apply fetch_loop_trace in Hloop.
        destruct Hloop as (events1 & -> & Hevents1).
        unfold ret in Hrun. apply IH in Hrun.
        destruct Hrun as (events2 & -> & Hevents2).
        exists (events1 ++ events2). split; [now rewrite app_assoc |].
        now apply Forall_app.
      * apply fetch_loop_trace in Hloop.
        destruct Hloop as (events1 & -> & Hevents1).
        inversion Hrun; subst. now exists events1.
    + inversion Hrun; subst. exists []. now rewrite app_nil_r.
Qed.

(** X14: whatever the endpoint answers, and whether the run returns or
    raises, [fetch_all_contributions] adds to the trace nothing but requests
    to the GraphQL endpoint that carry the header it was given and a query
    about the user it was given, and lines that report errors: it writes no
    file and asks nothing else. *)
Theorem fetch_only_queries_the_endpoint (fuel : nat) (username : string)
  (header : list (string * string)) (start_date end_date : datetime)
  (w w' : world) (r : result (list json)) :
  fetch_all_contributions py_str server fuel username header start_date
    end_date w
  = Some (r, w') ->
  exists events,
    w' = w ++ events /\ Forall (fetch_event py_str username header) events.
Proof.
  unfold fetch_all_contributions, fetch_all_contributions_with.
  apply fetch_years_trace.
Qed.

End FetchTrace.

(** ** The command from its arguments to the figure *)

Lemma as_strings_of_strings (instants : list string) :
  as_strings (map JStr instants) = Some instants.
Proof.
  induction instants as [|i instants IH]; [reflexivity |].
  cbn [map as_strings]. now rewrite IH.
Qed.

Lemma process_occurred (instants : list string) :
  process_contributions (map occurred instants) = Ok (map JStr instants).
Proof.
  unfold process_contributions.
  now rewrite (process_contributions_from (map occurred instants)
                 (map JStr instants) [] (occurred_dates instants)).
Qed.

Section MainProperties.

Variable py_str : json -> string.
Variable to_datetime : list string -> result (list Timestamp).
Variable strptime_Ymd : string -> result datetime.
Variable heatmap_of_values : list json -> string -> M unit.

(** X15: with a start and an end in one calendar year, or an end in an
    earlier year, the command asks the endpoint nothing; the heat map of no
    dates has no column, so the five labels are accepted and the command
    ends normally, having written and shown a figure of five rows without
    cells. *)
Theorem main_in_one_year_draws_an_empty_figure
  (server : nat -> request -> reply)
  (fuel : nat) (token : option string)
  (username start end_date output : string)
  (start_datetime end_datetime : datetime) (w : world) :
  strptime_Ymd start = Ok start_datetime ->
  strptime_Ymd end_date = Ok end_datetime ->
  year end_datetime <= year start_datetime ->
  to_datetime [] = Ok [] ->
  main py_str server to_datetime strptime_Ymd heatmap_of_values fuel token
    username start end_date output w
  = Some (Ok tt, w ++ [WroteHtml output empty_figure; Shown empty_figure]).
Proof.
  intros Hstart Hend Hyears Hparse.
  unfold main. rewrite Hstart, bind_lift_ok, Hend, bind_lift_ok.
  unfold fetch_all_contributions, fetch_all_contributions_with, py_range.
  replace (Z.to_nat (year end_datetime - year start_datetime)) with 0%nat
    by lia.
  cbn [seq map fetch_years for_each_M].
  unfold bind at 1. unfold ret at 1.
  change (process_contributions []) with (@Ok (list json) []).
  rewrite bind_lift_ok. cbn [as_strings].
  now apply render_without_weekdays with (stamps := @nil Timestamp).
Qed.

(** X16: the command end to end.  When the endpoint serves the pages of
    every year window, their events carry time stamps as strings, and these
    fall on every weekday from Monday to Friday, the command posts the
    requests of the windows in order, each with the bearer token in its
    header, and then writes and shows one figure, drawn from the grid of
    those time stamps. *)
Theorem main_fetches_then_renders (fuel : nat) (token : option string)
  (username start end_date output : string)
  (start_datetime end_datetime : datetime)
  (windows : list (list Collection)) (instants : list string)
  (stamps : list Timestamp) :
  strptime_Ymd start = Ok start_datetime ->
  strptime_Ymd end_date = Ok end_datetime ->
  Z.of_nat (List.length windows) = year end_datetime - year start_datetime ->
  Forall (fun pages => paged pages = true) windows ->
  Forall (fun pages => (List.length pages <= fuel)%nat) windows ->
  (forall k, 0 <= k < year end_datetime - year start_datetime ->
     valid_date (year start_datetime + k) (month start_datetime)
       (day start_datetime)
     = true) ->
  flat_map page_events (List.concat windows) = map occurred instants ->
  to_datetime instants = Ok stamps ->
  Forall well_formed stamps ->
  (forall wd, 0 <= wd < 5 -> exists t, In t stamps /\ weekday t = wd) ->
  exists fig : Figure,
    main py_str (scripted (replies_of (List.concat windows))) to_datetime
      strptime_Ymd heatmap_of_values fuel token username start end_date
      output []
    = Some (Ok tt,
            map Sent (window_requests py_str username (bearer_header token)
                        (year_windows start_datetime end_datetime) windows)
            ++ [WroteHtml output fig; Shown fig])
    /\ fig_z fig = map (map cap) (values (heatmap_grid stamps)).
Proof.
  intros Hstart Hend Hlen Hpaged Hfuel Hvalid Hevents Hparse Hwf Hweek.
  destruct (render_full_week to_datetime instants output
              (map Sent (window_requests py_str username
                           (bearer_header token)
                           (year_windows start_datetime end_datetime)
                           windows))
              stamps Hparse Hwf Hweek)
    as (fig & Hrender & Hz & _).
  exists fig. split; [| exact Hz].
  unfold main. rewrite Hstart, bind_lift_ok, Hend, bind_lift_ok.
  unfold bind at 1.
  rewrite (fetch_all_windows py_str username (bearer_header token)
             start_datetime end_datetime windows fuel Hlen Hpaged Hfuel
             Hvalid).
  rewrite Hevents, process_occurred, bind_lift_ok, as_strings_of_strings.
  exact Hrender.
Qed.

End MainProperties.

(** * Concrete runs of the further properties *)

Lemma well_formedb_sound (stamps : list Timestamp) :
  forallb well_formedb stamps = true -> Forall well_formed stamps.
Proof.
  rewrite forallb_forall. intros H. apply Forall_forall. intros t Ht.
  specialize (H t Ht). unfold well_formedb in H.
  rewrite !andb_true_iff, !Z.leb_le, !Z.ltb_lt in H.
  unfold well_formed, time_in_day. tauto.
Qed.

Lemma covers_week_sound (stamps : list Timestamp) :
  covers_week stamps = true ->
  forall wd, 0 <= wd < 5 -> exists t, In t stamps /\ weekday t = wd.
Proof.
  unfold covers_week. rewrite forallb_forall. intros H wd Hwd.
  assert (Hin : In wd [0; 1; 2; 3; 4]) by (simpl; lia).
  specialize (H wd Hin). apply existsb_exists in H.
  destruct H as (t & Ht & E). exists t. split; [exact Ht |].
  now apply Z.eqb_eq.
Qed.

Lemma time_in_day_of_well_formed (stamps : list Timestamp) :
  Forall well_formed stamps -> Forall time_in_day stamps.
Proof.
  intros H. apply Forall_forall. intros t Ht. rewrite Forall_forall in H.
  exact (proj2 (H t Ht)).
Qed.

(** Three year windows from 15 September 2020: the first has one page, the
    second answers a page and then errors, the third has one page.  The
    events of all three come back, and the errors are printed. *)
Lemma errors_in_the_second_year_keep_all_events :
  fetch_all_contributions unused_str
    (scripted [Body (encode_body sample_page_two);
               Body (encode_body sample_page_one);
               Body sample_errors_body;
               Body (encode_body sample_page_thursday)])
    2 "octocat" sample_header
    {| year := 2020; month := 9; day := 15 |}
    {| year := 2023; month := 3; day := 1 |} []
  = Some (Ok (page_events sample_page_two
              ++ page_events sample_page_one
              ++ page_events sample_page_thursday),
          [Sent (page_request unused_str "octocat" sample_header "2020-09-15"
                   JNull);
           Sent (page_request unused_str "octocat" sample_header "2021-09-15"
                   JNull);
           Sent (page_request unused_str "octocat" sample_header "2021-09-15"
                   (JStr sample_cursor));
           Printed errors_label sample_errors;
           Sent (page_request unused_str "octocat" sample_header "2022-09-15"
                   JNull)]).
Proof.
  refine (proj2 (proj2 (proj2 (proj2 (proj2
            (errors_stop_pagination_and_keep_events unused_str
               (scripted []))))))
            2%nat "octocat" sample_header
            {| year := 2020; month := 9; day := 15 |}
            {| year := 2023; month := 3; day := 1 |}
            [[sample_page_two]] [[sample_page_thursday]] [sample_page_one]
            [("errors", sample_errors)] sample_errors _ _ _ _ _ _ _).
  - reflexivity.
  - repeat constructor.
  - repeat constructor.
  - reflexivity.
  - repeat constructor.
  - reflexivity.
  - cbn [year month day]. intros k Hk.
    assert (Hcases : k = 0 \/ k = 1 \/ k = 2) by lia.
    destruct Hcases as [->|[->| ->]]; reflexivity.
Defined.

(** A refused connection. *)
Lemma refused_connection_leaves_the_fetch :
  fetch_loop unused_str (scripted [Fault ConnectionError]) 1 "octocat"
    sample_header "2023-01-01" (page_events sample_page_one) JNull []
  = Some (Raise ConnectionError,
          [] ++ [Sent (page_request unused_str "octocat" sample_header
                         "2023-01-01" JNull)]).
Proof.
  apply (proj1 (network_fault_leaves_the_fetch unused_str
                  (scripted [Fault ConnectionError]) 0%nat "octocat"
                  sample_header "2023-01-01" (page_events sample_page_one)
                  JNull [] ConnectionError eq_refl)).
Defined.

(** The body sent with a rejected token. *)
Lemma rejected_token_is_a_key_error :
  fetch_loop unused_str (scripted [Body sample_rejected_body]) 1 "octocat"
    sample_header "2023-01-01" [] JNull []
  = Some (Raise KeyError,
          [] ++ [Sent (page_request unused_str "octocat" sample_header
                         "2023-01-01" JNull)]).
Proof.
  apply (proj1 (body_without_data_raises unused_str
                  (scripted [Body sample_rejected_body]) 0%nat "octocat"
                  sample_header "2023-01-01" [] JNull []
                  [("message", JStr "Bad credentials");
                   ("documentation_url",
                    JStr "https://docs.github.com/graphql")]
                  eq_refl eq_refl));
    reflexivity.
Defined.

(** A page that always announces a next one. *)
Lemma repeating_page_never_returns :
  fetch_loop unused_str (repeating sample_page_one) 25 "octocat"
    sample_header "2023-01-01" [] JNull []
  = None.
Proof.
  apply (endless_pages_never_return unused_str (repeating sample_page_one)
           sample_page_one
           {| nodes := [occurred "2023-01-02T10:00:00Z";
                        occurred "2023-01-02T11:00:00Z"];
              pageInfo := {| hasNextPage := true;
                             endCursor := Some sample_cursor |} |}
           [] 25%nat "octocat" sample_header "2023-01-01" [] JNull []);
    reflexivity.
Defined.

(** Three pages of one window. *)
Lemma three_pages_are_walked :
  fetch_contributions unused_str
    (scripted (replies_of [sample_page_one; sample_page_one;
                           sample_page_two]))
    3 "octocat" sample_header "2023-01-01" []
  = Some (Ok (flat_map page_events
                [sample_page_one; sample_page_one; sample_page_two]),
          map Sent (page_requests unused_str "octocat" sample_header
                      "2023-01-01" JNull
                      [sample_page_one; sample_page_one; sample_page_two])).
Proof.
  apply (proj1 (fetch_contributions_walks_every_page unused_str "octocat"
                  sample_header "2023-01-01"
                  [sample_page_one; sample_page_one; sample_page_two] 3%nat
                  eq_refl (le_n 3))).
Defined.

(** Two windows, from 15 September 2021 to 1 March 2023. *)
Lemma two_windows_are_walked :
  fetch_all_contributions unused_str
    (scripted (replies_of (List.concat sample_windows))) 2 "octocat"
    sample_header
    {| year := 2021; month := 9; day := 15 |}
    {| year := 2023; month := 3; day := 1 |} []
  = Some (Ok (flat_map page_events (List.concat sample_windows)),
          map Sent (window_requests unused_str "octocat" sample_header
                      (year_windows {| year := 2021; month := 9; day := 15 |}
                                    {| year := 2023; month := 3; day := 1 |})
                      sample_windows)).
Proof.
  apply (fetch_all_contributions_walks_every_window unused_str "octocat"
           sample_header
           {| year := 2021; month := 9; day := 15 |}
           {| year := 2023; month := 3; day := 1 |} sample_windows 2%nat).
  - reflexivity.
  - repeat constructor.
  - repeat constructor.
  - cbn [year month day]. intros k Hk.
    assert (Hcases : k = 0 \/ k = 1) by lia.
    destruct Hcases as [->| ->]; reflexivity.
Defined.

(** Issues that come without their nodes. *)
Lemma null_nodes_are_a_type_error :
  extract_contributions (JObj sample_fields_with_null_nodes)
  = Raise TypeError.
Proof.
  apply (proj2 (proj2 (extract_contributions_raises_on_missing_parts
                         sample_fields_with_null_nodes) [] eq_refl)
           [("nodes", JNull);
            ("pageInfo", encode_page_info {| hasNextPage := false;
                                             endCursor := None |})]);
    reflexivity.
Defined.

(** The first week of 2023 is a column of the grid of the sample week. *)
Lemma sample_week_has_its_column :
  In (2023, 1) (columns (heatmap_grid (stamps_of sample_full_week))).
Proof.
  refine (proj2 (proj1 (proj2
            (proj2 (proj2 (proj2 (proj2 (proj2 (proj2 (proj2
               (heatmap_grid_is_a_sorted_rectangle
                  (stamps_of sample_full_week)))))))) _))
            (2023, 1)) _).
  - apply well_formedb_sound. reflexivity.
  - exists {| ts_year := 2023; ts_month := 1; ts_day := 2; ts_hour := 10;
              ts_minute := 0; ts_second := 0; ts_nanosecond := 0 |}.
    split; [left; reflexivity |]. split; reflexivity.
Defined.

(** The full working week of the sample takes the five labels. *)
Lemma sample_full_week_takes_the_labels :
  index (heatmap_grid (stamps_of sample_full_week)) = [0; 1; 2; 3; 4]
  /\ set_index weekday_labels (heatmap_grid (stamps_of sample_full_week))
     = Ok {| index := weekday_labels;
             columns := columns (heatmap_grid (stamps_of sample_full_week));
             values := values (heatmap_grid (stamps_of sample_full_week)) |}.
Proof.
  refine (proj1 (proj2 (labels_fit_a_full_week_or_no_weekday
                          (stamps_of sample_full_week) _)) _).
  - apply time_in_day_of_well_formed, well_formedb_sound. reflexivity.
  - apply covers_week_sound. reflexivity.
Defined.

(** The example of the specification, a Monday and a Saturday: the labels
    do not fit its single row. *)
Lemma monday_alone_is_a_length_mismatch :
  (1 <= List.length (index (heatmap_grid (stamps_of sample_dates))) <= 4)%nat
  /\ set_index weekday_labels (heatmap_grid (stamps_of sample_dates))
     = Raise ValueError
  /\ generate_plotly_heatmap iso_to_datetime sample_dates
       "contributions_plotly_fig.html" []
     = Some (Raise ValueError, []).
Proof.
  refine (proj1 (partial_week_is_a_length_mismatch iso_to_datetime
                   sample_dates "contributions_plotly_fig.html" []
                   (stamps_of sample_dates) eq_refl)
            {| ts_year := 2023; ts_month := 1; ts_day := 2; ts_hour := 10;
               ts_minute := 0; ts_second := 0; ts_nanosecond := 0 |}
            1 _ _ _ _ _).
  - apply time_in_day_of_well_formed, well_formedb_sound. reflexivity.
  - left. reflexivity.
  - reflexivity.
  - lia.
  - intros t Ht.
    let v := eval vm_compute in (stamps_of sample_dates) in
    change (stamps_of sample_dates) with v in Ht.
    destruct Ht as [<-|[<-|[<-|[]]]]; vm_compute; discriminate.
Defined.

(** No date at all, and a weekend alone: fewer than five weekdays are left
    after the filter, none in fact, and the figure is written all the
    same. *)
Lemma dates_without_weekdays_are_rendered :
  index (heatmap_grid (stamps_of [])) = []
  /\ generate_plotly_heatmap iso_to_datetime []
       "contributions_plotly_fig.html" []
     = Some (Ok tt,
             [WroteHtml "contributions_plotly_fig.html" empty_figure;
              Shown empty_figure])
  /\ index (heatmap_grid (stamps_of sample_weekend)) = []
  /\ generate_plotly_heatmap iso_to_datetime sample_weekend
       "contributions_plotly_fig.html" []
     = Some (Ok tt,
             [WroteHtml "contributions_plotly_fig.html" empty_figure;
              Shown empty_figure]).
Proof.
  repeat split; vm_compute; reflexivity.
Qed.

Lemma sample_full_week_is_rendered :
  exists fig : Figure,
    generate_plotly_heatmap iso_to_datetime sample_full_week
      "contributions_plotly_fig.html" []
    = Some (Ok tt,
            [] ++ [WroteHtml "contributions_plotly_fig.html" fig; Shown fig])
    /\ fig_z fig
       = map (map cap) (values (heatmap_grid (stamps_of sample_full_week)))
    /\ List.length (fig_z fig) = 5%nat
    /\ fig_yticks fig = weekday_labels
    /\ List.length (fig_tickvals fig) = List.length (fig_ticktext fig)
    /\ Forall (fun i =>
                 0 <= i < Z.of_nat
                            (List.length
                               (columns (heatmap_grid
                                           (stamps_of sample_full_week)))))
         (fig_tickvals fig)
    /\ Forall (Forall (fun x => (0 <= x <= 10)%Q)) (fig_z fig)
    /\ exists years : list Z,
         fig_ticktext fig = map str_of_int years
         /\ StronglySorted Z.lt years
         /\ (forall y, In y years
                       <-> exists t, In t (stamps_of sample_full_week)
                                     /\ weekday t < 5 /\ ts_year t = y)
         /\ Forall2 (fun y i =>
                       exists wk,
                         first_week (stamps_of sample_full_week) y wk
                         /\ nth_error
                              (columns (heatmap_grid
                                          (stamps_of sample_full_week)))
                              (Z.to_nat i)
                            = Some (y, wk))
              years (fig_tickvals fig).
Proof.
  apply (full_week_is_rendered iso_to_datetime sample_full_week
           "contributions_plotly_fig.html" [] (stamps_of sample_full_week)).
  - reflexivity.
  - apply well_formedb_sound. reflexivity.
  - apply covers_week_sound. reflexivity.
Defined.

(** The run over the two sample windows asks the endpoint and nothing
    else. *)
Lemma sample_windows_only_query_the_endpoint :
  exists events,
    map Sent (window_requests unused_str "octocat" sample_header
                (year_windows {| year := 2021; month := 9; day := 15 |}
                              {| year := 2023; month := 3; day := 1 |})
                sample_windows)
    = [] ++ events
    /\ Forall (fetch_event unused_str "octocat" sample_header) events.
Proof.
  apply (fetch_only_queries_the_endpoint unused_str
           (scripted (replies_of (List.concat sample_windows))) 2%nat
           "octocat" sample_header
           {| year := 2021; month := 9; day := 15 |}
           {| year := 2023; month := 3; day := 1 |} []
           (map Sent (window_requests unused_str "octocat" sample_header
                        (year_windows
                           {| year := 2021; month := 9; day := 15 |}
                           {| year := 2023; month := 3; day := 1 |})
                        sample_windows))
           (Ok (flat_map page_events (List.concat sample_windows)))).
  vm_compute. reflexivity.
Defined.

(** The year 2024 from its first to its last day. *)
Lemma one_year_range_draws_an_empty_figure :
  main unused_str (repeating sample_page_two) iso_to_datetime padded_strptime
    unused_heatmap 5 None "octocat" "2024-01-01" "2024-12-31"
    "contributions_plotly_fig.html" []
  = Some (Ok tt,
          [] ++ [WroteHtml "contributions_plotly_fig.html" empty_figure;
                 Shown empty_figure]).
Proof.
  apply (main_in_one_year_draws_an_empty_figure unused_str iso_to_datetime
           padded_strptime unused_heatmap (repeating sample_page_two) 5%nat
           None "octocat" "2024-01-01" "2024-12-31"
           "contributions_plotly_fig.html"
           {| year := 2024; month := 1; day := 1 |}
           {| year := 2024; month := 12; day := 31 |} []).
  - reflexivity.
  - reflexivity.
  - cbn [year]. lia.
  - reflexivity.
Defined.

(** Two windows whose events cover the working week. *)
Lemma sample_run_writes_the_figure :
  exists fig : Figure,
    main unused_str (scripted (replies_of (List.concat sample_full_windows)))
      iso_to_datetime padded_strptime unused_heatmap 2 (Some "token")
      "octocat" "2021-09-15" "2023-03-01" "contributions_plotly_fig.html" []
    = Some (Ok tt,
            map Sent (window_requests unused_str "octocat"
                        (bearer_header (Some "token"))
                        (year_windows
                           {| year := 2021; month := 9; day := 15 |}
                           {| year := 2023; month := 3; day := 1 |})
                        sample_full_windows)
            ++ [WroteHtml "contributions_plotly_fig.html" fig; Shown fig])
    /\ fig_z fig
       = map (map cap)
           (values (heatmap_grid (stamps_of sample_full_instants))).
Proof.
  apply (main_fetches_then_renders unused_str iso_to_datetime padded_strptime
           unused_heatmap 2%nat (Some "token") "octocat" "2021-09-15"
           "2023-03-01" "contributions_plotly_fig.html"
           {| year := 2021; month := 9; day := 15 |}
           {| year := 2023; month := 3; day := 1 |}
           sample_full_windows sample_full_instants
           (stamps_of sample_full_instants)).
  - reflexivity.
  - reflexivity.
  - reflexivity.
  - repeat constructor.
  - repeat constructor.
  - cbn [year month day]. intros k Hk.
    assert (Hcases : k = 0 \/ k = 1) by lia.
    destruct Hcases as [->| ->]; reflexivity.
  - reflexivity.
  - reflexivity.
  - apply well_formedb_sound. reflexivity.
  - apply covers_week_sound. reflexivity.
Defined.
